(** * The diet-rule engine and the meal-suggestion ranker

    A shallow embedding of [src/engines/dietRules.ts] and
    [src/engines/mealSuggestions.ts], with the data model of
    [src/types/index.ts].

    Number representation.
    - Gram amounts, calories, glycemic index and quantities are JavaScript
      numbers that come from user data, so they are binary64 floats
      ([PrimFloat.float]) with the IEEE operations.
    - The score is only ever built from small integer literals (50, 20, 40,
      ...), so every intermediate value is an integer that binary64 holds
      exactly; it is a [Z].
    - Clock readings ([getHours], [getMinutes], [getTime]) are integers.
      A value that may be NaN ([parseInt] of a malformed string, the time value
      of an unparsable date) is an [option Z] with [None] for NaN; this is
      exact below 2^53.
    - A date string is represented by what [new Date(s)] makes of it: its time
      value in milliseconds, or an invalid date.
    - Strings are ASCII: [toLowerCase] maps [A-Z] to [a-z]. *)

From Stdlib Require Import ZArith QArith Qround List Bool String Ascii Lia.
From Stdlib Require Import Floats DecimalString Permutation Sorted.
From Stdlib Require DecimalPos.
Import ListNotations.

#[local] Set Warnings "-inexact-float".
#[local] Close Scope Q_scope.
#[local] Open Scope string_scope.
#[local] Open Scope Z_scope.

(* ================================================================== *)
(** ** The JavaScript built-ins the two engines call *)

Module JS.

(** *** Numbers *)

Definition num := float.

(** [a >= b] and [a > b]; both are false as soon as one side is NaN. *)
Definition geb (a b : num) : bool := PrimFloat.leb b a.
Definition gtb (a b : num) : bool := PrimFloat.ltb b a.

(** An integer literal of the source as a binary64 value. Only used on the
    small non-negative literals of the limits table. *)
Definition ofZ (z : Z) : num := PrimFloat.of_uint63 (Uint63.of_Z z).

(** Truthiness of a number: [0], [-0] and [NaN] are falsy. *)
Definition truthy (x : num) : bool :=
  negb (PrimFloat.eqb x 0%float || PrimFloat.is_nan x).

(** [x || 0] on an optional number, [None] being [undefined]. *)
Definition orZero (x : option num) : num :=
  match x with
  | Some v => if truthy v then v else 0%float
  | None => 0%float
  end.

(** Integer-valued numbers that may be NaN ([None]). *)
Definition int := option Z.

Definition imul (a b : int) : int :=
  match a, b with Some x, Some y => Some (x * y) | _, _ => None end.
Definition iadd (a b : int) : int :=
  match a, b with Some x, Some y => Some (x + y) | _, _ => None end.
Definition iltb (a b : int) : bool :=
  match a, b with Some x, Some y => x <? y | _, _ => false end.
Definition igtb (a b : int) : bool := iltb b a.
Definition igeb (a b : int) : bool :=
  match a, b with Some x, Some y => y <=? x | _, _ => false end.

(** [String(n)] for an integer [n]. *)
Definition toString (z : Z) : string := NilZero.string_of_int (Z.to_int z).

(** *** Strings (ASCII) *)

Definition lowerChar (c : ascii) : ascii :=
  let n := nat_of_ascii c in
  if ((65 <=? n) && (n <=? 90))%nat then ascii_of_nat (n + 32) else c.

Fixpoint toLowerCase (s : string) : string :=
  match s with
  | EmptyString => EmptyString
  | String c s' => String (lowerChar c) (toLowerCase s')
  end.

(** [s.includes(sub)] *)
Fixpoint includes (s sub : string) : bool :=
  String.prefix sub s ||
  match s with
  | EmptyString => false
  | String _ s' => includes s' sub
  end.

(** [s.split(sep)] for a one-character separator. *)
Fixpoint split (sep : ascii) (s : string) : list string :=
  match s with
  | EmptyString => [EmptyString]
  | String c s' =>
      if Ascii.eqb c sep then EmptyString :: split sep s'
      else match split sep s' with
           | h :: t => String c h :: t
           | [] => [String c EmptyString]
           end
  end.

(** [parts.join(sep)] *)
Definition join (sep : string) (parts : list string) : string :=
  String.concat sep parts.

Definition isWhiteSpace (c : ascii) : bool :=
  let n := nat_of_ascii c in
  ((n =? 32) || ((9 <=? n) && (n <=? 13)))%nat.

Fixpoint trimStart (s : string) : string :=
  match s with
  | String c s' => if isWhiteSpace c then trimStart s' else s
  | EmptyString => EmptyString
  end.

Definition digitValue (radix : Z) (c : ascii) : option Z :=
  let n := Z.of_nat (nat_of_ascii c) in
  let d := if (48 <=? n) && (n <=? 57) then Some (n - 48)
           else if (97 <=? n) && (n <=? 122) then Some (n - 87)
           else if (65 <=? n) && (n <=? 90) then Some (n - 55)
           else None in
  match d with
  | Some v => if v <? radix then Some v else None
  | None => None
  end.

(** The value of the longest prefix of radix digits; [acc] is [None] while
    no digit has been read. *)
Fixpoint digitsPrefix (radix : Z) (s : string) (acc : option Z) : option Z :=
  match s with
  | String c s' =>
      match digitValue radix c with
      | Some d =>
          digitsPrefix radix s'
            (Some (radix * match acc with Some a => a | None => 0 end + d))
      | None => acc
      end
  | EmptyString => acc
  end.

(** [parseInt(s)] without a radix argument: leading white space, an optional
    sign, an optional [0x] prefix, then the longest run of digits; NaN when
    there is no digit. *)
Definition parseInt (s : string) : int :=
  let s0 := trimStart s in
  let '(sign, s1) :=
    match s0 with
    | String "-" r => (-1, r)
    | String "+" r => (1, r)
    | _ => (1, s0)
    end in
  let '(radix, s2) :=
    match s1 with
    | String "0" (String "x" r) => (16, r)
    | String "0" (String "X" r) => (16, r)
    | _ => (10, s1)
    end in
  option_map (Z.mul sign) (digitsPrefix radix s2 None).

(** [parseInt(parts[i])]: an index past the end reads [undefined], whose
    string form has no digit. *)
Definition parseIntAt (parts : list string) (i : nat) : int :=
  match nth_error parts i with
  | Some s => parseInt s
  | None => None
  end.

(** *** Arrays *)

(** [arr.slice(-n)]: the last [n] elements. *)
Definition sliceLast {A} (n : nat) (l : list A) : list A :=
  skipn (List.length l - n) l.

(** [arr[arr.length - 1]], [undefined] on the empty array. *)
Definition lastElement {A} (l : list A) : option A :=
  match rev l with
  | [] => None
  | x :: _ => Some x
  end.

(** [arr.sort(cmp)]. The language fixes the result for a consistent
    comparator: the sort is stable, and [x] goes before [y] when
    [cmp x y < 0]. Insertion from the right realises exactly that: the
    element inserted came first in the array, and it is passed only by the
    elements that must strictly precede it. *)
Section Sort.
Context {A : Type} (cmp : A -> A -> Z).

Fixpoint insert (x : A) (l : list A) : list A :=
  match l with
  | [] => [x]
  | y :: l' => if cmp y x <? 0 then y :: insert x l' else x :: y :: l'
  end.

Fixpoint sort (l : list A) : list A :=
  match l with
  | [] => []
  | x :: l' => insert x (sort l')
  end.
End Sort.

(** *** Dates *)

(** A [Date] object holding a valid time, as the three readings the engines
    take of it. *)
Record Date := mkDate {
  getTime : Z;      (* milliseconds since the epoch *)
  getHours : Z;     (* local hour of day *)
  getMinutes : Z    (* local minute of hour *)
}.

(** A non-empty date string, by the value [new Date(s)] gives it. *)
Inductive DateString :=
| ValidDate (ms : Z)
| InvalidDate.

(** [new Date(s).getTime()] *)
Definition timeValue (s : DateString) : int :=
  match s with
  | ValidDate ms => Some ms
  | InvalidDate => None
  end.

End JS.

(* ================================================================== *)
(** ** Data model ([src/types/index.ts]) *)

Inductive DietType :=
| LowGlycemic | Mediterranean | Keto | Paleo | Whole30 | IntermittentFasting
| Dash | Vegan | Vegetarian | HighProtein | LowFodmap | Flexitarian.

Inductive DietaryGoal :=
| GlucoseStability | WeightLoss | WeightMaintenance | MuscleGain | HeartHealth.

Inductive UnitsPreference := Metric | Imperial.

Inductive FoodCategory :=
| Produce | Dairy | Meat | Pantry | Frozen | Beverages | Condiments | Grains
| Snacks.

Inductive RuleType :=
| Allowed | Restricted | TimeBased | Sequencing | MacroThreshold | DailyLimit.

Scheme Equality for DietType.
Scheme Equality for DietaryGoal.
Scheme Equality for FoodCategory.
Scheme Equality for RuleType.

(** [quantity: number | 'unknown'] *)
Inductive Quantity :=
| Known (n : JS.num)
| Unknown.

Module EatingSchedule.
Record t := mk {
  breakfast : string;
  lunch : string;
  dinner : string;
  snacks : list string
}.
End EatingSchedule.

Module FastingWindow.
Record t := mk {
  start : string;   (* "HH:MM" *)
  end_ : string     (* "HH:MM" *)
}.
End FastingWindow.

Module UserProfile.
Record t := mk {
  userId : string;
  dietType : DietType;
  dietaryGoals : list DietaryGoal;
  eatingSchedule : EatingSchedule.t;
  allergies : list string;
  intolerances : list string;
  unitsPreference : UnitsPreference;
  fastingWindow : option FastingWindow.t
}.
End UserProfile.

Module InventoryItem.
Record t := mk {
  id : string;
  itemName : string;
  quantity : Quantity;
  unit : option string;
  category : FoodCategory;
  fiberG : JS.num;
  fatG : JS.num;
  carbsG : JS.num;
  proteinG : JS.num;
  calories : option JS.num;
  glycemicIndex : option JS.num;
  servingSize : option string;
  (* [None] is [undefined] or the empty string: both are falsy *)
  expirationDate : option JS.DateString;
  lastUpdated : JS.DateString
}.
End InventoryItem.

Module MacrosConsumed.
Record t := mk {
  fiberG : JS.num;
  fatG : JS.num;
  carbsG : JS.num;
  proteinG : JS.num;
  calories : option JS.num
}.
End MacrosConsumed.

Module DietaryHistoryEntry.
Record t := mk {
  id : string;
  timestamp : JS.DateString;
  itemName : string;
  itemId : option string;
  quantityConsumed : JS.num;
  unit : option string;
  macrosConsumed : MacrosConsumed.t;
  dietaryRuleViolations : list string;
  glucoseRelevanceFlag : bool
}.
End DietaryHistoryEntry.

Module DietRuleParams.
Record t := mk {
  item : InventoryItem.t;
  currentTime : JS.Date;
  profile : UserProfile.t;
  todayHistory : list DietaryHistoryEntry.t
}.
End DietRuleParams.

Module DietRule.
Record t := mk {
  id : string;
  dietType : DietType;
  ruleType : RuleType;
  description : string;
  condition : DietRuleParams.t -> bool;
  message : string
}.
End DietRule.

Module MealSuggestion.
Record t := mk {
  item : InventoryItem.t;
  reason : string;
  score : Z;
  warnings : list string
}.
End MealSuggestion.

(* ================================================================== *)
(** ** The rule table and its evaluator ([src/engines/dietRules.ts]) *)

Module EvalResult.
Record t := mk {
  passed : bool;
  messages : list string;
  warnings : list string
}.
End EvalResult.

Module DailyMacros.
Record t := mk {
  totalCarbs : JS.num;
  totalProtein : JS.num;
  totalFat : JS.num;
  totalFiber : JS.num;
  totalCalories : JS.num
}.
End DailyMacros.

Module DietLimits.
(** [{ carbs?: number; protein?: number; fat?: number }]; the table holds
    integer literals only. *)
Record t := mk {
  carbs : option Z;
  protein : option Z;
  fat : option Z
}.
End DietLimits.

Module LimitResult.
Record t := mk {
  fits : bool;
  warnings : list string
}.
End LimitResult.

(** Constants for category checks *)
Definition NON_VEGAN_CATEGORIES : list FoodCategory := [Meat; Dairy].

(** Helper functions for rule evaluation *)
Definition isHighProtein (item : InventoryItem.t) : bool :=
  JS.geb (InventoryItem.proteinG item) 15%float.
Definition isHighFat (item : InventoryItem.t) : bool :=
  JS.geb (InventoryItem.fatG item) 10%float.
Definition isVegetarian (item : InventoryItem.t) : bool :=
  negb (FoodCategory_beq (InventoryItem.category item) Meat).
Definition isVegan (item : InventoryItem.t) : bool :=
  negb (existsb (FoodCategory_beq (InventoryItem.category item))
          NON_VEGAN_CATEGORIES).
Definition isLowGI (item : InventoryItem.t) : bool :=
  match InventoryItem.glycemicIndex item with
  | None => true
  | Some gi => PrimFloat.leb gi 55%float
  end.
Definition isHighFiber (item : InventoryItem.t) : bool :=
  JS.geb (InventoryItem.fiberG item) 3%float.

(** Foods commonly restricted by diet type *)
Definition KETO_RESTRICTED : list string :=
  ["bread"; "pasta"; "rice"; "potato"; "sugar"; "fruit juice"; "candy"; "soda"].
Definition PALEO_RESTRICTED : list string :=
  ["bread"; "pasta"; "rice"; "beans"; "peanut"; "dairy"; "processed"].
Definition WHOLE30_RESTRICTED : list string :=
  ["sugar"; "alcohol"; "grain"; "legume"; "dairy"; "soy"; "carrageenan";
   "sulfites"].
Definition LOW_FODMAP_RESTRICTED : list string :=
  ["garlic"; "onion"; "wheat"; "apple"; "pear"; "watermelon"; "honey"; "milk";
   "beans"].
Definition DASH_ENCOURAGED : list string :=
  ["vegetable"; "fruit"; "whole grain"; "lean protein"; "nuts"; "beans"].

Definition containsAny (name : string) (keywords : list string) : bool :=
  let lowerName := JS.toLowerCase name in
  existsb (fun k => JS.includes lowerName (JS.toLowerCase k)) keywords.

(** [keto-low-carb]:
    [carbsG <= 5 || (carbsG <= 10 && fiberG >= carbsG * 0.3)] *)
Definition ketoLowCarbCondition (p : DietRuleParams.t) : bool :=
  let item := DietRuleParams.item p in
  PrimFloat.leb (InventoryItem.carbsG item) 5%float
  || (PrimFloat.leb (InventoryItem.carbsG item) 10%float
      && JS.geb (InventoryItem.fiberG item)
           (InventoryItem.carbsG item * 0.3)%float).

(** ["HH:MM"] to minutes since midnight:
    [parseInt(s.split(':')[0]) * 60 + parseInt(s.split(':')[1])] *)
Definition minutesOf (s : string) : JS.int :=
  JS.iadd (JS.imul (JS.parseIntAt (JS.split ":" s) 0) (Some 60))
          (JS.parseIntAt (JS.split ":" s) 1).

(** [if-fasting-window] *)
Definition ifFastingWindowCondition (p : DietRuleParams.t) : bool :=
  let currentTime := DietRuleParams.currentTime p in
  let profile := DietRuleParams.profile p in
  match UserProfile.fastingWindow profile with
  | None => true
  | Some fastingWindow =>
      let now :=
        Some (JS.getHours currentTime * 60 + JS.getMinutes currentTime) in
      let start := minutesOf (FastingWindow.start fastingWindow) in
      let end_ := minutesOf (FastingWindow.end_ fastingWindow) in
      (* Handle overnight fasting (e.g., 20:00 to 12:00) *)
      if JS.igtb start end_
      then JS.iltb now start && JS.igeb now end_
      else JS.igeb now end_ && JS.iltb now start
  end.

(** [high-protein-sequence] *)
Definition highProteinSequenceCondition (p : DietRuleParams.t) : bool :=
  let item := DietRuleParams.item p in
  let todayHistory := DietRuleParams.todayHistory p in
  if negb (isHighProtein item) then true
  else
    (* Check if carbs were eaten before protein today *)
    let carbMeals :=
      filter (fun h => JS.gtb (MacrosConsumed.carbsG
                                 (DietaryHistoryEntry.macrosConsumed h))
                              15%float) todayHistory in
    let proteinMeals :=
      filter (fun h => JS.gtb (MacrosConsumed.proteinG
                                 (DietaryHistoryEntry.macrosConsumed h))
                              15%float) todayHistory in
    let lastCarbMeal := JS.lastElement carbMeals in
    let lastProteinMeal := JS.lastElement proteinMeals in
    match lastCarbMeal with
    | None => true
    | Some lastCarb =>
        match lastProteinMeal with
        | None => false (* Carbs eaten, no protein yet *)
        | Some lastProtein =>
            JS.iltb (JS.timeValue (DietaryHistoryEntry.timestamp lastProtein))
                    (JS.timeValue (DietaryHistoryEntry.timestamp lastCarb))
        end
    end.

(** [flexitarian-mostly-plants] *)
Definition flexitarianCondition (p : DietRuleParams.t) : bool :=
  let item := DietRuleParams.item p in
  let todayHistory := DietRuleParams.todayHistory p in
  if negb (FoodCategory_beq (InventoryItem.category item) Meat) then true
  else
    (* Limit meat consumption *)
    let meatMealsToday :=
      List.length
        (filter (fun h =>
           JS.includes (JS.toLowerCase (DietaryHistoryEntry.itemName h)) "meat"
           || JS.includes (JS.toLowerCase (DietaryHistoryEntry.itemName h))
                "chicken"
           || JS.includes (JS.toLowerCase (DietaryHistoryEntry.itemName h))
                "beef") todayHistory) in
    (meatMealsToday <? 1)%nat.

(** The [item] of the parameters, which most rules destructure. *)
Definition itemOf : DietRuleParams.t -> InventoryItem.t := DietRuleParams.item.

(** Diet Rules Collection *)
Definition dietRules : list DietRule.t :=
  [ (* Low-Glycemic Diet Rules *)
    DietRule.mk "low-gi-allowed" LowGlycemic Allowed
      "Prefer foods with low glycemic index"
      (fun p => isLowGI (itemOf p))
      "Great choice for blood sugar stability";
    DietRule.mk "low-gi-fiber" LowGlycemic Allowed
      "High fiber foods help stabilize glucose"
      (fun p => isHighFiber (itemOf p))
      "High fiber content helps with glucose control";
    (* Keto Diet Rules *)
    DietRule.mk "keto-low-carb" Keto MacroThreshold
      "Foods must be very low in carbohydrates"
      ketoLowCarbCondition
      "Fits keto carb limits";
    DietRule.mk "keto-high-fat" Keto Allowed
      "Prefer high-fat foods"
      (fun p => isHighFat (itemOf p))
      "Good fat source for keto";
    DietRule.mk "keto-restricted" Keto Restricted
      "Avoid high-carb foods"
      (fun p => negb (containsAny (InventoryItem.itemName (itemOf p))
                        KETO_RESTRICTED))
      "This food may be too high in carbs for keto";
    (* Mediterranean Diet Rules *)
    DietRule.mk "med-vegetables" Mediterranean Allowed
      "Emphasize vegetables"
      (fun p => FoodCategory_beq (InventoryItem.category (itemOf p)) Produce)
      "Great vegetable choice for Mediterranean diet";
    DietRule.mk "med-healthy-fats" Mediterranean Allowed
      "Include healthy fats"
      (fun p => containsAny (InventoryItem.itemName (itemOf p))
                  ["olive"; "avocado"; "nuts"; "fish"; "salmon"])
      "Excellent source of healthy fats";
    (* Paleo Diet Rules *)
    DietRule.mk "paleo-whole-foods" Paleo Allowed
      "Emphasize whole, unprocessed foods"
      (fun p => existsb (FoodCategory_beq (InventoryItem.category (itemOf p)))
                  [Produce; Meat])
      "Whole food appropriate for Paleo";
    DietRule.mk "paleo-restricted" Paleo Restricted
      "Avoid grains, legumes, dairy, and processed foods"
      (fun p => negb (containsAny (InventoryItem.itemName (itemOf p))
                        PALEO_RESTRICTED))
      "This food is not typically allowed on Paleo";
    (* Whole30 Diet Rules *)
    DietRule.mk "whole30-restricted" Whole30 Restricted
      "No sugar, alcohol, grains, legumes, soy, or dairy"
      (fun p => negb (containsAny (InventoryItem.itemName (itemOf p))
                        WHOLE30_RESTRICTED))
      "This food is not allowed on Whole30";
    DietRule.mk "whole30-whole-foods" Whole30 Allowed
      "Eat whole, unprocessed foods"
      (fun p => existsb (FoodCategory_beq (InventoryItem.category (itemOf p)))
                  [Produce; Meat])
      "Whole food appropriate for Whole30";
    (* Intermittent Fasting Rules *)
    DietRule.mk "if-fasting-window" IntermittentFasting TimeBased
      "Check if currently in eating window"
      ifFastingWindowCondition
      "You are currently in your fasting window";
    (* DASH Diet Rules *)
    DietRule.mk "dash-low-sodium" Dash Allowed
      "Emphasize low-sodium, nutrient-rich foods"
      (fun p => containsAny (InventoryItem.itemName (itemOf p)) DASH_ENCOURAGED
                || FoodCategory_beq (InventoryItem.category (itemOf p)) Produce)
      "Heart-healthy choice for DASH diet";
    DietRule.mk "dash-vegetables" Dash Allowed
      "Emphasize fruits and vegetables"
      (fun p => FoodCategory_beq (InventoryItem.category (itemOf p)) Produce
                && isHighFiber (itemOf p))
      "Excellent produce choice for DASH";
    (* Vegan Diet Rules *)
    DietRule.mk "vegan-no-animal" Vegan Restricted
      "No animal products"
      (fun p => isVegan (itemOf p))
      "This food contains animal products";
    DietRule.mk "vegan-protein" Vegan Allowed
      "Plant-based protein sources"
      (fun p => isVegan (itemOf p)
                && JS.geb (InventoryItem.proteinG (itemOf p)) 5%float)
      "Good plant-based protein source";
    (* Vegetarian Diet Rules *)
    DietRule.mk "vegetarian-no-meat" Vegetarian Restricted
      "No meat"
      (fun p => isVegetarian (itemOf p))
      "This food contains meat";
    (* High-Protein Diet Rules *)
    DietRule.mk "high-protein-priority" HighProtein Allowed
      "Prioritize high-protein foods"
      (fun p => isHighProtein (itemOf p))
      "Excellent protein source";
    DietRule.mk "high-protein-sequence" HighProtein Sequencing
      "Eat protein before carbs"
      highProteinSequenceCondition
      "Try to eat protein before carbs for better satiety";
    (* Low-FODMAP Diet Rules *)
    DietRule.mk "low-fodmap-restricted" LowFodmap Restricted
      "Avoid high-FODMAP foods"
      (fun p => negb (containsAny (InventoryItem.itemName (itemOf p))
                        LOW_FODMAP_RESTRICTED))
      "This food may be high in FODMAPs";
    (* Flexitarian Diet Rules *)
    DietRule.mk "flexitarian-mostly-plants" Flexitarian Allowed
      "Emphasize plant-based foods with occasional meat"
      flexitarianCondition
      "Consider a plant-based alternative" ].

(** A rule table restricted to one diet. [getRulesForDiet] is this on
    [dietRules]. *)
Definition rulesForDiet (table : list DietRule.t) (dietType : DietType)
  : list DietRule.t :=
  filter (fun rule => DietType_beq (DietRule.dietType rule) dietType) table.

(** Get all rules for a specific diet type *)
Definition getRulesForDiet (dietType : DietType) : list DietRule.t :=
  rulesForDiet dietRules dietType.

(** One turn of the loop of [evaluateItem]: the state is
    [(passed, messages, warnings)]. *)
Definition evaluateRule (params : DietRuleParams.t) (acc : EvalResult.t)
    (rule : DietRule.t) : EvalResult.t :=
  let result := DietRule.condition rule params in
  if RuleType_beq (DietRule.ruleType rule) Restricted
     || RuleType_beq (DietRule.ruleType rule) TimeBased
  then
    if negb result
    then EvalResult.mk false (EvalResult.messages acc)
           (EvalResult.warnings acc ++ [DietRule.message rule])
    else acc
  else if RuleType_beq (DietRule.ruleType rule) Allowed && result
  then EvalResult.mk (EvalResult.passed acc)
         (EvalResult.messages acc ++ [DietRule.message rule])
         (EvalResult.warnings acc)
  else if RuleType_beq (DietRule.ruleType rule) Sequencing && negb result
  then EvalResult.mk (EvalResult.passed acc) (EvalResult.messages acc)
         (EvalResult.warnings acc ++ [DietRule.message rule])
  else acc.

(** The loop of [evaluateItem] over a given list of rules. *)
Definition evaluateRules (rules : list DietRule.t) (params : DietRuleParams.t)
  : EvalResult.t :=
  fold_left (evaluateRule params) rules (EvalResult.mk true [] []).

(** [evaluateItem] over a given rule table. *)
Definition evaluateItemWith (table : list DietRule.t)
    (params : DietRuleParams.t) : EvalResult.t :=
  evaluateRules
    (rulesForDiet table (UserProfile.dietType (DietRuleParams.profile params)))
    params.

(** Evaluate all rules for an item against the user's diet *)
Definition evaluateItem (params : DietRuleParams.t) : EvalResult.t :=
  evaluateItemWith dietRules params.

(** The callback of the [reduce] in [calculateDailyMacros]. *)
Definition addEntry (acc : DailyMacros.t) (entry : DietaryHistoryEntry.t)
  : DailyMacros.t :=
  let m := DietaryHistoryEntry.macrosConsumed entry in
  DailyMacros.mk
    (DailyMacros.totalCarbs acc + MacrosConsumed.carbsG m)%float
    (DailyMacros.totalProtein acc + MacrosConsumed.proteinG m)%float
    (DailyMacros.totalFat acc + MacrosConsumed.fatG m)%float
    (DailyMacros.totalFiber acc + MacrosConsumed.fiberG m)%float
    (DailyMacros.totalCalories acc
     + JS.orZero (MacrosConsumed.calories m))%float.

Definition zeroMacros : DailyMacros.t :=
  DailyMacros.mk 0%float 0%float 0%float 0%float 0%float.

(** Calculate daily macro totals from history *)
Definition calculateDailyMacros (history : list DietaryHistoryEntry.t)
  : DailyMacros.t :=
  fold_left addEntry history zeroMacros.

(** Diet-specific daily limits *)
Definition limits (dietType : DietType) : DietLimits.t :=
  match dietType with
  | Keto => DietLimits.mk (Some 50) None None
  | LowGlycemic => DietLimits.mk (Some 130) None None
  | HighProtein => DietLimits.mk None (Some 150) None (* minimum *)
  | Mediterranean | Paleo | Whole30 | IntermittentFasting | Dash | Vegan
  | Vegetarian | LowFodmap | Flexitarian => DietLimits.mk None None None
  end.

(** Check if item fits within remaining daily limits *)
Definition checkDailyLimits (item : InventoryItem.t)
    (todayHistory : list DietaryHistoryEntry.t) (dietType : DietType)
  : LimitResult.t :=
  let dailyMacros := calculateDailyMacros todayHistory in
  let dietLimits := limits dietType in
  match DietLimits.carbs dietLimits with
  | Some carbs =>
      if negb (carbs =? 0)
         && JS.gtb (DailyMacros.totalCarbs dailyMacros
                    + InventoryItem.carbsG item)%float (JS.ofZ carbs)
      then LimitResult.mk false
             ["This would exceed your daily carb limit of "
              ++ JS.toString carbs ++ "g"]
      else LimitResult.mk true []
  | None => LimitResult.mk true []
  end.

(* ================================================================== *)
(** ** Scoring and ranking ([src/engines/mealSuggestions.ts]) *)

Module ScoreResult.
Record t := mk {
  score : Z;
  reasons : list string;
  warnings : list string
}.
End ScoreResult.

(** [score += d], [reasons.push(...rs)], [warnings.push(...ws)] *)
Definition addScore (d : Z) (s : ScoreResult.t) : ScoreResult.t :=
  ScoreResult.mk (ScoreResult.score s + d) (ScoreResult.reasons s)
    (ScoreResult.warnings s).
Definition pushReasons (rs : list string) (s : ScoreResult.t) : ScoreResult.t :=
  ScoreResult.mk (ScoreResult.score s) (ScoreResult.reasons s ++ rs)
    (ScoreResult.warnings s).
Definition pushWarnings (ws : list string) (s : ScoreResult.t)
  : ScoreResult.t :=
  ScoreResult.mk (ScoreResult.score s) (ScoreResult.reasons s)
    (ScoreResult.warnings s ++ ws).

(** [(new Date(expirationDate).getTime() - currentTime.getTime())
     / (1000 * 60 * 60 * 24)]; [None] is NaN. The quotient is kept as an
    exact rational: a difference of integers over 86400000 is never closer
    than 1/86400000 to an integer without being one, so the comparisons with
    0, 2 and 5 and the [Math.ceil] below read the same on the rounded
    binary64 quotient. *)
Definition daysUntilExpiry (expirationDate : JS.DateString)
    (currentTime : JS.Date) : option Q :=
  match JS.timeValue expirationDate with
  | Some t => Some (Qmake (t - JS.getTime currentTime) 86400000)
  | None => None
  end.

(** 1. Evaluate against diet rules *)
Definition ruleStep (item : InventoryItem.t) (profile : UserProfile.t)
    (todayHistory : list DietaryHistoryEntry.t) (currentTime : JS.Date)
    (s : ScoreResult.t) : ScoreResult.t :=
  let ruleResult :=
    evaluateItem (DietRuleParams.mk item currentTime profile todayHistory) in
  if negb (EvalResult.passed ruleResult)
  then pushWarnings (EvalResult.warnings ruleResult) (addScore (-40) s)
  else pushReasons (EvalResult.messages ruleResult) (addScore 20 s).

(** 2. Check daily limits *)
Definition limitStep (item : InventoryItem.t) (profile : UserProfile.t)
    (todayHistory : list DietaryHistoryEntry.t) (s : ScoreResult.t)
  : ScoreResult.t :=
  let limitResult :=
    checkDailyLimits item todayHistory (UserProfile.dietType profile) in
  if negb (LimitResult.fits limitResult)
  then pushWarnings (LimitResult.warnings limitResult) (addScore (-30) s)
  else s.

(** 3. Expiration urgency (eat soon items get priority). A NaN number of days
    fails the three comparisons. *)
Definition expirationStep (item : InventoryItem.t) (currentTime : JS.Date)
    (s : ScoreResult.t) : ScoreResult.t :=
  match InventoryItem.expirationDate item with
  | None => s
  | Some expirationDate =>
      match daysUntilExpiry expirationDate currentTime with
      | None => s
      | Some days =>
          if Qle_bool days 0
          then pushWarnings ["This item has expired"] (addScore (-100) s)
          else if Qle_bool days 2
          then pushReasons
                 ["Eat soon - expiring in " ++ JS.toString (Qceiling days)
                  ++ " days"] (addScore 25 s)
          else if Qle_bool days 5
          then pushReasons
                 ["Consider eating soon - expires in "
                  ++ JS.toString (Qceiling days) ++ " days"] (addScore 10 s)
          else s
      end
  end.

(** 4. Glucose stability bonus (for relevant diets) *)
Definition glucoseStep (item : InventoryItem.t) (profile : UserProfile.t)
    (s : ScoreResult.t) : ScoreResult.t :=
  if existsb (DietaryGoal_beq GlucoseStability)
       (UserProfile.dietaryGoals profile)
  then
    let s1 :=
      match InventoryItem.glycemicIndex item with
      | Some gi =>
          if PrimFloat.leb gi 55%float
          then pushReasons ["Low glycemic index - good for blood sugar"]
                 (addScore 15 s)
          else s
      | None => s
      end in
    let s2 :=
      if JS.geb (InventoryItem.fiberG item) 3%float
      then pushReasons ["High fiber helps stabilize glucose"] (addScore 10 s1)
      else s1 in
    if JS.geb (InventoryItem.proteinG item) 10%float
       && PrimFloat.leb (InventoryItem.carbsG item) 10%float
    then pushReasons ["Protein-rich with low carbs - stabilizes glucose"]
           (addScore 10 s2)
    else s2
  else s.

(** 5. Meal timing appropriateness *)
Definition timingStep (item : InventoryItem.t) (currentTime : JS.Date)
    (s : ScoreResult.t) : ScoreResult.t :=
  let hour := JS.getHours currentTime in
  let isBreakfastTime := (6 <=? hour) && (hour <? 10) in
  let isLunchTime := (11 <=? hour) && (hour <? 14) in
  let isDinnerTime := (17 <=? hour) && (hour <? 21) in
  let isSnackTime :=
    negb isBreakfastTime && negb isLunchTime && negb isDinnerTime in
  if isSnackTime && FoodCategory_beq (InventoryItem.category item) Snacks
  then pushReasons ["Good snack option"] (addScore 10 s)
  else s.

(** 6. Category variety - prefer items from categories not recently eaten *)
Definition varietyStep (item : InventoryItem.t)
    (todayHistory : list DietaryHistoryEntry.t) (s : ScoreResult.t)
  : ScoreResult.t :=
  let recentCategories :=
    map (fun h => JS.toLowerCase (DietaryHistoryEntry.itemName h))
        (JS.sliceLast 3 todayHistory) in
  if negb (existsb (fun name =>
             JS.includes name (JS.toLowerCase (InventoryItem.itemName item)))
           recentCategories)
  then addScore 5 s
  else s.

(** 7. Quantity available *)
Definition quantityStep (item : InventoryItem.t) (s : ScoreResult.t)
  : ScoreResult.t :=
  match InventoryItem.quantity item with
  | Known q => if JS.gtb q 0%float then addScore 5 s else s
  | Unknown => s
  end.

(** The body of [calculateSuggestionScore] up to its [return]: the seven
    numbered blocks in order, from the base score. *)
Definition accumulate (item : InventoryItem.t) (profile : UserProfile.t)
    (todayHistory : list DietaryHistoryEntry.t) (currentTime : JS.Date)
  : ScoreResult.t :=
  let s0 := ScoreResult.mk 50 [] [] in (* Base score *)
  let s1 := ruleStep item profile todayHistory currentTime s0 in
  let s2 := limitStep item profile todayHistory s1 in
  let s3 := expirationStep item currentTime s2 in
  let s4 := glucoseStep item profile s3 in
  let s5 := timingStep item currentTime s4 in
  let s6 := varietyStep item todayHistory s5 in
  quantityStep item s6.

(** Calculate a score for an inventory item based on multiple factors *)
Definition calculateSuggestionScore (item : InventoryItem.t)
    (profile : UserProfile.t) (todayHistory : list DietaryHistoryEntry.t)
    (currentTime : JS.Date) : ScoreResult.t :=
  let s := accumulate item profile todayHistory currentTime in
  ScoreResult.mk (Z.max 0 (Z.min 100 (ScoreResult.score s)))
    (ScoreResult.reasons s) (ScoreResult.warnings s).

(** One turn of the loop of [generateSuggestions]; the state is the
    [suggestions] array. *)
Definition considerItem (profile : UserProfile.t)
    (todayHistory : list DietaryHistoryEntry.t) (currentTime : JS.Date)
    (suggestions : list MealSuggestion.t) (item : InventoryItem.t)
  : list MealSuggestion.t :=
  (* Skip items with no quantity *)
  if match InventoryItem.quantity item with
     | Known q => PrimFloat.leb q 0%float
     | Unknown => false
     end
  then suggestions
  (* Skip condiments from suggestions *)
  else if FoodCategory_beq (InventoryItem.category item) Condiments
  then suggestions
  else
    let r := calculateSuggestionScore item profile todayHistory currentTime in
    (* Only suggest items with reasonable scores *)
    if 20 <=? ScoreResult.score r
    then suggestions ++
         [MealSuggestion.mk item
            (if (0 <? List.length (ScoreResult.reasons r))%nat
             then JS.join ". " (ScoreResult.reasons r)
             else "Available in your pantry")
            (ScoreResult.score r)
            (ScoreResult.warnings r)]
    else suggestions.

(** The [suggestions] array when the loop ends, before it is sorted. *)
Definition collectSuggestions (inventory : list InventoryItem.t)
    (profile : UserProfile.t) (todayHistory : list DietaryHistoryEntry.t)
    (currentTime : JS.Date) : list MealSuggestion.t :=
  fold_left (considerItem profile todayHistory currentTime) inventory [].

(** The comparator [(a, b) => b.score - a.score] *)
Definition byScoreDesc (a b : MealSuggestion.t) : Z :=
  MealSuggestion.score b - MealSuggestion.score a.

(** Generate meal suggestions from inventory *)
Definition generateSuggestions (inventory : list InventoryItem.t)
    (profile : UserProfile.t) (todayHistory : list DietaryHistoryEntry.t)
    (currentTime : JS.Date) : list MealSuggestion.t :=
  (* Sort by score (highest first) *)
  JS.sort byScoreDesc
    (collectSuggestions inventory profile todayHistory currentTime).

(* ================================================================== *)
(** ** Notions used to state the properties *)

(** The rules whose failure makes the evaluation fail. *)
Definition isBlocking (rule : DietRule.t) : bool :=
  RuleType_beq (DietRule.ruleType rule) Restricted
  || RuleType_beq (DietRule.ruleType rule) TimeBased.

(** The rules the loop of [evaluateItem] has no branch for. *)
Definition isIgnored (rule : DietRule.t) : bool :=
  RuleType_beq (DietRule.ruleType rule) MacroThreshold
  || RuleType_beq (DietRule.ruleType rule) DailyLimit.

(** On given parameters: the rules that flip [passed], those that push a
    message, those that push a warning. *)
Definition blocks (params : DietRuleParams.t) (rule : DietRule.t) : bool :=
  isBlocking rule && negb (DietRule.condition rule params).
Definition informs (params : DietRuleParams.t) (rule : DietRule.t) : bool :=
  RuleType_beq (DietRule.ruleType rule) Allowed
  && DietRule.condition rule params.
Definition warns (params : DietRuleParams.t) (rule : DietRule.t) : bool :=
  (isBlocking rule || RuleType_beq (DietRule.ruleType rule) Sequencing)
  && negb (DietRule.condition rule params).

(** The rule table without the rules of the two ignored kinds. *)
Definition enforcedRules (table : list DietRule.t) : list DietRule.t :=
  filter (fun rule => negb (isIgnored rule)) table.

(** The rule table without the rule of a given id. *)
Definition withoutRule (id : string) (table : list DietRule.t)
  : list DietRule.t :=
  filter (fun rule => negb (String.eqb (DietRule.id rule) id)) table.

(** [currentTime.getHours() * 60 + currentTime.getMinutes()] *)
Definition minutesNow (t : JS.Date) : Z :=
  JS.getHours t * 60 + JS.getMinutes t.

Definition fastingMessage : string :=
  "You are currently in your fasting window".

(** The two filters of [high-protein-sequence]. *)
Definition isCarbMeal (h : DietaryHistoryEntry.t) : bool :=
  JS.gtb (MacrosConsumed.carbsG (DietaryHistoryEntry.macrosConsumed h))
         15%float.
Definition isProteinMeal (h : DietaryHistoryEntry.t) : bool :=
  JS.gtb (MacrosConsumed.proteinG (DietaryHistoryEntry.macrosConsumed h))
         15%float.

(** The last entry of the history that satisfies a test: the first one met
    when the history is read backwards. *)
Definition lastWhere {A} (test : A -> bool) (history : list A) : option A :=
  find test (rev history).

(** [new Date(a.timestamp) < new Date(b.timestamp)] *)
Definition before (a b : DietaryHistoryEntry.t) : bool :=
  JS.iltb (JS.timeValue (DietaryHistoryEntry.timestamp a))
          (JS.timeValue (DietaryHistoryEntry.timestamp b)).

Module Totals.
(** The macros of an entry, with the calories as the reducer reads them. *)
Definition carbs (e : DietaryHistoryEntry.t) : JS.num :=
  MacrosConsumed.carbsG (DietaryHistoryEntry.macrosConsumed e).
Definition protein (e : DietaryHistoryEntry.t) : JS.num :=
  MacrosConsumed.proteinG (DietaryHistoryEntry.macrosConsumed e).
Definition fat (e : DietaryHistoryEntry.t) : JS.num :=
  MacrosConsumed.fatG (DietaryHistoryEntry.macrosConsumed e).
Definition fiber (e : DietaryHistoryEntry.t) : JS.num :=
  MacrosConsumed.fiberG (DietaryHistoryEntry.macrosConsumed e).
Definition calories (e : DietaryHistoryEntry.t) : JS.num :=
  JS.orZero (MacrosConsumed.calories (DietaryHistoryEntry.macrosConsumed e)).

(** [((start + x1) + x2) + ...] in binary64. *)
Definition sumFrom (start : JS.num) (xs : list JS.num) : JS.num :=
  fold_left PrimFloat.add xs start.
End Totals.

Definition carbLimitWarning (ceiling : string) : string :=
  "This would exceed your daily carb limit of " ++ ceiling ++ "g".

(** What a block of [calculateSuggestionScore] adds to the score. *)
Definition delta (step : ScoreResult.t -> ScoreResult.t) : Z :=
  ScoreResult.score (step (ScoreResult.mk 0 [] [])).

(** The first [continue] of the loop of [generateSuggestions]: a known
    quantity that is [<= 0]. *)
Definition outOfStock (item : InventoryItem.t) : bool :=
  match InventoryItem.quantity item with
  | Known q => PrimFloat.leb q 0%float
  | Unknown => false
  end.

Definition scoreOf (profile : UserProfile.t)
    (todayHistory : list DietaryHistoryEntry.t) (currentTime : JS.Date)
    (item : InventoryItem.t) : Z :=
  ScoreResult.score
    (calculateSuggestionScore item profile todayHistory currentTime).

(** The items the loop pushes a suggestion for. *)
Definition isSuggested (profile : UserProfile.t)
    (todayHistory : list DietaryHistoryEntry.t) (currentTime : JS.Date)
    (item : InventoryItem.t) : bool :=
  negb (outOfStock item)
  && negb (FoodCategory_beq (InventoryItem.category item) Condiments)
  && (20 <=? scoreOf profile todayHistory currentTime item).

(** The same item with another expiration date. *)
Definition withExpiration (expirationDate : option JS.DateString)
    (item : InventoryItem.t) : InventoryItem.t :=
  InventoryItem.mk (InventoryItem.id item) (InventoryItem.itemName item)
    (InventoryItem.quantity item) (InventoryItem.unit item)
    (InventoryItem.category item) (InventoryItem.fiberG item)
    (InventoryItem.fatG item) (InventoryItem.carbsG item)
    (InventoryItem.proteinG item) (InventoryItem.calories item)
    (InventoryItem.glycemicIndex item) (InventoryItem.servingSize item)
    expirationDate (InventoryItem.lastUpdated item).

Definition expiredWarning : string := "This item has expired".
Definition eatSoonReason (days : Q) : string :=
  "Eat soon - expiring in " ++ JS.toString (Qceiling days) ++ " days".
Definition considerSoonReason (days : Q) : string :=
  "Consider eating soon - expires in " ++ JS.toString (Qceiling days)
  ++ " days".

(* ================================================================== *)
(** ** Sample data *)

Module Examples.

Definition schedule : EatingSchedule.t :=
  EatingSchedule.mk "07:00" "12:00" "18:00" ["10:00"; "15:00"].

Definition mkProfile (diet : DietType) (goals : list DietaryGoal)
    (window : option FastingWindow.t) : UserProfile.t :=
  UserProfile.mk "test-user" diet goals schedule [] [] Metric window.

Definition mkItem (name : string) (quantity : Quantity)
    (category : FoodCategory) (fiber fat carbs protein : JS.num)
    (expiration : option JS.DateString) : InventoryItem.t :=
  InventoryItem.mk "test-item-1" name quantity None category
    fiber fat carbs protein None None None expiration (JS.ValidDate 0).

Definition mkEntry (timestamp : Z) (name : string)
    (fiber fat carbs protein : JS.num) (calories : option JS.num)
  : DietaryHistoryEntry.t :=
  DietaryHistoryEntry.mk "h1" (JS.ValidDate timestamp) name None 1%float
    None (MacrosConsumed.mk fiber fat carbs protein calories) [] false.

Definition day : Z := 86400000.

(** A clock reading [hour:minute], [ms] milliseconds after the epoch. *)
Definition clock (ms hour minute : Z) : JS.Date := JS.mkDate ms hour minute.

Definition testFood : InventoryItem.t :=
  mkItem "Test Food" (Known 1%float) Pantry 5%float 20%float 3%float
    15%float None.

(** Fasting from 20:00 to 12:00 the next day, asked at 13:00 and at 21:00. *)
Definition overnight : UserProfile.t :=
  mkProfile IntermittentFasting [WeightMaintenance]
    (Some (FastingWindow.mk "20:00" "12:00")).
Definition overnightAt13 : DietRuleParams.t :=
  DietRuleParams.mk testFood (clock 0 13 0) overnight [].
Definition overnightAt21 : DietRuleParams.t :=
  DietRuleParams.mk testFood (clock 0 21 0) overnight [].

(** A high-protein candidate, after rice at time 1 and then eggs at time 2. *)
Definition steak : InventoryItem.t :=
  mkItem "Steak" (Known 1%float) Meat 0%float 10%float 0%float 30%float None.
Definition rice : DietaryHistoryEntry.t :=
  mkEntry 1 "Rice" 1%float 0%float 40%float 4%float None.
Definition eggs : DietaryHistoryEntry.t :=
  mkEntry 2 "Eggs" 0%float 10%float 1%float 20%float None.
Definition steakAfterRiceThenEggs : DietRuleParams.t :=
  DietRuleParams.mk steak (clock 3 13 0)
    (mkProfile HighProtein [MuscleGain] None) [rice; eggs].

(** The scenario of the limit check: 25 g of carbs eaten, a 30 g candidate. *)
Definition previousMeal : DietaryHistoryEntry.t :=
  mkEntry 0 "Previous meal" 0%float 10%float 25%float 20%float None.
Definition thirtyCarbs : InventoryItem.t :=
  mkItem "Test Food" (Known 1%float) Pantry 5%float 10%float 30%float
    20%float None.

End Examples.

Module Tenths.
(** Three entries with 0.1 g, 0.2 g and 0.3 g of carbs. *)
Definition e1 : DietaryHistoryEntry.t :=
  Examples.mkEntry 1 "a" 0%float 0%float 0.1%float 0%float None.
Definition e2 : DietaryHistoryEntry.t :=
  Examples.mkEntry 2 "b" 0%float 0%float 0.2%float 0%float None.
Definition e3 : DietaryHistoryEntry.t :=
  Examples.mkEntry 3 "c" 0%float 0%float 0.3%float 0%float None.
End Tenths.

Module Extreme.
(** 500 g of carbs on keto, expired a day before the clock reading. *)
Definition loaf : InventoryItem.t :=
  Examples.mkItem "Test Food" (Known 1%float) Pantry 5%float 10%float
    500%float 20%float (Some (JS.ValidDate 0)).
Definition keto : UserProfile.t := Examples.mkProfile Keto [WeightLoss] None.
Definition now : JS.Date := Examples.clock Examples.day 12 0.
End Extreme.

Module Pantry.
Definition ketchup : InventoryItem.t :=
  Examples.mkItem "Ketchup" (Known 1%float) Condiments 0%float 0%float
    5%float 0%float None.
Definition emptyItem : InventoryItem.t :=
  Examples.mkItem "Empty Item" (Known 0%float) Pantry 0%float 0%float
    0%float 0%float None.
Definition loose : InventoryItem.t :=
  Examples.mkItem "Loose Tea" Unknown Beverages 0%float 0%float 0%float
    0%float None.
Definition shelf : list InventoryItem.t :=
  [Examples.testFood; ketchup; emptyItem; loose].
Definition profile : UserProfile.t :=
  Examples.mkProfile Mediterranean [WeightMaintenance] None.
Definition noon : JS.Date := Examples.clock 0 12 0.
End Pantry.

Module Expiring.
(** [Test Food] on keto at noon, without an expiration date and expiring
    exactly one day after the clock reading. *)
Definition keto : UserProfile.t :=
  Examples.mkProfile Keto [WeightMaintenance] None.
Definition noon : JS.Date := Examples.clock 0 12 0.
Definition fresh : InventoryItem.t := Examples.testFood.
Definition tomorrow : InventoryItem.t :=
  withExpiration (Some (JS.ValidDate Examples.day)) Examples.testFood.
End Expiring.

(* ================================================================== *)
(** ** The accessors of [src/engines/mealSuggestions.ts] *)

Module Builtins.
(** [arr.slice(0, end)] for an integer [end]; a negative [end] counts from
    the end of the array. *)
Definition sliceTo {A} (end_ : Z) (l : list A) : list A :=
  if end_ <? 0 then firstn (Z.to_nat (Z.of_nat (List.length l) + end_)) l
  else firstn (Z.to_nat end_) l.
End Builtins.

(** Get the top N suggestions *)
Definition getTopSuggestions (inventory : list InventoryItem.t)
    (profile : UserProfile.t) (todayHistory : list DietaryHistoryEntry.t)
    (count : Z) (currentTime : JS.Date) : list MealSuggestion.t :=
  Builtins.sliceTo count
    (generateSuggestions inventory profile todayHistory currentTime).

(** Quick check for "What can I eat right now?": [suggestions[0] || null] *)
Definition getQuickSuggestion (inventory : list InventoryItem.t)
    (profile : UserProfile.t) (todayHistory : list DietaryHistoryEntry.t)
    (currentTime : JS.Date) : option MealSuggestion.t :=
  let suggestions :=
    getTopSuggestions inventory profile todayHistory 1 currentTime in
  match suggestions with
  | s :: _ => Some s
  | [] => None
  end.

(** Filter suggestions by category *)
Definition getSuggestionsByCategory (inventory : list InventoryItem.t)
    (profile : UserProfile.t) (todayHistory : list DietaryHistoryEntry.t)
    (category : FoodCategory) (currentTime : JS.Date)
  : list MealSuggestion.t :=
  let allSuggestions :=
    generateSuggestions inventory profile todayHistory currentTime in
  filter (fun s => FoodCategory_beq
                     (InventoryItem.category (MealSuggestion.item s)) category)
         allSuggestions.

(** The suggestion the loop of [generateSuggestions] pushes for an item. *)
Definition suggestionFor (profile : UserProfile.t)
    (todayHistory : list DietaryHistoryEntry.t) (currentTime : JS.Date)
    (item : InventoryItem.t) : MealSuggestion.t :=
  let r := calculateSuggestionScore item profile todayHistory currentTime in
  MealSuggestion.mk item
    (if (0 <? List.length (ScoreResult.reasons r))%nat
     then JS.join ". " (ScoreResult.reasons r)
     else "Available in your pantry")
    (ScoreResult.score r)
    (ScoreResult.warnings r).

(** The diets whose rules are all of kind allowed or sequencing. *)
Definition lenientDiets : list DietType :=
  [LowGlycemic; Mediterranean; Dash; HighProtein; Flexitarian].

(** The keyword list of the restricted rule of a diet, when it has one that
    goes by the item name. *)
Definition restrictedKeywords (diet : DietType) : option (list string) :=
  match diet with
  | Keto => Some KETO_RESTRICTED
  | Paleo => Some PALEO_RESTRICTED
  | Whole30 => Some WHOLE30_RESTRICTED
  | LowFodmap => Some LOW_FODMAP_RESTRICTED
  | _ => None
  end.

Definition sequencingMessage : string :=
  "Try to eat protein before carbs for better satiety".

(** The warnings a block of [calculateSuggestionScore] pushes. *)
Definition pushed (step : ScoreResult.t -> ScoreResult.t) : list string :=
  ScoreResult.warnings (step (ScoreResult.mk 0 [] [])).

(** An item whose expiration date parses and is not after the clock. *)
Definition isExpired (currentTime : JS.Date) (item : InventoryItem.t) : bool :=
  match InventoryItem.expirationDate item with
  | Some (JS.ValidDate ms) => ms <=? JS.getTime currentTime
  | _ => false
  end.

Module Stale.
(** A low-GI, high-fiber, protein-rich snack that expired an hour before the
    clock reading, for a profile on the Mediterranean diet whose goal is
    glucose stability, asked at 15:00. *)
Definition nuts : InventoryItem.t :=
  InventoryItem.mk "item-5" "Mixed seeds" (Known 1%float) (Some "cup") Snacks
    12%float 9%float 8%float 21%float None (Some 15%float) None
    (Some (JS.ValidDate 0)) (JS.ValidDate 0).
Definition profile : UserProfile.t :=
  Examples.mkProfile Mediterranean [GlucoseStability] None.
Definition afternoon : JS.Date := Examples.clock 3600000 15 0.
End Stale.

(* ================================================================== *)
(** ** The history and inventory hooks
       ([src/hooks/useDietaryHistory.ts], [src/hooks/useInventory.ts])

    A hook is modelled by its state (the [history] or [inventory] array) and
    each callback by the state it leaves. Values the platform supplies are
    arguments: the generated id, the clock reading [new Date()], the time
    values of the day's bounds after [setHours], and whether the cookie write
    inside the [try] block went through ([stored]). *)

Module Hooks.

Definition MAX_HISTORY_ENTRIES : nat := 100.

(** [saveHistory]: keep only the most recent entries; when the write throws,
    the state is left as it was. *)
Definition saveHistory (stored : bool) (entries history : list DietaryHistoryEntry.t)
  : list DietaryHistoryEntry.t :=
  let trimmed := JS.sliceLast MAX_HISTORY_ENTRIES entries in
  if stored then trimmed else history.

(** [item.quantity === 'unknown' ? 1 : item.quantity || 1] *)
Definition perUnit (item : InventoryItem.t) : JS.num :=
  match InventoryItem.quantity item with
  | Unknown => 1%float
  | Known q => if JS.truthy q then q else 1%float
  end.

(** The entry [logConsumption] builds. *)
Definition consumptionEntry (id : string) (now : Z) (item : InventoryItem.t)
    (quantityConsumed : JS.num) (ruleViolations : list string)
    (glucoseRelevant : bool) : DietaryHistoryEntry.t :=
  DietaryHistoryEntry.mk id (JS.ValidDate now)
    (InventoryItem.itemName item) (Some (InventoryItem.id item))
    quantityConsumed (InventoryItem.unit item)
    (MacrosConsumed.mk
       (InventoryItem.fiberG item / perUnit item * quantityConsumed)%float
       (InventoryItem.fatG item / perUnit item * quantityConsumed)%float
       (InventoryItem.carbsG item / perUnit item * quantityConsumed)%float
       (InventoryItem.proteinG item / perUnit item * quantityConsumed)%float
       (match InventoryItem.calories item with
        | Some c =>
            if JS.truthy c
            then Some (c / perUnit item * quantityConsumed)%float
            else None
        | None => None
        end))
    ruleViolations glucoseRelevant.

(** Log consumption of an item: the state left and the entry returned. *)
Definition logConsumption (id : string) (now : Z) (stored : bool)
    (item : InventoryItem.t) (quantityConsumed : JS.num)
    (ruleViolations : list string) (glucoseRelevant : bool)
    (history : list DietaryHistoryEntry.t)
  : list DietaryHistoryEntry.t * DietaryHistoryEntry.t :=
  let entry :=
    consumptionEntry id now item quantityConsumed ruleViolations
      glucoseRelevant in
  (saveHistory stored (history ++ [entry]) history, entry).




(** Delete a specific entry *)
Definition deleteEntry (stored : bool) (id : string)
    (history : list DietaryHistoryEntry.t) : list DietaryHistoryEntry.t :=
  let filtered :=
    filter (fun entry => negb (String.eqb (DietaryHistoryEntry.id entry) id))
           history in
  saveHistory stored filtered history.

(** [saveInventory] *)
Definition saveInventory (stored : bool) (items inventory : list InventoryItem.t)
  : list InventoryItem.t :=
  if stored then items else inventory.

(** Remove an item *)
Definition removeItem (stored : bool) (id : string)
    (inventory : list InventoryItem.t) : list InventoryItem.t :=
  let filtered :=
    filter (fun item => negb (String.eqb (InventoryItem.id item) id))
           inventory in
  saveInventory stored filtered inventory.




(** Mark item as finished *)
Definition finishItem (stored : bool) (id : string)
    (inventory : list InventoryItem.t) : list InventoryItem.t :=
  removeItem stored id inventory.


End Hooks.

(* ================================================================== *)
(** ** Splitting a value over cookies ([src/utils/cookies.ts]) *)

Module Cookies.

Definition MAX_COOKIE_SIZE : nat := 4000. (* Leave some buffer below 4KB limit *)

(** [s.slice(0, n)] and [s.slice(n)] *)
Fixpoint take (n : nat) (s : string) : string :=
  match n, s with
  | S n', String c s' => String c (take n' s')
  | _, _ => EmptyString
  end.

Fixpoint drop (n : nat) (s : string) : string :=
  match n, s with
  | S n', String _ s' => drop n' s'
  | _, _ => s
  end.

(** [parseInt(s, 10)]: as [parseInt(s)] but a [0x] prefix is not read as
    hexadecimal. *)
Definition parseInt10 (s : string) : JS.int :=
  let s0 := JS.trimStart s in
  let '(sign, s1) :=
    match s0 with
    | String "-" r => (-1, r)
    | String "+" r => (1, r)
    | _ => (1, s0)
    end in
  option_map (Z.mul sign) (JS.digitsPrefix 10 s1 None).

Record Cookie := mkCookie {
  name : string;
  value : string
}.

(** [`${name}_${index}`] *)
Definition partName (name : string) (index : nat) : string :=
  name ++ "_" ++ JS.toString (Z.of_nat index).

Definition countName (name : string) : string := name ++ "_count".

(** The [while] loop of [splitIntoCookies]; the state is
    [(remaining, index, cookies)]. Each turn shortens [remaining], so
    [String.length remaining] turns are enough. *)
Fixpoint splitLoop (fuel : nat) (name remaining : string) (index : nat)
    (cookies : list Cookie) : list Cookie :=
  match fuel with
  | O => cookies
  | S fuel' =>
      if (0 <? String.length remaining)%nat
      then
        let chunk := take MAX_COOKIE_SIZE remaining in
        let remaining' := drop MAX_COOKIE_SIZE remaining in
        splitLoop fuel' name remaining' (S index)
          (cookies ++
           [mkCookie
              (if (0 <? String.length remaining')%nat || (0 <? index)%nat
               then partName name index else name)
              chunk])
      else cookies
  end.

(** Split data across multiple cookies if needed *)
Definition splitIntoCookies (name data : string) : list Cookie :=
  let cookies := splitLoop (String.length data) name data 0 [] in
  (* Store the count of cookies for reconstruction *)
  if (1 <? List.length cookies)%nat
  then mkCookie (countName name)
         (JS.toString (Z.of_nat (List.length cookies))) :: cookies
  else cookies.

(** The [for] loop of [reconstructFromCookies], [turns] turns from index
    [i]. *)
Fixpoint readParts (name : string) (getCookieFn : string -> option string)
    (turns i : nat) (data : string) : option string :=
  match turns with
  | O => Some data
  | S turns' =>
      match getCookieFn (partName name i) with
      | None => None
      | Some chunk => readParts name getCookieFn turns' (S i) (data ++ chunk)
      end
  end.

(** Reconstruct data from multiple cookies. A NaN or negative count makes
    the loop run no turn. *)
Definition reconstructFromCookies (name : string)
    (getCookieFn : string -> option string) : option string :=
  let single :=
    (* Try single cookie first, then _0 suffix in case it was split *)
    match getCookieFn name with
    | Some v => Some v
    | None => getCookieFn (partName name 0)
    end in
  match getCookieFn (countName name) with
  | Some countValue =>
      if (0 <? String.length countValue)%nat
      then
        let count := parseInt10 countValue in
        readParts name getCookieFn
          (match count with Some c => Z.to_nat c | None => O end) 0 ""
      else single
  | None => single
  end.

(** A cookie jar read by name: the value of the first cookie of that name. *)
Definition lookup (jar : list Cookie) (n : string) : option string :=
  option_map value (find (fun c => String.eqb (name c) n) jar).

End Cookies.

(** The cookies [name_i], [name_(i+1)], ... holding the given parts. *)
Fixpoint numberedParts (name : string) (i : nat) (parts : list string)
  : list Cookies.Cookie :=
  match parts with
  | [] => []
  | p :: parts' =>
      Cookies.mkCookie (Cookies.partName name i) p
      :: numberedParts name (S i) parts'
  end.

(** The values the loop of [splitIntoCookies] stores, in order. *)
Fixpoint chunks (fuel : nat) (remaining : string) : list string :=
  match fuel with
  | O => []
  | S fuel' =>
      if (0 <? String.length remaining)%nat
      then Cookies.take Cookies.MAX_COOKIE_SIZE remaining
           :: chunks fuel' (Cookies.drop Cookies.MAX_COOKIE_SIZE remaining)
      else []
  end.

(* ================================================================== *)
(** ** Reading and merging CSV rows ([src/utils/csvParser.ts]) *)

Module CsvParser.

(** The double quote character *)
Definition quoteChar : ascii := "034"%char.

(** [s.trim()] *)
Fixpoint trimEnd (s : string) : string :=
  match s with
  | EmptyString => EmptyString
  | String c s' =>
      match trimEnd s' with
      | EmptyString =>
          if JS.isWhiteSpace c then EmptyString else String c EmptyString
      | t => String c t
      end
  end.

Definition trim (s : string) : string := trimEnd (JS.trimStart s).

(** The [for] loop of [parseCSVLine] over the characters still to read; the
    state is [(result, current, inQuotes)]. *)
Fixpoint parseCSVLineLoop (line : string) (result : list string)
    (current : string) (inQuotes : bool) : list string :=
  match line with
  | String char rest =>
      if Ascii.eqb char quoteChar
      then parseCSVLineLoop rest result current (negb inQuotes)
      else if Ascii.eqb char "," && negb inQuotes
      then parseCSVLineLoop rest (result ++ [trim current]) "" inQuotes
      else parseCSVLineLoop rest result (current ++ String char "") inQuotes
  | EmptyString => result ++ [trim current]
  end.

(** Parse a single CSV line, handling quoted values *)
Definition parseCSVLine (line : string) : list string :=
  parseCSVLineLoop line [] "" false.

(** Combine quantities when merging items *)
Definition combineQuantities (existing newQty : Quantity) : Quantity :=
  match existing, newQty with
  | Unknown, Unknown => Unknown
  | Unknown, _ => newQty
  | _, Unknown => existing
  | Known e, Known n => Known (e + n)%float
  end.

(** Which of the optional keys an object has as own properties, be it with
    the value [undefined]: an object spread copies exactly those. *)
Module OwnKeys.
Record t := mk {
  unit : bool;
  calories : bool;
  glycemicIndex : bool;
  servingSize : bool;
  expirationDate : bool
}.
End OwnKeys.

(** A new item, with its own keys. *)
Module NewItem.
Record t := mk {
  keys : OwnKeys.t;
  item : InventoryItem.t
}.
End NewItem.

(** The value of an optional key in [{...existingItem, ...newItem}] *)
Definition spread {A : Type} (own : bool) (existing new : option A)
  : option A :=
  if own then new else existing.

(** [l.findIndex(p)], [None] for [-1] *)
Fixpoint findIndex {A : Type} (p : A -> bool) (l : list A) : option nat :=
  match l with
  | [] => None
  | x :: l' =>
      if p x then Some O else option_map S (findIndex p l')
  end.

(** [l[i] = v] for an index within [l] *)
Fixpoint assign {A : Type} (i : nat) (v : A) (l : list A) : list A :=
  match l, i with
  | [], _ => []
  | _ :: l', O => v :: l'
  | x :: l', S i' => x :: assign i' v l'
  end.

(** One turn of the loop of [mergeInventory]; [now] is the clock reading
    taken when an existing item is updated. *)
Definition mergeItem (now : Z) (merged : list InventoryItem.t)
    (new : NewItem.t) : list InventoryItem.t :=
  let newItem := NewItem.item new in
  let own := NewItem.keys new in
  (* Find existing item with same name (case-insensitive) *)
  match
    findIndex
      (fun item =>
         String.eqb (JS.toLowerCase (InventoryItem.itemName item))
                    (JS.toLowerCase (InventoryItem.itemName newItem)))
      merged
  with
  | Some existingIndex =>
      (* Update existing item *)
      let existingItem := nth existingIndex merged newItem in
      assign existingIndex
        (InventoryItem.mk
           (InventoryItem.id existingItem) (* Keep original ID *)
           (InventoryItem.itemName newItem)
           (combineQuantities (InventoryItem.quantity existingItem)
              (InventoryItem.quantity newItem))
           (spread (OwnKeys.unit own)
              (InventoryItem.unit existingItem) (InventoryItem.unit newItem))
           (InventoryItem.category newItem)
           (InventoryItem.fiberG newItem)
           (InventoryItem.fatG newItem)
           (InventoryItem.carbsG newItem)
           (InventoryItem.proteinG newItem)
           (spread (OwnKeys.calories own)
              (InventoryItem.calories existingItem)
              (InventoryItem.calories newItem))
           (spread (OwnKeys.glycemicIndex own)
              (InventoryItem.glycemicIndex existingItem)
              (InventoryItem.glycemicIndex newItem))
           (spread (OwnKeys.servingSize own)
              (InventoryItem.servingSize existingItem)
              (InventoryItem.servingSize newItem))
           (spread (OwnKeys.expirationDate own)
              (InventoryItem.expirationDate existingItem)
              (InventoryItem.expirationDate newItem))
           (JS.ValidDate now))
        merged
  | None =>
      (* Add new item *)
      (merged ++ [newItem])%list
  end.

(** The loop of [mergeInventory]; [clock turn] is the clock reading of the
    turn. *)
Fixpoint mergeLoop (clock : nat -> Z) (turn : nat) (newItems : list NewItem.t)
    (merged : list InventoryItem.t) : list InventoryItem.t :=
  match newItems with
  | [] => merged
  | new :: newItems' =>
      mergeLoop clock (S turn) newItems' (mergeItem (clock turn) merged new)
  end.

(** Merge new items into existing inventory *)
Definition mergeInventory (clock : nat -> Z) (existing : list InventoryItem.t)
    (newItems : list NewItem.t) : list InventoryItem.t :=
  mergeLoop clock 0 newItems existing.

End CsvParser.

(** How often a character occurs in a string. *)
Fixpoint occurs (c : ascii) (s : string) : nat :=
  match s with
  | EmptyString => O
  | String x s' => ((if Ascii.eqb x c then 1 else 0) + occurs c s')%nat
  end.

(** A field as a CSV line may write it: bare, or between double quotes. *)
Definition written (quoted : bool) (field : string) : string :=
  if quoted
  then String CsvParser.quoteChar (field ++ String CsvParser.quoteChar "")
  else field.

(** The name items are matched by when merging. *)
Definition mergeKey (item : InventoryItem.t) : string :=
  JS.toLowerCase (InventoryItem.itemName item).

Module Imported.
(** Three rows as [csvRowToInventoryItem] builds them, with every key: one
    for an item of the shelf in other letter case, two for the same new
    item. *)
Definition allKeys : CsvParser.OwnKeys.t :=
  CsvParser.OwnKeys.mk true true true true true.
Definition row (id name : string) (quantity : Quantity) : CsvParser.NewItem.t :=
  CsvParser.NewItem.mk allKeys
    (InventoryItem.mk id name quantity (Some "cup") Pantry 0%float 0%float
       0%float 0%float None None None None (JS.ValidDate 5)).
Definition rows : list CsvParser.NewItem.t :=
  [row "item_5_a" "KETCHUP" (Known 2%float); row "item_5_b" "Oats" Unknown;
   row "item_5_c" "oats" (Known 1%float)].
Definition clock (turn : nat) : Z := 6 + Z.of_nat turn.
End Imported.

(* ================================================================== *)
(** ** Properties of the rule evaluator *)

Lemma RuleType_beq_eq (a b : RuleType) : RuleType_beq a b = true <-> a = b.
Proof. destruct a, b; simpl; split; intro H; congruence. Qed.

Lemma DietType_beq_eq (a b : DietType) : DietType_beq a b = true <-> a = b.
Proof. destruct a, b; simpl; split; intro H; congruence. Qed.

Lemma FoodCategory_beq_eq (a b : FoodCategory) :
  FoodCategory_beq a b = true <-> a = b.
Proof. destruct a, b; simpl; split; intro H; congruence. Qed.

Section Evaluator.
Variable params : DietRuleParams.t.

(** What one turn of the loop does to each of the three variables. *)
Lemma evaluateRule_fields acc rule :
  EvalResult.passed (evaluateRule params acc rule)
    = EvalResult.passed acc && negb (blocks params rule)
  /\ EvalResult.messages (evaluateRule params acc rule)
    = (EvalResult.messages acc
       ++ (if informs params rule then [DietRule.message rule] else []))%list
  /\ EvalResult.warnings (evaluateRule params acc rule)
    = (EvalResult.warnings acc
       ++ (if warns params rule then [DietRule.message rule] else []))%list.
Proof.
  unfold evaluateRule, blocks, informs, warns, isBlocking.
  destruct (DietRule.ruleType rule), (DietRule.condition rule params);
    simpl; rewrite ?app_nil_r, ?andb_true_r, ?andb_false_r; auto.
Qed.

Lemma fold_evaluateRule rules : forall acc,
  let r := fold_left (evaluateRule params) rules acc in
  EvalResult.passed r
    = EvalResult.passed acc && negb (existsb (blocks params) rules)
  /\ EvalResult.messages r
     = (EvalResult.messages acc
        ++ map DietRule.message (filter (informs params) rules))%list
  /\ EvalResult.warnings r
     = (EvalResult.warnings acc
        ++ map DietRule.message (filter (warns params) rules))%list.
Proof.
  induction rules as [|rule rules IH]; intros acc; simpl.
  - now rewrite andb_true_r, !app_nil_r.
  - destruct (IH (evaluateRule params acc rule)) as (Hp & Hm & Hw).
    destruct (evaluateRule_fields acc rule) as (Ep & Em & Ew).
    rewrite Hp, Hm, Hw, Ep, Em, Ew. repeat split.
    + now rewrite negb_orb, andb_assoc.
    + rewrite <- app_assoc. now destruct (informs params rule).
    + rewrite <- app_assoc. now destruct (warns params rule).
Qed.

Lemma evaluateRules_fields rules :
  EvalResult.passed (evaluateRules rules params)
    = negb (existsb (blocks params) rules)
  /\ EvalResult.messages (evaluateRules rules params)
    = map DietRule.message (filter (informs params) rules)
  /\ EvalResult.warnings (evaluateRules rules params)
    = map DietRule.message (filter (warns params) rules).
Proof.
  unfold evaluateRules.
  destruct (fold_evaluateRule rules (EvalResult.mk true [] []))
    as (Hp & Hm & Hw).
  now rewrite Hp, Hm, Hw.
Qed.

(** A rule of an ignored kind leaves the three variables as they are. *)
Lemma evaluateRule_ignored acc rule :
  isIgnored rule = true -> evaluateRule params acc rule = acc.
Proof.
  unfold isIgnored, evaluateRule.
  destruct (DietRule.ruleType rule); simpl; try discriminate; reflexivity.
Qed.

Lemma fold_evaluateRule_filter (keep : DietRule.t -> bool) rules :
  (forall rule, In rule rules -> keep rule = false -> isIgnored rule = true) ->
  forall acc,
    fold_left (evaluateRule params) (filter keep rules) acc
    = fold_left (evaluateRule params) rules acc.
Proof.
  induction rules as [|rule rules IH]; intros Hk acc; simpl; [reflexivity|].
  destruct (keep rule) eqn:K; simpl.
  - apply IH. intros r Hr. apply Hk. now right.
  - rewrite (evaluateRule_ignored acc rule) by (apply Hk; simpl; auto).
    apply IH. intros r Hr. apply Hk. now right.
Qed.
End Evaluator.

Lemma rulesForDiet_filter (keep : DietRule.t -> bool) table d :
  rulesForDiet (filter keep table) d = filter keep (rulesForDiet table d).
Proof.
  unfold rulesForDiet.
  induction table as [|rule table IH]; simpl; [reflexivity|].
  destruct (keep rule) eqn:K, (DietType_beq (DietRule.dietType rule) d) eqn:D;
    simpl; rewrite ?K, ?D, IH; reflexivity.
Qed.

Lemma evaluateItemWith_filter (keep : DietRule.t -> bool) table params :
  (forall rule, In rule table -> keep rule = false -> isIgnored rule = true) ->
  evaluateItemWith (filter keep table) params = evaluateItemWith table params.
Proof.
  intros Hk. unfold evaluateItemWith, evaluateRules.
  rewrite rulesForDiet_filter. apply fold_evaluateRule_filter.
  intros rule Hr. apply Hk. unfold rulesForDiet in Hr.
  now apply filter_In in Hr.
Qed.

Lemma evaluateRules_ext (p q : DietRuleParams.t) (rules : list DietRule.t) :
  Forall (fun rule => DietRule.condition rule p = DietRule.condition rule q)
         rules ->
  evaluateRules rules p = evaluateRules rules q.
Proof.
  unfold evaluateRules. intros H. generalize (EvalResult.mk true [] []).
  induction H as [|rule rules E _ IH]; intros acc; simpl; [reflexivity|].
  rewrite <- IH. f_equal. unfold evaluateRule. now rewrite E.
Qed.

(** C1. [evaluateItem] fails exactly when a restricted or time-based rule of
    the profile's diet evaluates to false. The messages are those of the
    allowed rules that hold, and the warnings those of the restricted,
    time-based and sequencing rules that do not hold, both in table order; so
    an allowed rule only ever adds a message and a sequencing rule only ever
    adds a warning, and neither changes [passed]. *)
Theorem evaluateItem_passed_iff (params : DietRuleParams.t) :
  let diet := UserProfile.dietType (DietRuleParams.profile params) in
  (EvalResult.passed (evaluateItem params) = false <->
     exists rule,
       In rule dietRules /\ DietRule.dietType rule = diet
       /\ (DietRule.ruleType rule = Restricted
           \/ DietRule.ruleType rule = TimeBased)
       /\ DietRule.condition rule params = false)
  /\ EvalResult.messages (evaluateItem params)
     = map DietRule.message
         (filter (fun rule =>
                    RuleType_beq (DietRule.ruleType rule) Allowed
                    && DietRule.condition rule params)
                 (getRulesForDiet diet))
  /\ EvalResult.warnings (evaluateItem params)
     = map DietRule.message
         (filter (fun rule =>
                    (RuleType_beq (DietRule.ruleType rule) Restricted
                     || RuleType_beq (DietRule.ruleType rule) TimeBased
                     || RuleType_beq (DietRule.ruleType rule) Sequencing)
                    && negb (DietRule.condition rule params))
                 (getRulesForDiet diet)).
Proof.
  intros diet. unfold evaluateItem, evaluateItemWith, getRulesForDiet.
  fold diet.
  destruct (evaluateRules_fields params (rulesForDiet dietRules diet))
    as (Hp & Hm & Hw).
  rewrite Hp, Hm, Hw. split; [|split; reflexivity].
  unfold rulesForDiet.
  rewrite negb_false_iff, existsb_exists. split.
  - intros (rule & Hin & Hb). exists rule.
    apply filter_In in Hin. destruct Hin as (Hin & Hd).
    apply DietType_beq_eq in Hd.
    unfold blocks, isBlocking in Hb.
    apply andb_true_iff in Hb. destruct Hb as (Hk & Hc).
    apply orb_true_iff in Hk. rewrite !RuleType_beq_eq in Hk.
    apply negb_true_iff in Hc. auto.
  - intros (rule & Hin & Hd & Hk & Hc). exists rule. split.
    + apply filter_In. split; [exact Hin|]. now apply DietType_beq_eq.
    + unfold blocks, isBlocking. rewrite Hc.
      apply andb_true_iff. split; [|reflexivity].
      apply orb_true_iff. now rewrite !RuleType_beq_eq.
Qed.

(** C10. [evaluateItem] ignores the macro-threshold and daily-limit rules:
    on every rule table and every input the result is the one obtained from
    the table with those rules removed. In particular the result on the
    shipped table is unchanged when [keto-low-carb] is taken out, whatever
    that rule evaluates to. *)
Theorem evaluateItem_ignores_thresholds (params : DietRuleParams.t) :
  (forall table,
     evaluateItemWith table params
     = evaluateItemWith (enforcedRules table) params)
  /\ evaluateItem params = evaluateItemWith (enforcedRules dietRules) params
  /\ evaluateItem params
     = evaluateItemWith (withoutRule "keto-low-carb" dietRules) params.
Proof.
  assert (G : forall table,
             evaluateItemWith table params
             = evaluateItemWith (enforcedRules table) params).
  { intros table. symmetry. apply evaluateItemWith_filter.
    intros rule _ H. now apply negb_false_iff in H. }
  split; [exact G|]. split; [apply G|].
  unfold evaluateItem. symmetry. apply evaluateItemWith_filter.
  intros rule Hin H. apply negb_false_iff in H.
  simpl in Hin.
  repeat (destruct Hin as [<-|Hin]; [first [reflexivity | discriminate H]|]).
  destruct Hin.
Qed.

(* ================================================================== *)
(** ** The fasting-window rule *)

Section FastingWindow.
Variables (p : DietRuleParams.t) (window : FastingWindow.t).
Variables (start end_ : Z).
Hypothesis Hwindow :
  UserProfile.fastingWindow (DietRuleParams.profile p) = Some window.
Hypothesis Hstart : minutesOf (FastingWindow.start window) = Some start.
Hypothesis Hend : minutesOf (FastingWindow.end_ window) = Some end_.

(** Both branches of the rule test the same conjunction. *)
Lemma ifFastingWindowCondition_eq :
  ifFastingWindowCondition p
  = (minutesNow (DietRuleParams.currentTime p) <? start)
    && (end_ <=? minutesNow (DietRuleParams.currentTime p)).
Proof.
  unfold ifFastingWindowCondition. rewrite Hwindow, Hstart, Hend.
  unfold JS.igtb, JS.iltb, JS.igeb, minutesNow.
  destruct (end_ <? start); [reflexivity | apply andb_comm].
Qed.

Lemma ifFastingWindowCondition_true :
  ifFastingWindowCondition p = true <->
  minutesNow (DietRuleParams.currentTime p) < start
  /\ minutesNow (DietRuleParams.currentTime p) >= end_.
Proof.
  rewrite ifFastingWindowCondition_eq, andb_true_iff, Z.ltb_lt, Z.leb_le. lia.
Qed.

(** A window that does not wrap ([start <= end_]) leaves no minute of the
    day at which the rule holds. *)
Lemma ifFastingWindowCondition_same_day :
  start <= end_ -> ifFastingWindowCondition p = false.
Proof.
  intros H. apply not_true_is_false. rewrite ifFastingWindowCondition_true.
  lia.
Qed.
End FastingWindow.

Lemma getRulesForDiet_fasting :
  map DietRule.id (getRulesForDiet IntermittentFasting) = ["if-fasting-window"].
Proof. reflexivity. Qed.

Lemma evaluateItem_fasting (p : DietRuleParams.t) :
  UserProfile.dietType (DietRuleParams.profile p) = IntermittentFasting ->
  evaluateItem p
  = EvalResult.mk (ifFastingWindowCondition p) []
      (if ifFastingWindowCondition p then [] else [fastingMessage]).
Proof.
  intros H. unfold evaluateItem, evaluateItemWith. rewrite H.
  cbv [rulesForDiet dietRules filter DietType_beq DietRule.dietType
       evaluateRules fold_left evaluateRule DietRule.ruleType RuleType_beq
       orb andb negb DietRule.condition DietRule.message app
       EvalResult.passed EvalResult.messages EvalResult.warnings].
  now destruct (ifFastingWindowCondition p).
Qed.

(** C2, as the code has it. When the window wraps midnight ([start > end_]),
    the rule holds, and the evaluation passes without a warning, exactly when
    [now < start] and [now >= end_]; the user is reported as fasting (the
    evaluation fails and carries the fasting-window warning) exactly when
    [now >= start] or [now < end_]. *)
Theorem fasting_window_wrapping (p : DietRuleParams.t)
    (window : FastingWindow.t) (start end_ : Z) :
  UserProfile.dietType (DietRuleParams.profile p) = IntermittentFasting ->
  UserProfile.fastingWindow (DietRuleParams.profile p) = Some window ->
  minutesOf (FastingWindow.start window) = Some start ->
  minutesOf (FastingWindow.end_ window) = Some end_ ->
  start > end_ ->
  let now := minutesNow (DietRuleParams.currentTime p) in
  (ifFastingWindowCondition p = true <-> now < start /\ now >= end_)
  /\ (evaluateItem p = EvalResult.mk true [] []
      <-> now < start /\ now >= end_)
  /\ (evaluateItem p = EvalResult.mk false [] [fastingMessage]
      <-> now >= start \/ now < end_).
Proof.
  intros Hd Hw Hs He Hwrap now.
  pose proof (ifFastingWindowCondition_true p window start end_ Hw Hs He) as T.
  fold now in T. rewrite (evaluateItem_fasting p Hd).
  split; [exact T|].
  destruct (ifFastingWindowCondition p); split; split; intros H;
    try reflexivity; try discriminate H.
  - now apply T.
  - exfalso. destruct T as [T _]. specialize (T eq_refl). lia.
  - apply T in H. discriminate H.
  - destruct (Z_lt_dec now start) as [L|L]; [|lia].
    destruct (Z_ge_dec now end_) as [G|G]; [|lia].
    destruct T as [_ T]. specialize (T (conj L G)). discriminate T.
Qed.

Lemma fasting_window_wrapping_witness :
  evaluateItem Examples.overnightAt13 = EvalResult.mk true [] []
  /\ evaluateItem Examples.overnightAt21
     = EvalResult.mk false [] [fastingMessage].
Proof.
  split.
  - apply (fasting_window_wrapping Examples.overnightAt13
             (FastingWindow.mk "20:00" "12:00") 1200 720);
      [reflexivity | reflexivity | reflexivity | reflexivity | lia
      | vm_compute; split; [reflexivity | discriminate]].
  - apply (fasting_window_wrapping Examples.overnightAt21
             (FastingWindow.mk "20:00" "12:00") 1200 720);
      [reflexivity | reflexivity | reflexivity | reflexivity | lia
      | left; vm_compute; discriminate].
Defined.

(** At 13:00 with a fast from 20:00 to 12:00 the window wraps and
    [now < start], [now >= end_] hold, yet the rule holds: the user is not
    reported as fasting, the evaluation passes and there is no warning. *)
Lemma fasting_window_polarity :
  minutesOf "20:00" = Some 1200 /\ minutesOf "12:00" = Some 720
  /\ minutesNow (DietRuleParams.currentTime Examples.overnightAt13) = 780
  /\ 1200 > 720
  /\ ~ (ifFastingWindowCondition Examples.overnightAt13 = false
        <-> 780 < 1200 /\ 780 >= 720)
  /\ ~ (EvalResult.passed (evaluateItem Examples.overnightAt13) = false
        <-> 780 < 1200 /\ 780 >= 720)
  /\ EvalResult.warnings (evaluateItem Examples.overnightAt13) = [].
Proof.
  repeat split; try reflexivity.
  - intros [_ H]. assert (F : 780 < 1200 /\ 780 >= 720) by lia.
    apply H in F. vm_compute in F. discriminate F.
  - intros [_ H]. assert (F : 780 < 1200 /\ 780 >= 720) by lia.
    apply H in F. vm_compute in F. discriminate F.
Qed.

(* ================================================================== *)
(** ** The protein-before-carbs rule *)

Lemma hd_filter_find {A} (test : A -> bool) (l : list A) :
  match filter test l with [] => None | x :: _ => Some x end = find test l.
Proof.
  induction l as [|x l IH]; simpl; [reflexivity|].
  now destruct (test x).
Qed.

Lemma rev_filter {A} (test : A -> bool) (l : list A) :
  rev (filter test l) = filter test (rev l).
Proof.
  induction l as [|x l IH]; simpl; [reflexivity|].
  rewrite filter_app, <- IH. simpl.
  destruct (test x); simpl; [reflexivity | now rewrite app_nil_r].
Qed.

Lemma lastElement_filter {A} (test : A -> bool) (l : list A) :
  JS.lastElement (filter test l) = lastWhere test l.
Proof.
  unfold JS.lastElement, lastWhere. rewrite rev_filter. apply hd_filter_find.
Qed.

Lemma before_true (a b : DietaryHistoryEntry.t) :
  before a b = true <->
  exists ta tb,
    DietaryHistoryEntry.timestamp a = JS.ValidDate ta
    /\ DietaryHistoryEntry.timestamp b = JS.ValidDate tb /\ ta < tb.
Proof.
  unfold before.
  destruct (DietaryHistoryEntry.timestamp a) as [ta|],
           (DietaryHistoryEntry.timestamp b) as [tb|]; simpl; split.
  all: try (intros H; discriminate H).
  all: try (intros (x & y & H1 & H2 & _); discriminate).
  - intros H. exists ta, tb. apply Z.ltb_lt in H. auto.
  - intros (x & y & H1 & H2 & H). injection H1 as <-. injection H2 as <-.
    now apply Z.ltb_lt.
Qed.

Lemma highProteinSequenceCondition_eq (p : DietRuleParams.t) :
  highProteinSequenceCondition p
  = if negb (isHighProtein (DietRuleParams.item p)) then true
    else match lastWhere isCarbMeal (DietRuleParams.todayHistory p) with
         | None => true
         | Some c =>
             match lastWhere isProteinMeal (DietRuleParams.todayHistory p) with
             | None => false
             | Some pr => before pr c
             end
         end.
Proof.
  unfold highProteinSequenceCondition.
  change (fun h => JS.gtb (MacrosConsumed.carbsG
                             (DietaryHistoryEntry.macrosConsumed h)) 15%float)
    with isCarbMeal.
  change (fun h => JS.gtb (MacrosConsumed.proteinG
                             (DietaryHistoryEntry.macrosConsumed h)) 15%float)
    with isProteinMeal.
  now rewrite !lastElement_filter.
Qed.

(** C3, as the code has it. The rule holds when the candidate is not a
    high-protein item, or no entry with more than 15 g of carbs is in today's
    history, or there is an entry with more than 15 g of protein and the last
    such entry is stamped strictly before the last entry with more than 15 g
    of carbs. It fails exactly when the candidate is a high-protein item, a
    carb entry exists, and either no protein entry exists or the last protein
    entry is not stamped strictly before the last carb entry. *)
Theorem protein_before_carbs (p : DietRuleParams.t) :
  let item := DietRuleParams.item p in
  let lastCarb := lastWhere isCarbMeal (DietRuleParams.todayHistory p) in
  let lastProtein := lastWhere isProteinMeal (DietRuleParams.todayHistory p) in
  (highProteinSequenceCondition p = true <->
     JS.geb (InventoryItem.proteinG item) 15%float = false
     \/ lastCarb = None
     \/ exists c pr tc tp,
          lastCarb = Some c /\ lastProtein = Some pr
          /\ DietaryHistoryEntry.timestamp c = JS.ValidDate tc
          /\ DietaryHistoryEntry.timestamp pr = JS.ValidDate tp
          /\ tp < tc)
  /\ (highProteinSequenceCondition p = false <->
        JS.geb (InventoryItem.proteinG item) 15%float = true
        /\ exists c,
             lastCarb = Some c
             /\ (lastProtein = None
                 \/ exists pr, lastProtein = Some pr /\ before pr c = false)).
Proof.
  intros item lastCarb lastProtein.
  rewrite highProteinSequenceCondition_eq. fold item lastCarb lastProtein.
  unfold isHighProtein.
  destruct (JS.geb (InventoryItem.proteinG item) 15%float); simpl.
  2:{ split; split; auto; intros H; try discriminate H.
      destruct H as [H _]. discriminate H. }
  destruct lastCarb as [c|].
  2:{ split; split; auto; intros H; try discriminate H.
      destruct H as (_ & c & H & _). discriminate H. }
  destruct lastProtein as [pr|].
  - split; split.
    + intros H. right. right. apply before_true in H.
      destruct H as (tp & tc & H1 & H2 & H3). exists c, pr, tc, tp. auto.
    + intros [H|[H|H]]; try discriminate H.
      destruct H as (c' & pr' & tc & tp & E1 & E2 & H1 & H2 & H3).
      injection E1 as <-. injection E2 as <-. apply before_true.
      exists tp, tc. auto.
    + intros H. split; [reflexivity|]. exists c. split; [reflexivity|].
      right. exists pr. auto.
    + intros (_ & c' & E & [H|(pr' & E2 & H)]); [discriminate H|].
      injection E as <-. injection E2 as <-. exact H.
  - split; split.
    + intros H. discriminate H.
    + intros [H|[H|H]]; try discriminate H.
      destruct H as (c' & pr' & tc & tp & _ & E2 & _). discriminate E2.
    + intros _. split; [reflexivity|]. exists c. auto.
    + reflexivity.
Qed.

(** Rice (40 g of carbs) at time 1, then eggs (20 g of protein) at time 2: a
    protein entry stamped strictly after the last carb entry exists, and the
    rule fails for a high-protein candidate. *)
Lemma protein_after_carbs_fails :
  lastWhere isCarbMeal [Examples.rice; Examples.eggs] = Some Examples.rice
  /\ lastWhere isProteinMeal [Examples.rice; Examples.eggs]
     = Some Examples.eggs
  /\ before Examples.rice Examples.eggs = true
  /\ ~ ((exists pr,
           In pr [Examples.rice; Examples.eggs] /\ isProteinMeal pr = true
           /\ before Examples.rice pr = true)
        -> highProteinSequenceCondition Examples.steakAfterRiceThenEggs = true).
Proof.
  repeat split; try reflexivity.
  intros H.
  assert (F : highProteinSequenceCondition Examples.steakAfterRiceThenEggs
              = false) by reflexivity.
  rewrite H in F; [discriminate F|].
  exists Examples.eggs. repeat split; simpl; auto.
Qed.

(* ================================================================== *)
(** ** Daily totals and daily limits *)

Lemma fold_addEntry (history : list DietaryHistoryEntry.t) : forall acc,
  fold_left addEntry history acc
  = DailyMacros.mk
      (Totals.sumFrom (DailyMacros.totalCarbs acc) (map Totals.carbs history))
      (Totals.sumFrom (DailyMacros.totalProtein acc)
         (map Totals.protein history))
      (Totals.sumFrom (DailyMacros.totalFat acc) (map Totals.fat history))
      (Totals.sumFrom (DailyMacros.totalFiber acc) (map Totals.fiber history))
      (Totals.sumFrom (DailyMacros.totalCalories acc)
         (map Totals.calories history)).
Proof.
  unfold Totals.sumFrom.
  induction history as [|e history IH]; intros acc; simpl.
  - now destruct acc.
  - now rewrite IH.
Qed.

(** C5, as the code has it. [calculateDailyMacros] sums from zero, left to
    right, each total on its own. The totals of [A ++ B] are the totals of [A]
    carried on over the entries of [B] in order; appending one entry adds its
    macros to the five totals; an entry without calories adds 0 to
    [totalCalories]. *)
Theorem calculateDailyMacros_left_to_right
    (A B : list DietaryHistoryEntry.t) (e : DietaryHistoryEntry.t) :
  calculateDailyMacros []
    = DailyMacros.mk 0%float 0%float 0%float 0%float 0%float
  /\ calculateDailyMacros (A ++ B)
     = fold_left addEntry B (calculateDailyMacros A)
  /\ calculateDailyMacros (A ++ B)
     = (let a := calculateDailyMacros A in
        DailyMacros.mk
          (Totals.sumFrom (DailyMacros.totalCarbs a) (map Totals.carbs B))
          (Totals.sumFrom (DailyMacros.totalProtein a) (map Totals.protein B))
          (Totals.sumFrom (DailyMacros.totalFat a) (map Totals.fat B))
          (Totals.sumFrom (DailyMacros.totalFiber a) (map Totals.fiber B))
          (Totals.sumFrom (DailyMacros.totalCalories a)
             (map Totals.calories B)))
  /\ calculateDailyMacros (A ++ [e])
     = (let a := calculateDailyMacros A in
        DailyMacros.mk
          (DailyMacros.totalCarbs a + Totals.carbs e)
          (DailyMacros.totalProtein a + Totals.protein e)
          (DailyMacros.totalFat a + Totals.fat e)
          (DailyMacros.totalFiber a + Totals.fiber e)
          (DailyMacros.totalCalories a + Totals.calories e))%float
  /\ (MacrosConsumed.calories (DietaryHistoryEntry.macrosConsumed e) = None ->
      DailyMacros.totalCalories (calculateDailyMacros (A ++ [e]))
      = (DailyMacros.totalCalories (calculateDailyMacros A) + 0)%float).
Proof.
  unfold calculateDailyMacros. rewrite !fold_left_app.
  split; [reflexivity|]. split; [reflexivity|]. split; [apply fold_addEntry|].
  split; [reflexivity|].
  intros H. simpl. now rewrite H.
Qed.

Lemma calculateDailyMacros_left_to_right_witness :
  DailyMacros.totalCalories
    (calculateDailyMacros ([Examples.rice] ++ [Examples.eggs]))
  = (DailyMacros.totalCalories (calculateDailyMacros [Examples.rice]) + 0)%float.
Proof.
  apply (calculateDailyMacros_left_to_right [Examples.rice] [] Examples.eggs).
  reflexivity.
Defined.

(** Binary64 addition rounds: [(0.1 + 0.2) + 0.3] is
    [0.6000000000000001] while [0.1 + (0.2 + 0.3)] and [(0.3 + 0.2) + 0.1] are
    [0.6]. So the totals of [A ++ B] are not the sums of the totals of [A] and
    of [B], and a permutation of the history changes the totals. *)
Lemma calculateDailyMacros_rounds :
  DailyMacros.totalCarbs
    (calculateDailyMacros ([Tenths.e1] ++ [Tenths.e2; Tenths.e3]))
  <> (DailyMacros.totalCarbs (calculateDailyMacros [Tenths.e1])
      + DailyMacros.totalCarbs (calculateDailyMacros [Tenths.e2; Tenths.e3]))%float
  /\ Permutation [Tenths.e1; Tenths.e2; Tenths.e3]
                 [Tenths.e3; Tenths.e2; Tenths.e1]
  /\ calculateDailyMacros [Tenths.e1; Tenths.e2; Tenths.e3]
     <> calculateDailyMacros [Tenths.e3; Tenths.e2; Tenths.e1].
Proof.
  split; [|split].
  - intros H.
    apply (f_equal (fun x => PrimFloat.ltb 0.6%float x)) in H.
    vm_compute in H. discriminate H.
  - apply Permutation_rev with (l := [Tenths.e1; Tenths.e2; Tenths.e3]).
  - intros H.
    apply (f_equal (fun m => PrimFloat.ltb 0.6%float (DailyMacros.totalCarbs m)))
      in H.
    vm_compute in H. discriminate H.
Qed.

(** C4. [checkDailyLimits] answers [fits = false], with one warning that names
    the ceiling, exactly when the diet is keto (ceiling 50) or low-glycemic
    (ceiling 130) and today's carbs plus the candidate's carbs exceed the
    ceiling. Every other answer is [fits = true] without a warning, and that is
    the answer for every other diet, high-protein included, whose protein
    entry of 150 in the table is not read. With 25 g eaten and a 30 g candidate
    on keto the answer is [fits = false] and the warning mentions 50. *)
Theorem checkDailyLimits_ceiling (item : InventoryItem.t)
    (todayHistory : list DietaryHistoryEntry.t) (dietType : DietType) :
  let eaten := DailyMacros.totalCarbs (calculateDailyMacros todayHistory) in
  let total := (eaten + InventoryItem.carbsG item)%float in
  let result := checkDailyLimits item todayHistory dietType in
  (LimitResult.fits result = false <->
     (dietType = Keto /\ JS.gtb total 50%float = true)
     \/ (dietType = LowGlycemic /\ JS.gtb total 130%float = true))
  /\ (dietType = Keto -> JS.gtb total 50%float = true ->
      result = LimitResult.mk false [carbLimitWarning "50"])
  /\ (dietType = LowGlycemic -> JS.gtb total 130%float = true ->
      result = LimitResult.mk false [carbLimitWarning "130"])
  /\ (LimitResult.fits result = true -> result = LimitResult.mk true [])
  /\ (dietType <> Keto -> dietType <> LowGlycemic ->
      result = LimitResult.mk true [])
  /\ DietLimits.protein (limits HighProtein) = Some 150
  /\ (dietType = Keto -> eaten = 25%float ->
      InventoryItem.carbsG item = 30%float ->
      LimitResult.fits result = false
      /\ exists w, LimitResult.warnings result = [w]
                   /\ JS.includes w "50" = true).
Proof.
  intros eaten total result.
  assert (K : dietType = Keto ->
              result = if JS.gtb total 50%float
                       then LimitResult.mk false [carbLimitWarning "50"]
                       else LimitResult.mk true []).
  { intros ->. reflexivity. }
  assert (L : dietType = LowGlycemic ->
              result = if JS.gtb total 130%float
                       then LimitResult.mk false [carbLimitWarning "130"]
                       else LimitResult.mk true []).
  { intros ->. reflexivity. }
  assert (O : dietType <> Keto -> dietType <> LowGlycemic ->
              result = LimitResult.mk true []).
  { intros H1 H2. destruct dietType; try reflexivity; congruence. }
  split; [split|]; [| |split; [|split; [|split; [|split; [|split]]]]].
  - intros H.
    destruct (DietType_eq_dec dietType Keto) as [E|NK].
    { left. split; [exact E|]. rewrite (K E) in H.
      destruct (JS.gtb total 50%float); [reflexivity | discriminate H]. }
    destruct (DietType_eq_dec dietType LowGlycemic) as [E|NL].
    { right. split; [exact E|]. rewrite (L E) in H.
      destruct (JS.gtb total 130%float); [reflexivity | discriminate H]. }
    rewrite (O NK NL) in H. discriminate H.
  - intros [[E G]|[E G]]; [rewrite (K E) | rewrite (L E)]; now rewrite G.
  - intros E G. now rewrite (K E), G.
  - intros E G. now rewrite (L E), G.
  - intros H.
    destruct (DietType_eq_dec dietType Keto) as [E|NK].
    { rewrite (K E) in *.
      destruct (JS.gtb total 50%float); [discriminate H | reflexivity]. }
    destruct (DietType_eq_dec dietType LowGlycemic) as [E|NL].
    { rewrite (L E) in *.
      destruct (JS.gtb total 130%float); [discriminate H | reflexivity]. }
    exact (O NK NL).
  - exact O.
  - reflexivity.
  - intros E He Hc. rewrite (K E). unfold total. rewrite He, Hc.
    split; [reflexivity|].
    exists (carbLimitWarning "50"). split; reflexivity.
Qed.

Lemma checkDailyLimits_ceiling_witness :
  LimitResult.fits
    (checkDailyLimits Examples.thirtyCarbs [Examples.previousMeal] Keto)
  = false
  /\ exists w,
       LimitResult.warnings
         (checkDailyLimits Examples.thirtyCarbs [Examples.previousMeal] Keto)
       = [w]
       /\ JS.includes w "50" = true.
Proof.
  apply (checkDailyLimits_ceiling Examples.thirtyCarbs [Examples.previousMeal]
           Keto); reflexivity.
Defined.

(* ================================================================== *)
(** ** The sort, for a comparator that subtracts keys *)

Section SortByKey.
Context {A : Type} (key : A -> Z).

Lemma insert_perm x l :
  Permutation (x :: l) (JS.insert (fun a b => key b - key a) x l).
Proof.
  induction l as [|y l IH]; simpl; [reflexivity|].
  destruct (key x - key y <? 0); [|reflexivity].
  rewrite perm_swap. now apply perm_skip.
Qed.

Lemma sort_perm l : Permutation l (JS.sort (fun a b => key b - key a) l).
Proof.
  induction l as [|x l IH]; simpl; [reflexivity|].
  rewrite <- insert_perm. now apply perm_skip.
Qed.

Lemma insert_sorted x l :
  StronglySorted (fun a b => key a >= key b) l ->
  StronglySorted (fun a b => key a >= key b)
    (JS.insert (fun a b => key b - key a) x l).
Proof.
  induction 1 as [|y l Hs IH Hy]; simpl.
  - repeat constructor.
  - destruct (key x - key y <? 0) eqn:C.
    + apply Z.ltb_lt in C. constructor; [exact IH|].
      apply (Permutation_Forall (insert_perm x l)).
      constructor; [lia | exact Hy].
    + apply Z.ltb_ge in C. constructor.
      * now constructor.
      * constructor; [lia|].
        eapply Forall_impl; [|exact Hy]. simpl. intros z Hz. lia.
Qed.

Lemma sort_sorted l :
  StronglySorted (fun a b => key a >= key b)
    (JS.sort (fun a b => key b - key a) l).
Proof.
  induction l as [|x l IH]; simpl; [constructor | now apply insert_sorted].
Qed.

(** The inserted element is passed only by elements with another key. *)
Lemma insert_stable k x l :
  filter (fun a => key a =? k) (JS.insert (fun a b => key b - key a) x l)
  = filter (fun a => key a =? k) (x :: l).
Proof.
  induction l as [|y l IH]; simpl; [reflexivity|].
  destruct (key x - key y <? 0) eqn:C; [|reflexivity].
  apply Z.ltb_lt in C. simpl. rewrite IH. simpl.
  destruct (key y =? k) eqn:Ey, (key x =? k) eqn:Ex; try reflexivity.
  apply Z.eqb_eq in Ey, Ex. lia.
Qed.

Lemma sort_stable k l :
  filter (fun a => key a =? k) (JS.sort (fun a b => key b - key a) l)
  = filter (fun a => key a =? k) l.
Proof.
  induction l as [|x l IH]; simpl; [reflexivity|].
  rewrite insert_stable. simpl. now rewrite IH.
Qed.
End SortByKey.

(* ================================================================== *)
(** ** Properties of the scorer *)

Section Steps.
Variables (item : InventoryItem.t) (profile : UserProfile.t).
Variables (todayHistory : list DietaryHistoryEntry.t) (currentTime : JS.Date).

Lemma ruleStep_score s :
  ScoreResult.score (ruleStep item profile todayHistory currentTime s)
  = ScoreResult.score s + delta (ruleStep item profile todayHistory currentTime)
  /\ (delta (ruleStep item profile todayHistory currentTime) = -40
      \/ delta (ruleStep item profile todayHistory currentTime) = 20).
Proof.
  unfold delta, ruleStep.
  destruct (EvalResult.passed _); simpl; split; auto; lia.
Qed.

Lemma limitStep_score s :
  ScoreResult.score (limitStep item profile todayHistory s)
  = ScoreResult.score s + delta (limitStep item profile todayHistory)
  /\ (delta (limitStep item profile todayHistory) = -30
      \/ delta (limitStep item profile todayHistory) = 0).
Proof.
  unfold delta, limitStep.
  destruct (LimitResult.fits _); simpl; split; auto; lia.
Qed.

Lemma expirationStep_score s :
  ScoreResult.score (expirationStep item currentTime s)
  = ScoreResult.score s + delta (expirationStep item currentTime)
  /\ (delta (expirationStep item currentTime) = -100
      \/ delta (expirationStep item currentTime) = 25
      \/ delta (expirationStep item currentTime) = 10
      \/ delta (expirationStep item currentTime) = 0).
Proof.
  unfold delta, expirationStep.
  destruct (InventoryItem.expirationDate item) as [e|]; simpl;
    [|split; [lia | auto]].
  destruct (daysUntilExpiry e currentTime) as [days|]; simpl;
    [|split; [lia | auto]].
  destruct (Qle_bool days 0); simpl; [split; [lia | auto]|].
  destruct (Qle_bool days 2); simpl; [split; [lia | auto]|].
  destruct (Qle_bool days 5); simpl; split; auto; lia.
Qed.

Lemma glucoseStep_score s :
  ScoreResult.score (glucoseStep item profile s)
  = ScoreResult.score s + delta (glucoseStep item profile)
  /\ 0 <= delta (glucoseStep item profile) <= 35.
Proof.
  unfold delta, glucoseStep.
  destruct (existsb _ _); simpl; [|lia].
  destruct (InventoryItem.glycemicIndex item) as [gi|];
    [destruct (PrimFloat.leb gi 55)|];
    destruct (JS.geb (InventoryItem.fiberG item) 3%float);
    destruct (JS.geb (InventoryItem.proteinG item) 10%float
              && PrimFloat.leb (InventoryItem.carbsG item) 10%float);
    simpl; lia.
Qed.

Lemma timingStep_score s :
  ScoreResult.score (timingStep item currentTime s)
  = ScoreResult.score s + delta (timingStep item currentTime)
  /\ (delta (timingStep item currentTime) = 10
      \/ delta (timingStep item currentTime) = 0).
Proof.
  unfold delta, timingStep.
  match goal with |- context [if ?c then _ else _] => destruct c end;
    simpl; split; auto; lia.
Qed.

Lemma varietyStep_score s :
  ScoreResult.score (varietyStep item todayHistory s)
  = ScoreResult.score s + delta (varietyStep item todayHistory)
  /\ (delta (varietyStep item todayHistory) = 5
      \/ delta (varietyStep item todayHistory) = 0).
Proof.
  unfold delta, varietyStep.
  match goal with |- context [if ?c then _ else _] => destruct c end;
    simpl; split; auto; lia.
Qed.

Lemma quantityStep_score s :
  ScoreResult.score (quantityStep item s)
  = ScoreResult.score s + delta (quantityStep item)
  /\ (delta (quantityStep item) = 5 \/ delta (quantityStep item) = 0).
Proof.
  unfold delta, quantityStep.
  destruct (InventoryItem.quantity item) as [q|];
    [destruct (JS.gtb q 0%float)|]; simpl; split; auto; lia.
Qed.

(** The score before the final clamp: the base plus the seven terms. *)
Lemma accumulate_score :
  ScoreResult.score (accumulate item profile todayHistory currentTime)
  = 50
    + delta (ruleStep item profile todayHistory currentTime)
    + delta (limitStep item profile todayHistory)
    + delta (expirationStep item currentTime)
    + delta (glucoseStep item profile)
    + delta (timingStep item currentTime)
    + delta (varietyStep item todayHistory)
    + delta (quantityStep item).
Proof.
  unfold accumulate.
  rewrite (proj1 (quantityStep_score _)), (proj1 (varietyStep_score _)),
    (proj1 (timingStep_score _)), (proj1 (glucoseStep_score _)),
    (proj1 (expirationStep_score _)), (proj1 (limitStep_score _)),
    (proj1 (ruleStep_score _)).
  reflexivity.
Qed.
End Steps.

(** C7. Whatever the inputs, the score of [calculateSuggestionScore] lies in
    [[0, 100]]: it is the base 50 plus the seven terms (rules -40 or +20,
    limits -30 or 0, expiration -100, +25, +10 or 0, glucose goal 0 to +35,
    snack time +10 or 0, variety +5 or 0, quantity +5 or 0), clamped to
    [[0, 100]] at the end. The item with 500 g of carbs on keto that has
    expired accumulates -50 and scores 0. *)
Theorem score_clamped (item : InventoryItem.t) (profile : UserProfile.t)
    (todayHistory : list DietaryHistoryEntry.t) (currentTime : JS.Date) :
  let raw :=
    ScoreResult.score (accumulate item profile todayHistory currentTime) in
  let result :=
    calculateSuggestionScore item profile todayHistory currentTime in
  0 <= ScoreResult.score result <= 100
  /\ ScoreResult.score result = Z.max 0 (Z.min 100 raw)
  /\ raw = 50
           + delta (ruleStep item profile todayHistory currentTime)
           + delta (limitStep item profile todayHistory)
           + delta (expirationStep item currentTime)
           + delta (glucoseStep item profile)
           + delta (timingStep item currentTime)
           + delta (varietyStep item todayHistory)
           + delta (quantityStep item)
  /\ -120 <= raw <= 150
  /\ ScoreResult.score (accumulate Extreme.loaf Extreme.keto [] Extreme.now)
     = -50
  /\ ScoreResult.score
       (calculateSuggestionScore Extreme.loaf Extreme.keto [] Extreme.now) = 0.
Proof.
  intros raw result.
  assert (R := accumulate_score item profile todayHistory currentTime).
  fold raw in R.
  split; [unfold result, calculateSuggestionScore; simpl; lia|].
  split; [reflexivity|]. split; [exact R|]. split; [|split; reflexivity].
  set (z := ScoreResult.mk 0 [] []).
  destruct (ruleStep_score item profile todayHistory currentTime z) as [_ H1].
  destruct (limitStep_score item profile todayHistory z) as [_ H2].
  destruct (expirationStep_score item currentTime z) as [_ H3].
  destruct (glucoseStep_score item profile z) as [_ H4].
  destruct (timingStep_score item currentTime z) as [_ H5].
  destruct (varietyStep_score item todayHistory z) as [_ H6].
  destruct (quantityStep_score item z) as [_ H7].
  lia.
Qed.

(* ================================================================== *)
(** ** Properties of the ranker *)

Section Ranker.
Variables (profile : UserProfile.t).
Variables (todayHistory : list DietaryHistoryEntry.t) (currentTime : JS.Date).

Lemma considerItem_cases suggestions item :
  (isSuggested profile todayHistory currentTime item = true
   /\ exists s,
        considerItem profile todayHistory currentTime suggestions item
        = (suggestions ++ [s])%list
        /\ MealSuggestion.item s = item
        /\ MealSuggestion.score s
           = scoreOf profile todayHistory currentTime item)
  \/ (isSuggested profile todayHistory currentTime item = false
      /\ considerItem profile todayHistory currentTime suggestions item
         = suggestions).
Proof.
  unfold considerItem, isSuggested, outOfStock, scoreOf.
  destruct (match InventoryItem.quantity item with
            | Known q => PrimFloat.leb q 0%float
            | Unknown => false
            end); simpl; [now right|].
  destruct (FoodCategory_beq (InventoryItem.category item) Condiments);
    simpl; [now right|].
  destruct (20 <=? _); [left | now right].
  split; [reflexivity|]. eexists. split; [reflexivity|]. simpl. auto.
Qed.

(** The array before the sort holds one suggestion per suggested item, in
    inventory order, each with the score of its item. *)
Lemma fold_considerItem inventory : forall suggestions,
  exists pushed,
    fold_left (considerItem profile todayHistory currentTime) inventory
      suggestions
    = (suggestions ++ pushed)%list
    /\ map MealSuggestion.item pushed
       = filter (isSuggested profile todayHistory currentTime) inventory
    /\ Forall (fun s => MealSuggestion.score s
                        = scoreOf profile todayHistory currentTime
                            (MealSuggestion.item s)) pushed.
Proof.
  induction inventory as [|item inventory IH]; intros suggestions; simpl.
  - exists []. now rewrite app_nil_r.
  - destruct (considerItem_cases suggestions item)
      as [(Hs & s & E & Hi & Hv)|(Hs & E)]; rewrite E, Hs.
    + destruct (IH (suggestions ++ [s])%list) as (pushed & E' & Hm & Hf).
      exists (s :: pushed). rewrite E', <- app_assoc. simpl.
      repeat split; [now rewrite Hi, Hm|].
      constructor; [now rewrite Hi | exact Hf].
    + apply IH.
Qed.

Lemma collectSuggestions_spec inventory :
  let collected :=
    collectSuggestions inventory profile todayHistory currentTime in
  map MealSuggestion.item collected
  = filter (isSuggested profile todayHistory currentTime) inventory
  /\ Forall (fun s => MealSuggestion.score s
                      = scoreOf profile todayHistory currentTime
                          (MealSuggestion.item s)) collected.
Proof.
  unfold collectSuggestions.
  destruct (fold_considerItem inventory []) as (pushed & E & Hm & Hf).
  rewrite E. simpl. auto.
Qed.

Lemma generateSuggestions_perm inventory :
  Permutation
    (collectSuggestions inventory profile todayHistory currentTime)
    (generateSuggestions inventory profile todayHistory currentTime).
Proof. apply (sort_perm MealSuggestion.score). Qed.

(** Every suggestion returned is that of a suggested item of the
    inventory. *)
Lemma generateSuggestions_In inventory s :
  In s (generateSuggestions inventory profile todayHistory currentTime) ->
  In (MealSuggestion.item s) inventory
  /\ isSuggested profile todayHistory currentTime (MealSuggestion.item s)
     = true
  /\ MealSuggestion.score s
     = scoreOf profile todayHistory currentTime (MealSuggestion.item s).
Proof.
  intros H.
  apply (Permutation_in _ (Permutation_sym (generateSuggestions_perm _)))
    in H.
  destruct (collectSuggestions_spec inventory) as [Hm Hf].
  assert (I : In (MealSuggestion.item s)
                 (filter (isSuggested profile todayHistory currentTime)
                    inventory)).
  { rewrite <- Hm. now apply in_map. }
  apply filter_In in I. destruct I as [I1 I2].
  rewrite Forall_forall in Hf. auto.
Qed.

Lemma isSuggested_In inventory item :
  In item inventory ->
  isSuggested profile todayHistory currentTime item = true ->
  exists s,
    In s (generateSuggestions inventory profile todayHistory currentTime)
    /\ MealSuggestion.item s = item.
Proof.
  intros Hin Hs.
  destruct (collectSuggestions_spec inventory) as [Hm _].
  assert (I : In item (filter (isSuggested profile todayHistory currentTime)
                         inventory))
    by (apply filter_In; auto).
  rewrite <- Hm in I. apply in_map_iff in I. destruct I as (s & E & I).
  exists s. split; [|exact E].
  now apply (Permutation_in _ (generateSuggestions_perm inventory)).
Qed.
End Ranker.

(** C6. No suggestion returned by [generateSuggestions] is for an item whose
    quantity is a known number [<= 0], nor for a condiment; every suggestion
    is for an item of the inventory. An item of unknown quantity is not
    excluded on that account: if it is no condiment and scores at least 20,
    it is suggested. *)
Theorem generateSuggestions_excludes (inventory : list InventoryItem.t)
    (profile : UserProfile.t) (todayHistory : list DietaryHistoryEntry.t)
    (currentTime : JS.Date) :
  (forall s,
     In s (generateSuggestions inventory profile todayHistory currentTime) ->
     In (MealSuggestion.item s) inventory
     /\ (forall q, InventoryItem.quantity (MealSuggestion.item s) = Known q ->
                   PrimFloat.leb q 0%float = false)
     /\ InventoryItem.category (MealSuggestion.item s) <> Condiments)
  /\ (forall item,
        In item inventory ->
        InventoryItem.quantity item = Unknown ->
        InventoryItem.category item <> Condiments ->
        20 <= ScoreResult.score
                (calculateSuggestionScore item profile todayHistory currentTime) ->
        exists s,
          In s (generateSuggestions inventory profile todayHistory currentTime)
          /\ MealSuggestion.item s = item).
Proof.
  split.
  - intros s H. apply generateSuggestions_In in H.
    destruct H as (Hin & Hs & _). split; [exact Hin|].
    unfold isSuggested, outOfStock in Hs.
    apply andb_true_iff in Hs. destruct Hs as [Hs _].
    apply andb_true_iff in Hs. destruct Hs as [Hq Hc].
    apply negb_true_iff in Hq, Hc. split.
    + intros q E. now rewrite E in Hq.
    + intros E. rewrite E in Hc. discriminate Hc.
  - intros item Hin Hq Hc Hs. apply isSuggested_In; [exact Hin|].
    unfold isSuggested, outOfStock, scoreOf. rewrite Hq. simpl.
    apply andb_true_iff. split; [|now apply Z.leb_le].
    apply negb_true_iff, not_true_is_false. intros E.
    now apply FoodCategory_beq_eq in E.
Qed.

Lemma generateSuggestions_excludes_witness :
  (exists s,
     In s (generateSuggestions Pantry.shelf Pantry.profile [] Pantry.noon)
     /\ MealSuggestion.item s = Pantry.loose)
  /\ InventoryItem.category Examples.testFood <> Condiments.
Proof.
  split.
  - apply (proj2 (generateSuggestions_excludes Pantry.shelf Pantry.profile []
                    Pantry.noon) Pantry.loose).
    + simpl. auto.
    + reflexivity.
    + discriminate.
    + vm_compute. discriminate.
  - apply (proj1 (generateSuggestions_excludes Pantry.shelf Pantry.profile []
                    Pantry.noon)
             (MealSuggestion.mk Examples.testFood "Available in your pantry"
                80 [])).
    vm_compute. auto.
Defined.

(** C9. Every suggestion returned by [generateSuggestions] scores at least
    20, and the list is in non-increasing order of score. The sort is stable
    and has no other key: for each score, the suggestions with that score are
    in the order in which the loop pushed them, which is the order of their
    items in the inventory. *)
Theorem generateSuggestions_ranked (inventory : list InventoryItem.t)
    (profile : UserProfile.t) (todayHistory : list DietaryHistoryEntry.t)
    (currentTime : JS.Date) :
  let collected :=
    collectSuggestions inventory profile todayHistory currentTime in
  let ranked :=
    generateSuggestions inventory profile todayHistory currentTime in
  Forall (fun s => 20 <= MealSuggestion.score s) ranked
  /\ StronglySorted
       (fun a b => MealSuggestion.score a >= MealSuggestion.score b) ranked
  /\ Permutation collected ranked
  /\ (forall k,
        filter (fun s => MealSuggestion.score s =? k) ranked
        = filter (fun s => MealSuggestion.score s =? k) collected)
  /\ map MealSuggestion.item collected
     = filter (isSuggested profile todayHistory currentTime) inventory.
Proof.
  intros collected ranked.
  split; [|split; [|split; [|split]]].
  - apply Forall_forall. intros s H.
    apply generateSuggestions_In in H. destruct H as (_ & Hs & Hv).
    rewrite Hv. unfold isSuggested in Hs.
    apply andb_true_iff in Hs. destruct Hs as [_ Hs]. now apply Z.leb_le.
  - apply (sort_sorted MealSuggestion.score).
  - apply generateSuggestions_perm.
  - intros k. apply (sort_stable MealSuggestion.score).
  - apply collectSuggestions_spec.
Qed.

(* ================================================================== *)
(** ** The expiration term *)

(** No rule of the table reads the expiration date. *)
Lemma dietRules_ignore_expiration e item t profile history :
  Forall (fun rule =>
            DietRule.condition rule
              (DietRuleParams.mk (withExpiration e item) t profile history)
            = DietRule.condition rule
                (DietRuleParams.mk item t profile history))
         dietRules.
Proof. repeat constructor. Qed.

Lemma evaluateItem_withExpiration e item t profile history :
  evaluateItem (DietRuleParams.mk (withExpiration e item) t profile history)
  = evaluateItem (DietRuleParams.mk item t profile history).
Proof.
  unfold evaluateItem, evaluateItemWith. simpl DietRuleParams.profile.
  apply evaluateRules_ext. unfold rulesForDiet.
  apply Forall_forall. intros rule H. apply filter_In in H.
  destruct H as [H _].
  pose proof (dietRules_ignore_expiration e item t profile history) as F.
  rewrite Forall_forall in F. now apply F.
Qed.

Lemma ruleStep_withExpiration e item profile history t s :
  ruleStep (withExpiration e item) profile history t s
  = ruleStep item profile history t s.
Proof. unfold ruleStep. now rewrite evaluateItem_withExpiration. Qed.

(** The pre-clamp score of an item is that of the same item without an
    expiration date, plus the expiration term. *)
Lemma accumulate_expiration item profile history t :
  ScoreResult.score (accumulate item profile history t)
  = ScoreResult.score (accumulate (withExpiration None item) profile history t)
    + delta (expirationStep item t).
Proof.
  rewrite !accumulate_score.
  replace (delta (ruleStep (withExpiration None item) profile history t))
    with (delta (ruleStep item profile history t))
    by (unfold delta; now rewrite ruleStep_withExpiration).
  change (delta (limitStep (withExpiration None item) profile history))
    with (delta (limitStep item profile history)).
  change (delta (expirationStep (withExpiration None item) t)) with 0.
  change (delta (glucoseStep (withExpiration None item) profile))
    with (delta (glucoseStep item profile)).
  change (delta (timingStep (withExpiration None item) t))
    with (delta (timingStep item t)).
  change (delta (varietyStep (withExpiration None item) history))
    with (delta (varietyStep item history)).
  change (delta (quantityStep (withExpiration None item)))
    with (delta (quantityStep item)).
  lia.
Qed.

Lemma Qle_bool_false (x y : Q) : (y < x)%Q -> Qle_bool x y = false.
Proof.
  intros H. apply not_true_is_false. rewrite Qle_bool_iff.
  now apply Qlt_not_le.
Qed.
(** C8, as the code has it. With the days until expiry taken as the exact
    quotient of the milliseconds left by 86400000: [days <= 0] adds -100 and
    the warning "This item has expired"; [0 < days <= 2] adds +25 and a reason
    that cites the days rounded up; [2 < days <= 5] adds +10 and a softer
    reason; [days > 5], an unparsable date and no date add nothing. These are
    terms of the score before the clamp: there, an item expiring within two
    days is 25 above the same item without a date. The returned score is the
    clamp of that, so it is between 0 and 25 above, and 25 above when the
    item without a date accumulates between 0 and 75. *)
Theorem expiration_adjustment (item : InventoryItem.t)
    (profile : UserProfile.t) (history : list DietaryHistoryEntry.t)
    (t : JS.Date) (s : ScoreResult.t) :
  let fresh := withExpiration None item in
  let raw i := ScoreResult.score (accumulate i profile history t) in
  let final i :=
    ScoreResult.score (calculateSuggestionScore i profile history t) in
  (InventoryItem.expirationDate item = None -> expirationStep item t s = s)
  /\ (forall e,
        InventoryItem.expirationDate item = Some e ->
        daysUntilExpiry e t = None ->
        expirationStep item t s = s /\ raw item = raw fresh)
  /\ (forall e days,
        InventoryItem.expirationDate item = Some e ->
        daysUntilExpiry e t = Some days ->
        ((days <= 0)%Q ->
           expirationStep item t s
           = pushWarnings [expiredWarning] (addScore (-100) s)
           /\ raw item = raw fresh - 100)
        /\ ((0 < days)%Q -> (days <= 2)%Q ->
              expirationStep item t s
              = pushReasons [eatSoonReason days] (addScore 25 s)
              /\ raw item = raw fresh + 25
              /\ final item = Z.max 0 (Z.min 100 (raw fresh + 25))
              /\ 0 <= final item - final fresh <= 25
              /\ (0 <= raw fresh <= 75 -> final item = final fresh + 25))
        /\ ((2 < days)%Q -> (days <= 5)%Q ->
              expirationStep item t s
              = pushReasons [considerSoonReason days] (addScore 10 s)
              /\ raw item = raw fresh + 10)
        /\ ((5 < days)%Q ->
              expirationStep item t s = s /\ raw item = raw fresh))
  /\ JS.includes expiredWarning "expired" = true.
Proof.
  intros fresh raw final.
  assert (R : raw item = raw fresh + delta (expirationStep item t))
    by apply accumulate_expiration.
  assert (F : forall i, final i = Z.max 0 (Z.min 100 (raw i)))
    by reflexivity.
  split; [|split; [|split; [|reflexivity]]].
  - intros E. unfold expirationStep. now rewrite E.
  - intros e E D. unfold delta, expirationStep in *. rewrite E, D in *.
    simpl in R. split; [reflexivity | lia].
  - intros e days E D.
    assert (X : forall s',
               expirationStep item t s'
               = if Qle_bool days 0
                 then pushWarnings [expiredWarning] (addScore (-100) s')
                 else if Qle_bool days 2
                 then pushReasons [eatSoonReason days] (addScore 25 s')
                 else if Qle_bool days 5
                 then pushReasons [considerSoonReason days] (addScore 10 s')
                 else s').
    { intros s'. unfold expirationStep. now rewrite E, D. }
    unfold delta in R. rewrite X in R. rewrite X.
    split; [|split; [|split]].
    + intros H. apply Qle_bool_iff in H. rewrite H in *. simpl in R.
      split; [reflexivity | lia].
    + intros H0 H2. rewrite (Qle_bool_false _ _ H0) in *.
      apply Qle_bool_iff in H2. rewrite H2 in *. simpl in R.
      split; [reflexivity|]. split; [lia|]. rewrite !F, R. lia.
    + intros H2 H5.
      assert (H0 : (0 < days)%Q) by (eapply Qlt_trans; [|exact H2]; reflexivity).
      rewrite (Qle_bool_false _ _ H0), (Qle_bool_false _ _ H2) in *.
      apply Qle_bool_iff in H5. rewrite H5 in *. simpl in R.
      split; [reflexivity | lia].
    + intros H5.
      assert (H2 : (2 < days)%Q) by (eapply Qlt_trans; [|exact H5]; reflexivity).
      assert (H0 : (0 < days)%Q) by (eapply Qlt_trans; [|exact H2]; reflexivity).
      rewrite (Qle_bool_false _ _ H0), (Qle_bool_false _ _ H2),
        (Qle_bool_false _ _ H5) in *.
      simpl in R. split; [reflexivity | lia].
Qed.

Lemma expiration_adjustment_witness :
  ScoreResult.score
    (accumulate Expiring.tomorrow Expiring.keto [] Expiring.noon)
  = ScoreResult.score
      (accumulate (withExpiration None Expiring.tomorrow) Expiring.keto []
         Expiring.noon) + 25.
Proof.
  apply (proj1 (proj2 (proj2 (expiration_adjustment Expiring.tomorrow
                                Expiring.keto [] Expiring.noon
                                (ScoreResult.mk 50 [] []))))
           (JS.ValidDate Examples.day) (Qmake 86400000 86400000)
           eq_refl eq_refl).
  - reflexivity.
  - vm_compute. discriminate.
Defined.

(** [Test Food] on keto scores 80 without an expiration date and 100, not
    105, when it expires in exactly one day. *)
Lemma expiring_item_clamped :
  daysUntilExpiry (JS.ValidDate Examples.day) Expiring.noon
  = Some (Qmake 86400000 86400000)
  /\ (Qmake 86400000 86400000 == 1)%Q
  /\ withExpiration None Expiring.tomorrow = Expiring.fresh
  /\ ScoreResult.score
       (calculateSuggestionScore Expiring.fresh Expiring.keto []
          Expiring.noon) = 80
  /\ ScoreResult.score
       (calculateSuggestionScore Expiring.tomorrow Expiring.keto []
          Expiring.noon) = 100
  /\ ScoreResult.score
       (calculateSuggestionScore Expiring.tomorrow Expiring.keto []
          Expiring.noon)
     <> ScoreResult.score
          (calculateSuggestionScore Expiring.fresh Expiring.keto []
             Expiring.noon) + 25.
Proof.
  repeat split; try reflexivity.
  vm_compute. discriminate.
Qed.

(* ================================================================== *)
(** ** Further properties of the rule table and its evaluator *)

Lemma blocks_warns params rule : blocks params rule = true -> warns params rule = true.
Proof.
  unfold blocks, warns. intros H. apply andb_true_iff in H.
  destruct H as [H1 H2]. now rewrite H1, H2.
Qed.

Lemma informs_warns_exclusive params rule :
  informs params rule = true -> warns params rule = false.
Proof.
  unfold informs, warns. intros H. apply andb_true_iff in H.
  destruct H as [_ H]. rewrite H. apply andb_false_r.
Qed.

Lemma filter_exclusive_length {A} (f g : A -> bool) (l : list A) :
  (forall x, f x = true -> g x = false) ->
  (List.length (filter f l) + List.length (filter g l) <= List.length l)%nat.
Proof.
  intros H. induction l as [|x l IH]; simpl; [lia|].
  destruct (f x) eqn:F; [rewrite (H x F)|destruct (g x)]; simpl; lia.
Qed.

(** X1. [getRulesForDiet] returns exactly the rules of the table bound to the
    diet asked for; every one of the twelve diets has at least one rule and at
    most three; rule ids are unique in the table. *)
Theorem getRulesForDiet_covers (diet : DietType) :
  (forall rule,
     In rule (getRulesForDiet diet) <->
     In rule dietRules /\ DietRule.dietType rule = diet)
  /\ getRulesForDiet diet <> []
  /\ (List.length (getRulesForDiet diet) <= 3)%nat
  /\ NoDup (map DietRule.id dietRules).
Proof.
  split; [|split; [|split]].
  - intros rule. unfold getRulesForDiet, rulesForDiet.
    rewrite filter_In, DietType_beq_eq. reflexivity.
  - destruct diet; discriminate.
  - destruct diet; simpl; lia.
  - simpl. repeat (constructor; [simpl; intuition discriminate|]).
    constructor.
Qed.

(** X2. On any rule table, an evaluation that fails carries at least one
    warning, and no rule contributes more than one line: messages and warnings
    together are at most as many as the rules of the diet. *)
Theorem evaluateItemWith_failure_warns (table : list DietRule.t)
    (params : DietRuleParams.t) :
  let result := evaluateItemWith table params in
  let diet := UserProfile.dietType (DietRuleParams.profile params) in
  (EvalResult.passed result = false -> EvalResult.warnings result <> [])
  /\ (EvalResult.warnings result = [] -> EvalResult.passed result = true)
  /\ (List.length (EvalResult.messages result)
      + List.length (EvalResult.warnings result)
      <= List.length (rulesForDiet table diet))%nat.
Proof.
  intros result diet. unfold result, evaluateItemWith. fold diet.
  destruct (evaluateRules_fields params (rulesForDiet table diet))
    as (Hp & Hm & Hw).
  rewrite Hp, Hm, Hw.
  assert (W : negb (existsb (blocks params) (rulesForDiet table diet)) = false ->
              map DietRule.message
                (filter (warns params) (rulesForDiet table diet)) <> []).
  { intros H. apply negb_false_iff, existsb_exists in H.
    destruct H as (rule & Hin & Hb). apply blocks_warns in Hb.
    assert (I : In rule (filter (warns params) (rulesForDiet table diet)))
      by (apply filter_In; auto).
    intros E. apply (in_map DietRule.message) in I. rewrite E in I.
    destruct I. }
  split; [exact W|]. split.
  - intros E.
    destruct (negb (existsb (blocks params) (rulesForDiet table diet)))
      eqn:B; [reflexivity|].
    exfalso. now apply W.
  - rewrite !length_map. apply filter_exclusive_length.
    apply informs_warns_exclusive.
Qed.

Lemma evaluateItemWith_failure_warns_witness :
  EvalResult.warnings
    (evaluateItemWith dietRules Examples.overnightAt21) <> [].
Proof.
  apply (evaluateItemWith_failure_warns dietRules Examples.overnightAt21).
  reflexivity.
Defined.

(** X3. A profile on the low-glycemic, Mediterranean, DASH, high-protein or
    flexitarian diet never fails the rule evaluation, whatever the item, the
    time and the history: these diets have no restricted or time-based rule.
    Every other diet has one. *)
Theorem lenient_diets_always_pass (params : DietRuleParams.t) :
  (In (UserProfile.dietType (DietRuleParams.profile params)) lenientDiets ->
   EvalResult.passed (evaluateItem params) = true)
  /\ (forall diet,
        ~ In diet lenientDiets ->
        existsb isBlocking (getRulesForDiet diet) = true).
Proof.
  split.
  - intros H. unfold evaluateItem, evaluateItemWith.
    rewrite (proj1 (evaluateRules_fields params _)).
    simpl in H.
    destruct H as [<-|[<-|[<-|[<-|[<-|[]]]]]]; reflexivity.
  - intros diet H. destruct diet; try reflexivity; exfalso; apply H;
      simpl; auto 6.
Qed.

Lemma lenient_diets_always_pass_witness :
  EvalResult.passed (evaluateItem Examples.steakAfterRiceThenEggs) = true.
Proof.
  apply (proj1 (lenient_diets_always_pass Examples.steakAfterRiceThenEggs)).
  simpl. auto.
Defined.

Lemma evaluateItem_vegetarian (p : DietRuleParams.t) :
  UserProfile.dietType (DietRuleParams.profile p) = Vegetarian ->
  evaluateItem p
  = if isVegetarian (DietRuleParams.item p)
    then EvalResult.mk true [] []
    else EvalResult.mk false [] ["This food contains meat"].
Proof.
  intros H. unfold evaluateItem, evaluateItemWith. rewrite H.
  cbv [rulesForDiet dietRules filter DietType_beq DietRule.dietType
       evaluateRules fold_left evaluateRule DietRule.ruleType RuleType_beq
       orb andb DietRule.condition DietRule.message app itemOf
       EvalResult.passed EvalResult.messages EvalResult.warnings].
  now destruct (isVegetarian (DietRuleParams.item p)).
Qed.

Lemma evaluateItem_vegan (p : DietRuleParams.t) :
  UserProfile.dietType (DietRuleParams.profile p) = Vegan ->
  evaluateItem p
  = if isVegan (DietRuleParams.item p)
    then EvalResult.mk true
           (if JS.geb (InventoryItem.proteinG (DietRuleParams.item p)) 5%float
            then ["Good plant-based protein source"] else []) []
    else EvalResult.mk false [] ["This food contains animal products"].
Proof.
  intros H. unfold evaluateItem, evaluateItemWith. rewrite H.
  cbv [rulesForDiet dietRules filter DietType_beq DietRule.dietType
       evaluateRules fold_left evaluateRule DietRule.ruleType RuleType_beq
       orb DietRule.condition DietRule.message app itemOf
       EvalResult.passed EvalResult.messages EvalResult.warnings].
  destruct (isVegan (DietRuleParams.item p)); simpl; [|reflexivity].
  now destruct (JS.geb _ 5%float).
Qed.

(** X4. On the vegetarian diet an item passes exactly when its category is
    not meat; on the vegan diet exactly when it is neither meat nor dairy. So
    what passes for a vegan passes for a vegetarian, and a meat item fails
    both with the diet's one warning. The name and the macros of the item play
    no part. *)
Theorem plant_based_diets (item : InventoryItem.t) (t : JS.Date)
    (history : list DietaryHistoryEntry.t) (vegetarian vegan : UserProfile.t) :
  UserProfile.dietType vegetarian = Vegetarian ->
  UserProfile.dietType vegan = Vegan ->
  let asVegetarian :=
    evaluateItem (DietRuleParams.mk item t vegetarian history) in
  let asVegan := evaluateItem (DietRuleParams.mk item t vegan history) in
  (EvalResult.passed asVegetarian = true <->
     InventoryItem.category item <> Meat)
  /\ (EvalResult.passed asVegan = true <->
        InventoryItem.category item <> Meat
        /\ InventoryItem.category item <> Dairy)
  /\ (EvalResult.passed asVegan = true ->
      EvalResult.passed asVegetarian = true)
  /\ (InventoryItem.category item = Meat ->
      asVegetarian = EvalResult.mk false [] ["This food contains meat"]
      /\ asVegan
         = EvalResult.mk false [] ["This food contains animal products"]).
Proof.
  intros Hv Hn asVegetarian asVegan.
  unfold asVegetarian, asVegan.
  rewrite (evaluateItem_vegetarian (DietRuleParams.mk item t vegetarian history)
             Hv),
    (evaluateItem_vegan (DietRuleParams.mk item t vegan history) Hn).
  unfold isVegetarian, isVegan, NON_VEGAN_CATEGORIES. simpl.
  destruct (InventoryItem.category item); simpl;
    repeat split; intros; try congruence; try discriminate;
    try (destruct H; congruence);
    now destruct (JS.geb (InventoryItem.proteinG item) 5%float).
Qed.

Lemma plant_based_diets_witness :
  evaluateItem
    (DietRuleParams.mk Examples.steak Pantry.noon
       (Examples.mkProfile Vegetarian [] None) [])
  = EvalResult.mk false [] ["This food contains meat"].
Proof.
  apply (plant_based_diets Examples.steak Pantry.noon []
           (Examples.mkProfile Vegetarian [] None)
           (Examples.mkProfile Vegan [] None)); reflexivity.
Defined.

Lemma passed_keyword_diet (p : DietRuleParams.t) (keywords : list string) :
  restrictedKeywords (UserProfile.dietType (DietRuleParams.profile p))
  = Some keywords ->
  EvalResult.passed (evaluateItem p)
  = negb (containsAny (InventoryItem.itemName (DietRuleParams.item p))
            keywords).
Proof.
  intros H. unfold evaluateItem, evaluateItemWith.
  rewrite (proj1 (evaluateRules_fields p _)).
  destruct (UserProfile.dietType (DietRuleParams.profile p));
    try discriminate H; injection H as <-;
    cbv [rulesForDiet dietRules filter DietType_beq DietRule.dietType
         existsb blocks isBlocking DietRule.ruleType RuleType_beq orb andb
         DietRule.condition itemOf];
    now destruct (containsAny _ _).
Qed.

(** X5. On keto, paleo, Whole30 and low-FODMAP the evaluation passes exactly
    when the lower-cased item name contains none of the diet's restricted
    keywords. Two items whose names differ only by case therefore pass or fail
    together on such a diet, whatever their macros. *)
Theorem keyword_diets_go_by_name (p q : DietRuleParams.t)
    (keywords : list string) :
  restrictedKeywords (UserProfile.dietType (DietRuleParams.profile p))
  = Some keywords ->
  UserProfile.dietType (DietRuleParams.profile q)
  = UserProfile.dietType (DietRuleParams.profile p) ->
  JS.toLowerCase (InventoryItem.itemName (DietRuleParams.item q))
  = JS.toLowerCase (InventoryItem.itemName (DietRuleParams.item p)) ->
  EvalResult.passed (evaluateItem p)
  = negb (existsb
            (fun k =>
               JS.includes
                 (JS.toLowerCase (InventoryItem.itemName (DietRuleParams.item p)))
                 (JS.toLowerCase k))
            keywords)
  /\ EvalResult.passed (evaluateItem q) = EvalResult.passed (evaluateItem p).
Proof.
  intros Hk Hd Hn.
  rewrite (passed_keyword_diet p keywords Hk).
  rewrite (passed_keyword_diet q keywords) by now rewrite Hd.
  unfold containsAny. now rewrite Hn.
Qed.

Lemma keyword_diets_go_by_name_witness :
  EvalResult.passed
    (evaluateItem
       (DietRuleParams.mk
          (Examples.mkItem "BROWN RICE" Unknown Grains 0%float 0%float
             0%float 0%float None)
          Pantry.noon Extreme.keto []))
  = EvalResult.passed
      (evaluateItem
         (DietRuleParams.mk
            (Examples.mkItem "Brown Rice" (Known 2%float) Grains 3%float
               2%float 45%float 5%float None)
            Pantry.noon Extreme.keto [])).
Proof.
  apply (keyword_diets_go_by_name
           (DietRuleParams.mk
              (Examples.mkItem "Brown Rice" (Known 2%float) Grains 3%float
                 2%float 45%float 5%float None)
              Pantry.noon Extreme.keto [])
           (DietRuleParams.mk
              (Examples.mkItem "BROWN RICE" Unknown Grains 0%float 0%float
                 0%float 0%float None)
              Pantry.noon Extreme.keto [])
           KETO_RESTRICTED); reflexivity.
Defined.

(** X6. A profile on intermittent fasting that has no fasting window passes
    the evaluation at every time, with no message and no warning. *)
Theorem fasting_without_window_passes (p : DietRuleParams.t) :
  UserProfile.dietType (DietRuleParams.profile p) = IntermittentFasting ->
  UserProfile.fastingWindow (DietRuleParams.profile p) = None ->
  evaluateItem p = EvalResult.mk true [] [].
Proof.
  intros Hd Hw. rewrite (evaluateItem_fasting p Hd).
  unfold ifFastingWindowCondition. now rewrite Hw.
Qed.

Lemma fasting_without_window_passes_witness :
  evaluateItem
    (DietRuleParams.mk Examples.testFood Pantry.noon
       (Examples.mkProfile IntermittentFasting [] None) [])
  = EvalResult.mk true [] [].
Proof.
  apply fasting_without_window_passes; reflexivity.
Defined.

(** X7. When a bound of the fasting window does not parse to a number (no
    digits where the hours or the minutes should be, or no colon), the
    fasting rule fails at every time of day: the evaluation fails with the
    fasting-window warning. *)
Theorem fasting_unparsable_window_fails (p : DietRuleParams.t)
    (window : FastingWindow.t) :
  UserProfile.dietType (DietRuleParams.profile p) = IntermittentFasting ->
  UserProfile.fastingWindow (DietRuleParams.profile p) = Some window ->
  minutesOf (FastingWindow.start window) = None
  \/ minutesOf (FastingWindow.end_ window) = None ->
  evaluateItem p = EvalResult.mk false [] [fastingMessage].
Proof.
  intros Hd Hw Hn. rewrite (evaluateItem_fasting p Hd).
  assert (C : ifFastingWindowCondition p = false).
  { unfold ifFastingWindowCondition. rewrite Hw.
    unfold JS.igtb, JS.iltb, JS.igeb.
    destruct Hn as [-> | ->].
    - destruct (minutesOf (FastingWindow.end_ window)); simpl;
        rewrite ?andb_false_r; reflexivity.
    - destruct (minutesOf (FastingWindow.start window)); reflexivity. }
  now rewrite C.
Qed.

Lemma fasting_unparsable_window_fails_witness :
  minutesOf "8pm" = None
  /\ evaluateItem
       (DietRuleParams.mk Examples.testFood Pantry.noon
          (Examples.mkProfile IntermittentFasting []
             (Some (FastingWindow.mk "8pm" "12:00"))) [])
     = EvalResult.mk false [] [fastingMessage].
Proof.
  split; [reflexivity|].
  apply (fasting_unparsable_window_fails _ (FastingWindow.mk "8pm" "12:00"));
    [reflexivity | reflexivity | left; reflexivity].
Defined.

(** X8. When the fasting window does not wrap midnight ([start <= end], as
    in 08:00 to 16:00 or 00:00 to 12:00), the fasting rule holds at no time of
    day: the evaluation fails with the fasting-window warning whatever the
    clock says. *)
Theorem fasting_same_day_window_fails (p : DietRuleParams.t)
    (window : FastingWindow.t) (start end_ : Z) :
  UserProfile.dietType (DietRuleParams.profile p) = IntermittentFasting ->
  UserProfile.fastingWindow (DietRuleParams.profile p) = Some window ->
  minutesOf (FastingWindow.start window) = Some start ->
  minutesOf (FastingWindow.end_ window) = Some end_ ->
  start <= end_ ->
  evaluateItem p = EvalResult.mk false [] [fastingMessage].
Proof.
  intros Hd Hw Hs He Hle. rewrite (evaluateItem_fasting p Hd).
  now rewrite (ifFastingWindowCondition_same_day p window start end_ Hw Hs He
                 Hle).
Qed.

Lemma fasting_same_day_window_fails_witness :
  evaluateItem
    (DietRuleParams.mk Examples.testFood (Examples.clock 0 18 30)
       (Examples.mkProfile IntermittentFasting []
          (Some (FastingWindow.mk "08:00" "16:00"))) [])
  = EvalResult.mk false [] [fastingMessage].
Proof.
  apply (fasting_same_day_window_fails _ (FastingWindow.mk "08:00" "16:00")
           480 960); [reflexivity | reflexivity | reflexivity | reflexivity|].
  lia.
Defined.

(* ================================================================== *)
(** ** Further properties of the scorer and the ranker *)

Section RankerMore.
Variables (profile : UserProfile.t).
Variables (todayHistory : list DietaryHistoryEntry.t) (currentTime : JS.Date).

Lemma suggestionFor_item item :
  MealSuggestion.item (suggestionFor profile todayHistory currentTime item)
  = item.
Proof. reflexivity. Qed.

Lemma considerItem_eq suggestions item :
  considerItem profile todayHistory currentTime suggestions item
  = (suggestions
     ++ if isSuggested profile todayHistory currentTime item
        then [suggestionFor profile todayHistory currentTime item]
        else [])%list.
Proof.
  unfold considerItem, isSuggested, outOfStock, scoreOf, suggestionFor.
  destruct (match InventoryItem.quantity item with
            | Known q => PrimFloat.leb q 0%float
            | Unknown => false
            end); simpl; [now rewrite app_nil_r|].
  destruct (FoodCategory_beq (InventoryItem.category item) Condiments);
    simpl; [now rewrite app_nil_r|].
  destruct (20 <=? _); [reflexivity | now rewrite app_nil_r].
Qed.

Lemma fold_considerItem_eq inventory : forall suggestions,
  fold_left (considerItem profile todayHistory currentTime) inventory
    suggestions
  = (suggestions
     ++ map (suggestionFor profile todayHistory currentTime)
          (filter (isSuggested profile todayHistory currentTime) inventory))%list.
Proof.
  induction inventory as [|item inventory IH]; intros suggestions; simpl.
  - now rewrite app_nil_r.
  - rewrite IH, considerItem_eq, <- app_assoc.
    now destruct (isSuggested profile todayHistory currentTime item).
Qed.

(** The array before the sort: one suggestion per suggested item, in
    inventory order. *)
Lemma collectSuggestions_eq inventory :
  collectSuggestions inventory profile todayHistory currentTime
  = map (suggestionFor profile todayHistory currentTime)
      (filter (isSuggested profile todayHistory currentTime) inventory).
Proof. unfold collectSuggestions. now rewrite fold_considerItem_eq. Qed.

Lemma generateSuggestions_eq inventory :
  generateSuggestions inventory profile todayHistory currentTime
  = JS.sort byScoreDesc
      (map (suggestionFor profile todayHistory currentTime)
         (filter (isSuggested profile todayHistory currentTime) inventory)).
Proof. unfold generateSuggestions. now rewrite collectSuggestions_eq. Qed.

Lemma generateSuggestions_In_iff inventory s :
  In s (generateSuggestions inventory profile todayHistory currentTime) <->
  exists item,
    In item inventory
    /\ isSuggested profile todayHistory currentTime item = true
    /\ s = suggestionFor profile todayHistory currentTime item.
Proof.
  rewrite generateSuggestions_eq. split.
  - intros H.
    apply (Permutation_in _ (Permutation_sym
                               (sort_perm MealSuggestion.score _))) in H.
    apply in_map_iff in H. destruct H as (item & <- & H).
    apply filter_In in H. exists item. tauto.
  - intros (item & Hin & Hs & ->).
    apply (Permutation_in _ (sort_perm MealSuggestion.score _)).
    apply in_map, filter_In. auto.
Qed.

Lemma generateSuggestions_sorted inventory :
  StronglySorted (fun a b => MealSuggestion.score a >= MealSuggestion.score b)
    (generateSuggestions inventory profile todayHistory currentTime).
Proof. apply (sort_sorted MealSuggestion.score). Qed.
End RankerMore.

Lemma StronglySorted_app_dominates {A} (R : A -> A -> Prop) (l1 l2 : list A) :
  StronglySorted R (l1 ++ l2) ->
  forall a b, In a l1 -> In b l2 -> R a b.
Proof.
  induction l1 as [|x l1 IH]; simpl; intros H a b Ha Hb; [destruct Ha|].
  apply StronglySorted_inv in H. destruct H as [Hs Hf].
  destruct Ha as [<-|Ha].
  - rewrite Forall_forall in Hf. apply Hf, in_or_app. now right.
  - now apply IH.
Qed.

Lemma sliceTo_prefix {A} (end_ : Z) (l : list A) :
  exists rest,
    l = (Builtins.sliceTo end_ l ++ rest)%list
    /\ (0 <= end_ ->
        List.length (Builtins.sliceTo end_ l)
        = Nat.min (Z.to_nat end_) (List.length l))
    /\ (end_ < 0 ->
        List.length (Builtins.sliceTo end_ l)
        = (List.length l - Z.to_nat (- end_))%nat).
Proof.
  unfold Builtins.sliceTo. destruct (end_ <? 0) eqn:E.
  - apply Z.ltb_lt in E.
    exists (skipn (Z.to_nat (Z.of_nat (List.length l) + end_)) l).
    split; [now rewrite firstn_skipn|]. split; [lia|]. intros _.
    rewrite length_firstn. lia.
  - apply Z.ltb_ge in E. exists (skipn (Z.to_nat end_) l).
    split; [now rewrite firstn_skipn|]. split; [|lia]. intros _.
    now rewrite length_firstn.
Qed.

(** X9. [getTopSuggestions] returns a prefix of the ranked list: the first
    [count] suggestions when there are that many, all of them otherwise (and
    all but the last [-count] for a negative [count]). Every suggestion it
    leaves out scores no more than every suggestion it returns. *)
Theorem getTopSuggestions_prefix (inventory : list InventoryItem.t)
    (profile : UserProfile.t) (todayHistory : list DietaryHistoryEntry.t)
    (count : Z) (currentTime : JS.Date) :
  let ranked :=
    generateSuggestions inventory profile todayHistory currentTime in
  let top :=
    getTopSuggestions inventory profile todayHistory count currentTime in
  exists rest,
    ranked = (top ++ rest)%list
    /\ (forall a b, In a top -> In b rest ->
                    MealSuggestion.score a >= MealSuggestion.score b)
    /\ (0 <= count ->
        List.length top = Nat.min (Z.to_nat count) (List.length ranked))
    /\ (count < 0 ->
        List.length top = (List.length ranked - Z.to_nat (- count))%nat).
Proof.
  intros ranked top. unfold top, getTopSuggestions. fold ranked.
  destruct (sliceTo_prefix count ranked) as (rest & E & Hpos & Hneg).
  exists rest. split; [exact E|]. split; [|split; assumption].
  apply (StronglySorted_app_dominates
           (fun a b => MealSuggestion.score a >= MealSuggestion.score b)).
  rewrite <- E. apply generateSuggestions_sorted.
Qed.

Lemma getTopSuggestions_prefix_witness :
  List.length (getTopSuggestions Pantry.shelf Pantry.profile [] 1 Pantry.noon)
  = 1%nat.
Proof.
  destruct (getTopSuggestions_prefix Pantry.shelf Pantry.profile [] 1
              Pantry.noon) as (rest & _ & _ & H & _).
  rewrite H; [reflexivity | lia].
Defined.

Lemma find_map_key {A B} (f : B -> bool) (g : A -> B) (l : list A) :
  find f (map g l) = option_map g (find (fun x => f (g x)) l).
Proof.
  induction l as [|x l IH]; simpl; [reflexivity|].
  now destruct (f (g x)).
Qed.

Lemma find_filter {A} (f g : A -> bool) (l : list A) :
  find f (filter g l) = find (fun x => g x && f x) l.
Proof.
  induction l as [|x l IH]; simpl; [reflexivity|].
  destruct (g x); simpl; [now destruct (f x) | exact IH].
Qed.

Lemma getQuickSuggestion_head inventory profile todayHistory currentTime :
  getQuickSuggestion inventory profile todayHistory currentTime
  = match generateSuggestions inventory profile todayHistory currentTime with
    | s :: _ => Some s
    | [] => None
    end.
Proof.
  unfold getQuickSuggestion, getTopSuggestions, Builtins.sliceTo. simpl.
  now destruct (generateSuggestions inventory profile todayHistory currentTime).
Qed.

(** X10. [getQuickSuggestion] answers [null] exactly when no item of the
    inventory is suggested, so on an empty inventory. Otherwise it answers the
    suggestion of an inventory item whose score no suggested item exceeds,
    and among the suggested items with that score the one that comes first in
    the inventory. *)
Theorem getQuickSuggestion_best (inventory : list InventoryItem.t)
    (profile : UserProfile.t) (todayHistory : list DietaryHistoryEntry.t)
    (currentTime : JS.Date) :
  let quick :=
    getQuickSuggestion inventory profile todayHistory currentTime in
  (quick = None <->
     forall item, In item inventory ->
                  isSuggested profile todayHistory currentTime item = false)
  /\ getQuickSuggestion [] profile todayHistory currentTime = None
  /\ (forall s,
        quick = Some s ->
        s = suggestionFor profile todayHistory currentTime
              (MealSuggestion.item s)
        /\ (forall item,
              In item inventory ->
              isSuggested profile todayHistory currentTime item = true ->
              scoreOf profile todayHistory currentTime item
              <= MealSuggestion.score s)
        /\ find (fun item =>
                   isSuggested profile todayHistory currentTime item
                   && (scoreOf profile todayHistory currentTime item
                       =? MealSuggestion.score s))
                inventory
           = Some (MealSuggestion.item s)).
Proof.
  intros quick. unfold quick. rewrite getQuickSuggestion_head.
  split; [|split; [reflexivity|]].
  - split.
    + intros H item Hin.
      destruct (isSuggested profile todayHistory currentTime item) eqn:S;
        [|reflexivity].
      assert (I : In (suggestionFor profile todayHistory currentTime item)
                     (generateSuggestions inventory profile todayHistory
                        currentTime))
        by (apply generateSuggestions_In_iff; eauto).
      destruct (generateSuggestions inventory profile todayHistory currentTime);
        [destruct I | discriminate H].
    + intros H.
      destruct (generateSuggestions inventory profile todayHistory currentTime)
        as [|s l] eqn:E; [reflexivity|].
      assert (I : In s (generateSuggestions inventory profile todayHistory
                          currentTime)) by (rewrite E; now left).
      apply generateSuggestions_In_iff in I.
      destruct I as (item & Hin & Hs & _). rewrite (H item Hin) in Hs.
      discriminate Hs.
  - intros s H.
    destruct (generateSuggestions inventory profile todayHistory currentTime)
      as [|s0 l] eqn:E; [discriminate H|]. injection H as ->.
    assert (I : In s (generateSuggestions inventory profile todayHistory
                        currentTime)) by (rewrite E; now left).
    apply generateSuggestions_In_iff in I.
    destruct I as (item0 & Hin0 & Hs0 & Es).
    pose proof (generateSuggestions_sorted profile todayHistory currentTime
                  inventory) as Sorted.
    rewrite E in Sorted. apply StronglySorted_inv in Sorted.
    destruct Sorted as [_ Dom]. rewrite Forall_forall in Dom.
    split; [|split].
    + rewrite Es. reflexivity.
    + intros item Hin Hs.
      assert (I : In (suggestionFor profile todayHistory currentTime item)
                     (s :: l))
        by (rewrite <- E; apply generateSuggestions_In_iff; eauto).
      destruct I as [Eq|I].
      { rewrite Eq.
        change (MealSuggestion.score
                  (suggestionFor profile todayHistory currentTime item))
          with (scoreOf profile todayHistory currentTime item).
        lia. }
      apply Dom in I.
      change (MealSuggestion.score
                (suggestionFor profile todayHistory currentTime item))
        with (scoreOf profile todayHistory currentTime item) in I.
      lia.
    + pose proof (sort_stable MealSuggestion.score (MealSuggestion.score s)
                    (collectSuggestions inventory profile todayHistory
                       currentTime)) as St.
      fold byScoreDesc in St.
      change (JS.sort byScoreDesc
                (collectSuggestions inventory profile todayHistory currentTime))
        with (generateSuggestions inventory profile todayHistory currentTime)
        in St.
      rewrite E in St. simpl in St. rewrite Z.eqb_refl in St.
      apply (f_equal (fun l => match l with [] => None | x :: _ => Some x end))
        in St.
      rewrite hd_filter_find, collectSuggestions_eq, find_map_key, find_filter
        in St.
      simpl in St.
      change (fun x => isSuggested profile todayHistory currentTime x
                       && (MealSuggestion.score
                             (suggestionFor profile todayHistory currentTime x)
                           =? MealSuggestion.score s))
        with (fun item => isSuggested profile todayHistory currentTime item
                          && (scoreOf profile todayHistory currentTime item
                              =? MealSuggestion.score s)) in St.
      destruct (find _ inventory) as [item|]; [|discriminate St].
      simpl in St. injection St as St. rewrite St. reflexivity.
Qed.

Lemma getQuickSuggestion_best_witness :
  getQuickSuggestion [Pantry.ketchup; Pantry.emptyItem] Pantry.profile []
    Pantry.noon = None.
Proof.
  apply (proj2 (proj1 (getQuickSuggestion_best
                         [Pantry.ketchup; Pantry.emptyItem] Pantry.profile []
                         Pantry.noon))).
  intros item [<-|[<-|[]]]; reflexivity.
Defined.

Section SortFilter.
Context {A : Type} (key : A -> Z) (keep : A -> bool).

Lemma insert_front x l :
  Forall (fun z => key z <= key x) l ->
  JS.insert (fun a b => key b - key a) x l = x :: l.
Proof.
  intros H. destruct l as [|y l]; simpl; [reflexivity|].
  apply Forall_inv in H.
  destruct (key x - key y <? 0) eqn:C; [|reflexivity].
  apply Z.ltb_lt in C. lia.
Qed.

Lemma insert_filter x l :
  StronglySorted (fun a b => key a >= key b) l ->
  filter keep (JS.insert (fun a b => key b - key a) x l)
  = if keep x then JS.insert (fun a b => key b - key a) x (filter keep l)
    else filter keep l.
Proof.
  induction 1 as [|y l Hs IH Hy]; simpl.
  - now destruct (keep x).
  - destruct (key x - key y <? 0) eqn:C; simpl.
    + rewrite IH. destruct (keep y), (keep x); simpl; rewrite ?C; reflexivity.
    + apply Z.ltb_ge in C. destruct (keep x); [|reflexivity].
      symmetry. apply insert_front.
      assert (F : Forall (fun z => key z <= key x) (y :: l)).
      { constructor; [lia|]. eapply Forall_impl; [|exact Hy].
        simpl. intros z Hz. lia. }
      apply Forall_forall. intros z Hz.
      rewrite Forall_forall in F. apply F.
      change (In z (filter keep (y :: l))) in Hz.
      now apply filter_In in Hz.
Qed.

(** Filtering the sorted array gives the sorted filtered array. *)
Lemma sort_filter l :
  filter keep (JS.sort (fun a b => key b - key a) l)
  = JS.sort (fun a b => key b - key a) (filter keep l).
Proof.
  induction l as [|x l IH]; simpl; [reflexivity|].
  rewrite insert_filter by apply sort_sorted.
  rewrite IH. now destruct (keep x).
Qed.
End SortFilter.

Lemma filter_map_swap {A B} (f : A -> bool) (g : A -> B) (h : B -> A)
    (l : list A) :
  (forall x, h (g x) = x) ->
  filter (fun y => f (h y)) (map g l) = map g (filter f l).
Proof.
  intros H. induction l as [|x l IH]; simpl; [reflexivity|].
  rewrite H, IH. now destruct (f x).
Qed.

Lemma filter_comm {A} (f g : A -> bool) (l : list A) :
  filter f (filter g l) = filter g (filter f l).
Proof.
  induction l as [|x l IH]; simpl; [reflexivity|].
  destruct (f x) eqn:F, (g x) eqn:G; simpl; rewrite ?F, ?G, IH; reflexivity.
Qed.

Lemma filter_none {A} (f : A -> bool) (l : list A) :
  (forall x, In x l -> f x = false) -> filter f l = [].
Proof.
  induction l as [|x l IH]; simpl; intros H; [reflexivity|].
  rewrite (H x) by now left. apply IH. intros y Hy. apply H. now right.
Qed.

(** X11. [getSuggestionsByCategory] gives the same list as
    [generateSuggestions] run on the items of that category alone: the score
    of an item does not depend on the rest of the inventory and the ranking
    keeps its order under the filter. For [condiments] the list is always
    empty. *)
Theorem getSuggestionsByCategory_restricts (inventory : list InventoryItem.t)
    (profile : UserProfile.t) (todayHistory : list DietaryHistoryEntry.t)
    (category : FoodCategory) (currentTime : JS.Date) :
  getSuggestionsByCategory inventory profile todayHistory category currentTime
  = generateSuggestions
      (filter (fun item =>
                 FoodCategory_beq (InventoryItem.category item) category)
              inventory)
      profile todayHistory currentTime
  /\ getSuggestionsByCategory inventory profile todayHistory Condiments
       currentTime = [].
Proof.
  assert (G : forall c,
             getSuggestionsByCategory inventory profile todayHistory c
               currentTime
             = generateSuggestions
                 (filter (fun item =>
                            FoodCategory_beq (InventoryItem.category item) c)
                         inventory)
                 profile todayHistory currentTime).
  { intros c. unfold getSuggestionsByCategory.
    rewrite !generateSuggestions_eq. unfold byScoreDesc.
    rewrite (sort_filter MealSuggestion.score).
    rewrite (filter_map_swap
               (fun item => FoodCategory_beq (InventoryItem.category item) c)
               (suggestionFor profile todayHistory currentTime)
               MealSuggestion.item)
      by reflexivity.
    now rewrite filter_comm. }
  split; [apply G|].
  rewrite G, generateSuggestions_eq.
  rewrite filter_none; [reflexivity|].
  intros item H. apply filter_In in H. destruct H as [_ H].
  unfold isSuggested. rewrite H. simpl. now rewrite andb_false_r.
Qed.

Section StepsMore.
Variables (item : InventoryItem.t) (profile : UserProfile.t).
Variables (todayHistory : list DietaryHistoryEntry.t) (currentTime : JS.Date).

Lemma ruleStep_delta :
  delta (ruleStep item profile todayHistory currentTime)
  = if EvalResult.passed
         (evaluateItem
            (DietRuleParams.mk item currentTime profile todayHistory))
    then 20 else -40.
Proof. unfold delta, ruleStep. now destruct (EvalResult.passed _). Qed.

Lemma limitStep_delta :
  delta (limitStep item profile todayHistory)
  = if LimitResult.fits
         (checkDailyLimits item todayHistory (UserProfile.dietType profile))
    then 0 else -30.
Proof. unfold delta, limitStep. now destruct (LimitResult.fits _). Qed.

Lemma glucoseStep_no_goal :
  existsb (DietaryGoal_beq GlucoseStability) (UserProfile.dietaryGoals profile)
  = false ->
  delta (glucoseStep item profile) = 0.
Proof. intros H. unfold delta, glucoseStep. now rewrite H. Qed.

Lemma expirationStep_expired s :
  isExpired currentTime item = true ->
  expirationStep item currentTime s
  = pushWarnings [expiredWarning] (addScore (-100) s).
Proof.
  unfold isExpired, expirationStep, daysUntilExpiry.
  destruct (InventoryItem.expirationDate item) as [[ms|]|];
    try discriminate.
  intros H. apply Z.leb_le in H. simpl.
  replace (Qle_bool (Qmake (ms - JS.getTime currentTime) 86400000) 0)
    with true; [reflexivity|].
  symmetry. apply Qle_bool_iff. unfold Qle. simpl. lia.
Qed.

Lemma ruleStep_warnings s :
  ScoreResult.warnings (ruleStep item profile todayHistory currentTime s)
  = (ScoreResult.warnings s
     ++ pushed (ruleStep item profile todayHistory currentTime))%list
  /\ pushed (ruleStep item profile todayHistory currentTime)
     = let evaluation :=
         evaluateItem
           (DietRuleParams.mk item currentTime profile todayHistory) in
       if EvalResult.passed evaluation then []
       else EvalResult.warnings evaluation.
Proof.
  unfold pushed, ruleStep.
  destruct (EvalResult.passed _); simpl; [now rewrite app_nil_r | auto].
Qed.

Lemma limitStep_warnings s :
  ScoreResult.warnings (limitStep item profile todayHistory s)
  = (ScoreResult.warnings s ++ pushed (limitStep item profile todayHistory))%list
  /\ pushed (limitStep item profile todayHistory)
     = let limit :=
         checkDailyLimits item todayHistory (UserProfile.dietType profile) in
       if LimitResult.fits limit then [] else LimitResult.warnings limit.
Proof.
  unfold pushed, limitStep.
  destruct (LimitResult.fits _); simpl; [now rewrite app_nil_r | auto].
Qed.

Lemma expirationStep_warnings s :
  ScoreResult.warnings (expirationStep item currentTime s)
  = (ScoreResult.warnings s ++ pushed (expirationStep item currentTime))%list
  /\ (pushed (expirationStep item currentTime) = []
      \/ pushed (expirationStep item currentTime) = [expiredWarning]).
Proof.
  unfold pushed, expirationStep.
  destruct (InventoryItem.expirationDate item) as [e|]; simpl;
    [|now rewrite app_nil_r; auto].
  destruct (daysUntilExpiry e currentTime) as [days|]; simpl;
    [|now rewrite app_nil_r; auto].
  destruct (Qle_bool days 0); simpl; [auto|].
  destruct (Qle_bool days 2); simpl; [now rewrite app_nil_r; auto|].
  destruct (Qle_bool days 5); simpl; now rewrite app_nil_r; auto.
Qed.

Lemma laterSteps_warnings s :
  ScoreResult.warnings
    (quantityStep item
       (varietyStep item todayHistory
          (timingStep item currentTime (glucoseStep item profile s))))
  = ScoreResult.warnings s.
Proof.
  unfold quantityStep, varietyStep, timingStep, glucoseStep.
  repeat match goal with
         | |- context [match ?c with _ => _ end] => destruct c; simpl
         end; reflexivity.
Qed.

(** The warnings of the score: those of the rules when they fail, those of
    the limits when they do not fit, and the expiry warning. *)
Lemma accumulate_warnings :
  ScoreResult.warnings (accumulate item profile todayHistory currentTime)
  = (pushed (ruleStep item profile todayHistory currentTime)
     ++ pushed (limitStep item profile todayHistory)
     ++ pushed (expirationStep item currentTime))%list.
Proof.
  unfold accumulate. rewrite laterSteps_warnings.
  rewrite (proj1 (expirationStep_warnings _)), (proj1 (limitStep_warnings _)),
    (proj1 (ruleStep_warnings _)).
  simpl. now rewrite app_assoc.
Qed.
End StepsMore.

(** X12. An item that has expired is suggested only to a profile with the
    glucose-stability goal, and only when it passes the rules and fits the
    daily limits; its score is then between 20 and 25 and the suggestion
    carries the warning "This item has expired". So expired items are not
    filtered out: the -100 can be made up by the other terms. *)
Theorem expired_item_rarely_suggested (inventory : list InventoryItem.t)
    (profile : UserProfile.t) (todayHistory : list DietaryHistoryEntry.t)
    (currentTime : JS.Date) (s : MealSuggestion.t) :
  In s (generateSuggestions inventory profile todayHistory currentTime) ->
  isExpired currentTime (MealSuggestion.item s) = true ->
  existsb (DietaryGoal_beq GlucoseStability) (UserProfile.dietaryGoals profile)
  = true
  /\ EvalResult.passed
       (evaluateItem
          (DietRuleParams.mk (MealSuggestion.item s) currentTime profile
             todayHistory)) = true
  /\ LimitResult.fits
       (checkDailyLimits (MealSuggestion.item s) todayHistory
          (UserProfile.dietType profile)) = true
  /\ 20 <= MealSuggestion.score s <= 25
  /\ In expiredWarning (MealSuggestion.warnings s).
Proof.
  intros Hin Hx. apply generateSuggestions_In_iff in Hin.
  destruct Hin as (item & _ & Hs & ->). simpl in Hx.
  unfold isSuggested in Hs. apply andb_true_iff in Hs.
  destruct Hs as [_ Hs]. apply Z.leb_le in Hs. unfold scoreOf in Hs.
  change (MealSuggestion.item
            (suggestionFor profile todayHistory currentTime item)) with item.
  change (MealSuggestion.score
            (suggestionFor profile todayHistory currentTime item))
    with (ScoreResult.score
            (calculateSuggestionScore item profile todayHistory currentTime)).
  change (MealSuggestion.warnings
            (suggestionFor profile todayHistory currentTime item))
    with (ScoreResult.warnings
            (accumulate item profile todayHistory currentTime)).
  change (ScoreResult.score
            (calculateSuggestionScore item profile todayHistory currentTime))
    with (Z.max 0 (Z.min 100
                     (ScoreResult.score
                        (accumulate item profile todayHistory currentTime))))
    in *.
  rewrite accumulate_score in *.
  rewrite ruleStep_delta, limitStep_delta in *.
  assert (X : delta (expirationStep item currentTime) = -100).
  { unfold delta. now rewrite (expirationStep_expired item currentTime _ Hx). }
  rewrite X in *.
  set (z := ScoreResult.mk 0 [] []).
  destruct (glucoseStep_score item profile z) as [_ H4].
  destruct (timingStep_score item currentTime z) as [_ H5].
  destruct (varietyStep_score item todayHistory z) as [_ H6].
  destruct (quantityStep_score item z) as [_ H7].
  split; [|split; [|split; [|split]]].
  - destruct (existsb _ _) eqn:G; [reflexivity|].
    rewrite (glucoseStep_no_goal item profile G) in Hs.
    destruct (EvalResult.passed _), (LimitResult.fits _); lia.
  - destruct (EvalResult.passed _); [reflexivity|].
    destruct (LimitResult.fits _); lia.
  - destruct (LimitResult.fits _); [reflexivity|].
    destruct (EvalResult.passed _); lia.
  - destruct (EvalResult.passed _), (LimitResult.fits _); lia.
  - rewrite accumulate_warnings. apply in_or_app. right.
    apply in_or_app. right. unfold pushed.
    rewrite (expirationStep_expired item currentTime _ Hx). simpl. now left.
Qed.

Lemma expired_item_rarely_suggested_witness :
  In expiredWarning
     (MealSuggestion.warnings
        (suggestionFor Stale.profile [] Stale.afternoon Stale.nuts))
  /\ MealSuggestion.score
       (suggestionFor Stale.profile [] Stale.afternoon Stale.nuts) = 25.
Proof.
  split; [|reflexivity].
  apply (expired_item_rarely_suggested [Stale.nuts] Stale.profile []
           Stale.afternoon
           (suggestionFor Stale.profile [] Stale.afternoon Stale.nuts)).
  - vm_compute. auto.
  - reflexivity.
Defined.

(** X13. The warnings of a score are the rule warnings when the evaluation
    fails, then the limit warnings when the item does not fit, then the
    expiry warning. When the evaluation passes, the warnings it computed are
    dropped: on the high-protein diet, which always passes and has no carbs
    ceiling, the sequencing warning never reaches a score, whose only
    possible warning is the expiry one. *)
Theorem passing_evaluation_drops_warnings (item : InventoryItem.t)
    (profile : UserProfile.t) (todayHistory : list DietaryHistoryEntry.t)
    (currentTime : JS.Date) :
  let evaluation :=
    evaluateItem (DietRuleParams.mk item currentTime profile todayHistory) in
  let limit :=
    checkDailyLimits item todayHistory (UserProfile.dietType profile) in
  let result :=
    calculateSuggestionScore item profile todayHistory currentTime in
  ScoreResult.warnings result
  = ((if EvalResult.passed evaluation then []
      else EvalResult.warnings evaluation)
     ++ (if LimitResult.fits limit then [] else LimitResult.warnings limit)
     ++ pushed (expirationStep item currentTime))%list
  /\ (pushed (expirationStep item currentTime) = []
      \/ pushed (expirationStep item currentTime) = [expiredWarning])
  /\ (UserProfile.dietType profile = HighProtein ->
      (ScoreResult.warnings result = []
       \/ ScoreResult.warnings result = [expiredWarning])
      /\ ~ In sequencingMessage (ScoreResult.warnings result)).
Proof.
  intros evaluation limit result.
  assert (W : ScoreResult.warnings result
              = ((if EvalResult.passed evaluation then []
                  else EvalResult.warnings evaluation)
                 ++ (if LimitResult.fits limit then []
                     else LimitResult.warnings limit)
                 ++ pushed (expirationStep item currentTime))%list).
  { unfold result, calculateSuggestionScore. simpl ScoreResult.warnings.
    rewrite accumulate_warnings.
    rewrite (proj2 (ruleStep_warnings item profile todayHistory currentTime
                      (ScoreResult.mk 0 [] []))).
    now rewrite (proj2 (limitStep_warnings item profile todayHistory
                          (ScoreResult.mk 0 [] []))). }
  pose proof (proj2 (expirationStep_warnings item currentTime
                       (ScoreResult.mk 0 [] []))) as X.
  split; [exact W|]. split; [exact X|].
  intros Hd. rewrite W. unfold evaluation, limit, evaluateItem, evaluateItemWith.
  rewrite (proj1 (evaluateRules_fields _ _)).
  simpl DietRuleParams.profile. rewrite Hd. simpl.
  destruct X as [-> | ->]; split; auto.
  intros [H|[]]. discriminate H.
Qed.

Lemma passing_evaluation_drops_warnings_witness :
  EvalResult.warnings (evaluateItem Examples.steakAfterRiceThenEggs)
  = [sequencingMessage]
  /\ ~ In sequencingMessage
       (ScoreResult.warnings
          (calculateSuggestionScore Examples.steak
             (Examples.mkProfile HighProtein [MuscleGain] None)
             [Examples.rice; Examples.eggs] (Examples.clock 3 13 0))).
Proof.
  split; [reflexivity|].
  apply (passing_evaluation_drops_warnings Examples.steak
           (Examples.mkProfile HighProtein [MuscleGain] None)
           [Examples.rice; Examples.eggs] (Examples.clock 3 13 0)).
  reflexivity.
Defined.

Lemma join_nonempty (sep r : string) (rs : list string) :
  r <> "" -> JS.join sep (r :: rs) <> "".
Proof.
  intros H. unfold JS.join. simpl.
  destruct rs; [exact H|].
  destruct r; [contradiction | discriminate].
Qed.

Lemma dietRules_messages_nonempty :
  Forall (fun rule => DietRule.message rule <> "") dietRules.
Proof. repeat constructor; discriminate. Qed.

Lemma evaluateItemWith_messages (keep : string -> Prop) table params :
  Forall (fun rule => keep (DietRule.message rule)) table ->
  Forall keep (EvalResult.messages (evaluateItemWith table params)).
Proof.
  intros F. unfold evaluateItemWith.
  rewrite (proj1 (proj2 (evaluateRules_fields params _))).
  apply Forall_forall. intros m H. apply in_map_iff in H.
  destruct H as (rule & <- & H). apply filter_In in H. destruct H as [H _].
  unfold rulesForDiet in H. apply filter_In in H. destruct H as [H _].
  rewrite Forall_forall in F. now apply F.
Qed.

Lemma evaluateItem_messages_nonempty params :
  Forall (fun m => m <> "") (EvalResult.messages (evaluateItem params)).
Proof.
  exact (evaluateItemWith_messages (fun m => m <> "") dietRules params
           dietRules_messages_nonempty).
Qed.

Lemma accumulate_reasons_nonempty item profile todayHistory currentTime :
  Forall (fun r => r <> "")
    (ScoreResult.reasons (accumulate item profile todayHistory currentTime)).
Proof.
  unfold accumulate.
  set (s0 := ScoreResult.mk 50 [] []).
  assert (H0 : Forall (fun r => r <> "") (ScoreResult.reasons s0))
    by constructor.
  set (s1 := ruleStep item profile todayHistory currentTime s0).
  assert (H1 : Forall (fun r => r <> "") (ScoreResult.reasons s1)).
  { unfold s1, ruleStep. destruct (EvalResult.passed _); simpl; [|exact H0].
    apply evaluateItem_messages_nonempty. }
  set (s2 := limitStep item profile todayHistory s1).
  assert (H2 : Forall (fun r => r <> "") (ScoreResult.reasons s2)).
  { unfold s2, limitStep. now destruct (LimitResult.fits _). }
  set (s3 := expirationStep item currentTime s2).
  assert (H3 : Forall (fun r => r <> "") (ScoreResult.reasons s3)).
  { unfold s3, expirationStep.
    destruct (InventoryItem.expirationDate item) as [e|]; [|exact H2].
    destruct (daysUntilExpiry e currentTime) as [days|]; [|exact H2].
    destruct (Qle_bool days 0); [exact H2|].
    destruct (Qle_bool days 2); [|destruct (Qle_bool days 5); [|exact H2]];
      simpl; apply Forall_app; split; try exact H2;
      constructor; [discriminate | constructor | discriminate | constructor]. }
  set (s4 := glucoseStep item profile s3).
  assert (H4 : Forall (fun r => r <> "") (ScoreResult.reasons s4)).
  { unfold s4, glucoseStep.
    destruct (existsb _ _); [|exact H3].
    destruct (InventoryItem.glycemicIndex item) as [gi|];
      [destruct (PrimFloat.leb gi 55)|];
      destruct (JS.geb (InventoryItem.fiberG item) 3%float);
      destruct (JS.geb (InventoryItem.proteinG item) 10%float
                && PrimFloat.leb (InventoryItem.carbsG item) 10%float);
      simpl; rewrite ?Forall_app; repeat split; try exact H3;
      repeat constructor; discriminate. }
  set (s5 := timingStep item currentTime s4).
  assert (H5 : Forall (fun r => r <> "") (ScoreResult.reasons s5)).
  { unfold s5, timingStep.
    match goal with |- context [if ?c then _ else _] => destruct c end;
      [|exact H4].
    simpl. apply Forall_app. split; [exact H4|].
    repeat constructor; discriminate. }
  unfold quantityStep, varietyStep.
  repeat match goal with
         | |- context [match ?c with _ => _ end] => destruct c; simpl
         end; exact H5.
Qed.

(** X14. Every suggestion returned by [generateSuggestions] has a non-empty
    reason: the reasons collected for the item joined by ". ", or "Available
    in your pantry" when there is none. *)
Theorem suggestion_reason_nonempty (inventory : list InventoryItem.t)
    (profile : UserProfile.t) (todayHistory : list DietaryHistoryEntry.t)
    (currentTime : JS.Date) (s : MealSuggestion.t) :
  In s (generateSuggestions inventory profile todayHistory currentTime) ->
  MealSuggestion.reason s <> ""
  /\ (ScoreResult.reasons
        (calculateSuggestionScore (MealSuggestion.item s) profile todayHistory
           currentTime) = [] ->
      MealSuggestion.reason s = "Available in your pantry").
Proof.
  intros H. apply generateSuggestions_In_iff in H.
  destruct H as (item & _ & _ & ->).
  unfold suggestionFor. simpl.
  pose proof (accumulate_reasons_nonempty item profile todayHistory
                currentTime) as F.
  destruct (ScoreResult.reasons
              (accumulate item profile todayHistory currentTime))
    as [|r rs].
  - split; [discriminate | reflexivity].
  - split; [|discriminate].
    change (JS.join ". " (r :: rs) <> ""). apply join_nonempty.
    now apply Forall_inv in F.
Qed.

Lemma suggestion_reason_nonempty_witness :
  MealSuggestion.reason
    (suggestionFor Stale.profile [] Stale.afternoon Stale.nuts) <> "".
Proof.
  apply (suggestion_reason_nonempty [Stale.nuts] Stale.profile []
           Stale.afternoon).
  vm_compute. auto.
Defined.

(* ================================================================== *)
(** ** Properties of the history and inventory hooks *)

Lemma sliceLast_length {A} (n : nat) (l : list A) :
  List.length (JS.sliceLast n l) = Nat.min n (List.length l).
Proof. unfold JS.sliceLast. rewrite length_skipn. lia. Qed.

Lemma sliceLast_suffix {A} (n : nat) (l : list A) :
  l = (firstn (List.length l - n) l ++ JS.sliceLast n l)%list.
Proof. unfold JS.sliceLast. now rewrite firstn_skipn. Qed.

Lemma sliceLast_all {A} (n : nat) (l : list A) :
  (List.length l <= n)%nat -> JS.sliceLast n l = l.
Proof.
  intros H. unfold JS.sliceLast.
  replace (List.length l - n)%nat with 0%nat by lia. reflexivity.
Qed.

Lemma sliceLast_snoc {A} (n : nat) (l : list A) (x : A) :
  JS.sliceLast (S n) (l ++ [x]) = (JS.sliceLast n l ++ [x])%list.
Proof.
  unfold JS.sliceLast. rewrite length_app. simpl.
  replace (List.length l + 1 - S n)%nat with (List.length l - n)%nat by lia.
  rewrite skipn_app.
  replace (List.length l - n - List.length l)%nat with 0%nat by lia.
  reflexivity.
Qed.

(** X15. After [logConsumption] the stored history is the 99 most recent
    earlier entries, in order, followed by the new entry: nothing is dropped
    while the history has fewer than 100 entries, then the oldest go first,
    and the history never exceeds 100 entries. When the cookie write throws,
    the history is left as it was. *)
Theorem logConsumption_retention (id : string) (now : Z)
    (item : InventoryItem.t) (quantityConsumed : JS.num)
    (ruleViolations : list string) (glucoseRelevant : bool)
    (history : list DietaryHistoryEntry.t) :
  let entry :=
    Hooks.consumptionEntry id now item quantityConsumed ruleViolations
      glucoseRelevant in
  let logged stored :=
    Hooks.logConsumption id now stored item quantityConsumed ruleViolations
      glucoseRelevant history in
  logged true = ((JS.sliceLast 99 history ++ [entry])%list, entry)
  /\ logged false = (history, entry)
  /\ List.length (fst (logged true))
     = Nat.min 100 (List.length history + 1)
  /\ (exists dropped,
        history = (dropped ++ JS.sliceLast 99 history)%list
        /\ List.length dropped = (List.length history - 99)%nat)
  /\ ((List.length history < 100)%nat ->
      fst (logged true) = (history ++ [entry])%list)
  /\ (forall stored,
        (List.length history <= 100)%nat ->
        (List.length (fst (logged stored)) <= 100)%nat).
Proof.
  intros entry logged.
  assert (T : logged true = ((JS.sliceLast 99 history ++ [entry])%list, entry)).
  { unfold logged, Hooks.logConsumption, Hooks.saveHistory,
      Hooks.MAX_HISTORY_ENTRIES.
    fold entry. now rewrite sliceLast_snoc. }
  split; [exact T|]. split; [reflexivity|]. rewrite T. cbn [fst].
  split; [rewrite length_app, sliceLast_length; cbn [List.length]; lia|].
  split.
  - exists (firstn (List.length history - 99) history).
    split; [apply sliceLast_suffix|]. rewrite length_firstn. lia.
  - split.
    + intros H. rewrite sliceLast_all by lia. reflexivity.
    + intros [|] H; [rewrite T|]; cbn [fst]; [|exact H].
      rewrite length_app, sliceLast_length. cbn [List.length]. lia.
Qed.

Lemma logConsumption_retention_witness :
  fst (Hooks.logConsumption "h2" 5 true Examples.steak 1%float [] false
         [Examples.rice; Examples.eggs])
  = [Examples.rice; Examples.eggs;
     Hooks.consumptionEntry "h2" 5 Examples.steak 1%float [] false].
Proof.
  apply (logConsumption_retention "h2" 5 Examples.steak 1%float [] false
           [Examples.rice; Examples.eggs]).
  simpl. lia.
Defined.







Section ReduceQuantity.
Variables (stored : bool) (now : Z) (id : string).


End ReduceQuantity.



(* ================================================================== *)
(** ** Properties of the cookie splitting *)

Lemma take_drop (n : nat) (s : string) :
  Cookies.take n s ++ Cookies.drop n s = s.
Proof.
  revert s. induction n as [|n IH]; intros [|c s]; simpl; try reflexivity.
  now rewrite IH.
Qed.

Lemma length_drop (n : nat) (s : string) :
  String.length (Cookies.drop n s) = (String.length s - n)%nat.
Proof.
  revert s. induction n as [|n IH]; intros [|c s]; simpl; try reflexivity.
  apply IH.
Qed.

Lemma length_take (n : nat) (s : string) :
  String.length (Cookies.take n s) = Nat.min n (String.length s).
Proof.
  revert s. induction n as [|n IH]; intros [|c s]; simpl; try reflexivity.
  now rewrite IH.
Qed.

Lemma length_zero_empty (s : string) : String.length s = 0%nat -> s = "".
Proof. destruct s; [reflexivity | discriminate]. Qed.

Lemma append_empty_r (s : string) : s ++ "" = s.
Proof. induction s as [|c s IH]; simpl; [reflexivity | now rewrite IH]. Qed.

Lemma append_assoc (a b c : string) : (a ++ b) ++ c = a ++ (b ++ c).
Proof. induction a as [|x a IH]; simpl; [reflexivity | now rewrite IH]. Qed.

Lemma append_inj_l (a b c : string) : a ++ b = a ++ c -> b = c.
Proof.
  induction a as [|x a IH]; simpl; intros H; [exact H|].
  injection H as H. now apply IH.
Qed.

Lemma MAX_COOKIE_SIZE_pos : (0 < Cookies.MAX_COOKIE_SIZE)%nat.
Proof. unfold Cookies.MAX_COOKIE_SIZE. lia. Qed.

(** *** Printing a count and reading it back *)

Lemma digitsPrefix_uint (d : Decimal.uint) : forall acc,
  JS.digitsPrefix 10 (NilEmpty.string_of_uint d) (Some (Z.pos acc))
  = Some (Z.pos (Pos.of_uint_acc d acc)).
Proof.
  induction d; intros acc;
    cbn [NilEmpty.string_of_uint JS.digitsPrefix Pos.of_uint_acc];
    [reflexivity|..];
    match goal with
    | |- context [JS.digitValue 10 ?c] =>
        let v := eval vm_compute in (JS.digitValue 10 c) in
        change (JS.digitValue 10 c) with v
    end;
    cbv iota beta; rewrite <- IHd; do 2 f_equal; lia.
Qed.

Lemma digitsPrefix_uint_zero (d : Decimal.uint) :
  JS.digitsPrefix 10 (NilEmpty.string_of_uint d) (Some 0)
  = Some (Z.of_N (Pos.of_uint d)).
Proof.
  induction d;
    cbn [NilEmpty.string_of_uint JS.digitsPrefix Pos.of_uint];
    [reflexivity|..];
    match goal with
    | |- context [JS.digitValue 10 ?c] =>
        let v := eval vm_compute in (JS.digitValue 10 c) in
        change (JS.digitValue 10 c) with v
    end;
    cbv iota beta; [exact IHd|..]; apply (digitsPrefix_uint d).
Qed.

Lemma parseInt10_uint (d : Decimal.uint) :
  d <> Decimal.Nil ->
  Cookies.parseInt10 (NilEmpty.string_of_uint d)
  = Some (Z.of_N (Pos.of_uint d)).
Proof.
  intros H.
  assert (E : Cookies.parseInt10 (NilEmpty.string_of_uint d)
              = option_map (Z.mul 1)
                  (JS.digitsPrefix 10 (NilEmpty.string_of_uint d) (Some 0))).
  { destruct d; [contradiction|..]; reflexivity. }
  rewrite E, digitsPrefix_uint_zero. cbn [option_map]. f_equal.
  apply Z.mul_1_l.
Qed.

Lemma parseInt10_toString (n : nat) :
  Cookies.parseInt10 (JS.toString (Z.of_nat n)) = Some (Z.of_nat n).
Proof.
  unfold JS.toString. destruct (Z.of_nat n) as [|p|p] eqn:E; [reflexivity| |lia].
  simpl.
  assert (N : Pos.to_uint p <> Decimal.Nil).
  { intros C. pose proof (DecimalPos.Unsigned.of_to p) as R.
    rewrite C in R. discriminate R. }
  assert (S : NilZero.string_of_uint (Pos.to_uint p)
              = NilEmpty.string_of_uint (Pos.to_uint p)).
  { revert N. unfold NilZero.string_of_uint.
    destruct (Pos.to_uint p); intros N; [congruence|..]; reflexivity. }
  rewrite S, (parseInt10_uint _ N), DecimalPos.Unsigned.of_to. reflexivity.
Qed.

Lemma toString_inj (a b : nat) :
  JS.toString (Z.of_nat a) = JS.toString (Z.of_nat b) -> a = b.
Proof.
  intros H. apply (f_equal Cookies.parseInt10) in H.
  rewrite !parseInt10_toString in H. injection H as H. lia.
Qed.

Lemma toString_nonempty (n : nat) :
  (0 <? String.length (JS.toString (Z.of_nat n)))%nat = true.
Proof.
  pose proof (parseInt10_toString n) as H.
  destruct (JS.toString (Z.of_nat n)); [discriminate H | reflexivity].
Qed.

(** *** The loop of [splitIntoCookies] *)

Lemma splitLoop_numbered (name : string) :
  forall fuel remaining index cookies,
  (0 < index)%nat ->
  Cookies.splitLoop fuel name remaining index cookies
  = (cookies ++ numberedParts name index (chunks fuel remaining))%list.
Proof.
  induction fuel as [|fuel IH]; intros remaining index cookies Hi;
    cbn [Cookies.splitLoop chunks].
  - cbn [numberedParts]. now rewrite app_nil_r.
  - destruct (0 <? String.length remaining)%nat.
    + rewrite IH by lia.
      assert (E : (0 <? index)%nat = true) by (apply Nat.ltb_lt; lia).
      rewrite E, orb_true_r. cbn [numberedParts].
      rewrite <- app_assoc. reflexivity.
    + cbn [numberedParts]. now rewrite app_nil_r.
Qed.

Lemma chunks_concat :
  forall fuel remaining,
  (String.length remaining <= fuel)%nat ->
  fold_right String.append "" (chunks fuel remaining) = remaining.
Proof.
  induction fuel as [|fuel IH]; intros remaining H; cbn [chunks].
  - cbn [fold_right]. symmetry. apply length_zero_empty. lia.
  - destruct (0 <? String.length remaining)%nat eqn:E.
    + cbn [fold_right]. rewrite IH; [apply take_drop|].
      rewrite length_drop. apply Nat.ltb_lt in E.
      pose proof MAX_COOKIE_SIZE_pos. lia.
    + cbn [fold_right]. symmetry. apply length_zero_empty.
      apply Nat.ltb_ge in E. lia.
Qed.

Lemma chunks_sizes :
  forall fuel remaining,
  Forall (fun p => (0 < String.length p <= Cookies.MAX_COOKIE_SIZE)%nat)
    (chunks fuel remaining).
Proof.
  induction fuel as [|fuel IH]; intros remaining; cbn [chunks];
    [constructor|].
  destruct (0 <? String.length remaining)%nat eqn:E; constructor;
    [|apply IH].
  rewrite length_take. apply Nat.ltb_lt in E.
  pose proof MAX_COOKIE_SIZE_pos. lia.
Qed.

Lemma splitLoop_single (name data : string) (fuel : nat) :
  (0 < fuel)%nat ->
  (0 < String.length data)%nat ->
  String.length (Cookies.drop Cookies.MAX_COOKIE_SIZE data) = 0%nat ->
  Cookies.splitLoop fuel name data 0 [] = [Cookies.mkCookie name data].
Proof.
  intros Hf Hd Hr. destruct fuel as [|fuel]; [lia|].
  cbn [Cookies.splitLoop].
  apply Nat.ltb_lt in Hd. rewrite Hd, Hr.
  pose proof (take_drop Cookies.MAX_COOKIE_SIZE data) as T.
  rewrite (length_zero_empty _ Hr), append_empty_r in T. rewrite T.
  rewrite (length_zero_empty _ Hr).
  destruct fuel; reflexivity.
Qed.

Lemma splitLoop_several (name data : string) (fuel : nat) :
  (String.length data <= fuel)%nat ->
  (0 < String.length (Cookies.drop Cookies.MAX_COOKIE_SIZE data))%nat ->
  Cookies.splitLoop fuel name data 0 []
  = numberedParts name 0 (chunks fuel data)
  /\ (1 < List.length (chunks fuel data))%nat.
Proof.
  intros Hf Hr. pose proof Hr as Hl. rewrite length_drop in Hl.
  destruct fuel as [|fuel]; [lia|].
  cbn [Cookies.splitLoop chunks].
  assert (Hd : (0 <? String.length data)%nat = true)
    by (apply Nat.ltb_lt; lia).
  rewrite Hd. pose proof Hr as Hr'. apply Nat.ltb_lt in Hr'. rewrite Hr'.
  cbn [orb]. rewrite splitLoop_numbered by lia.
  split; [reflexivity|].
  destruct fuel as [|fuel]; [pose proof MAX_COOKIE_SIZE_pos; lia|].
  cbn [chunks]. rewrite Hr'. cbn [List.length]. lia.
Qed.

(** *** Reading the cookies back *)

Lemma partName_inj (name : string) (i j : nat) :
  Cookies.partName name i = Cookies.partName name j -> i = j.
Proof.
  unfold Cookies.partName. intros H.
  apply append_inj_l in H. injection H as H. now apply toString_inj.
Qed.

Lemma countName_partName (name : string) (i : nat) :
  Cookies.countName name <> Cookies.partName name i.
Proof.
  unfold Cookies.countName, Cookies.partName. intros H.
  apply append_inj_l in H. injection H as H.
  apply (f_equal Cookies.parseInt10) in H.
  rewrite parseInt10_toString in H. discriminate H.
Qed.

Lemma name_countName (name : string) : name <> Cookies.countName name.
Proof.
  unfold Cookies.countName. intros H.
  rewrite <- (append_empty_r name) in H at 1.
  apply append_inj_l in H. discriminate H.
Qed.

Lemma lookup_numberedParts (name : string) :
  forall parts i j,
  Cookies.lookup (numberedParts name i parts) (Cookies.partName name (i + j))
  = nth_error parts j.
Proof.
  unfold Cookies.lookup.
  induction parts as [|p parts IH]; intros i j; cbn [numberedParts find].
  - now destruct j.
  - cbn [Cookies.name]. destruct j as [|j].
    + rewrite Nat.add_0_r, String.eqb_refl. reflexivity.
    + assert (N : String.eqb (Cookies.partName name i)
                    (Cookies.partName name (i + S j)) = false).
      { apply String.eqb_neq. intros C. apply partName_inj in C. lia. }
      rewrite N. replace (i + S j)%nat with (S i + j)%nat by lia.
      apply IH.
Qed.

Lemma readParts_all (name : string) (getCookieFn : string -> option string) :
  forall parts i data,
  (forall j, getCookieFn (Cookies.partName name (i + j)) = nth_error parts j) ->
  Cookies.readParts name getCookieFn (List.length parts) i data
  = Some (data ++ fold_right String.append "" parts).
Proof.
  induction parts as [|p parts IH]; intros i data H;
    cbn [List.length Cookies.readParts fold_right].
  - now rewrite append_empty_r.
  - pose proof (H 0%nat) as H0. rewrite Nat.add_0_r in H0. rewrite H0.
    cbn [nth_error]. rewrite IH; [now rewrite append_assoc|].
    intros j. replace (S i + j)%nat with (i + S j)%nat by lia.
    apply (H (S j)).
Qed.

Lemma numberedParts_length (name : string) :
  forall parts i, List.length (numberedParts name i parts) = List.length parts.
Proof.
  induction parts as [|p parts IH]; intros i; cbn [numberedParts List.length];
    [reflexivity | now rewrite IH].
Qed.

Lemma numberedParts_values (name : string) (P : string -> Prop) :
  forall parts i,
  Forall P parts ->
  Forall (fun c => P (Cookies.value c)) (numberedParts name i parts).
Proof.
  induction parts as [|p parts IH]; intros i H; cbn [numberedParts];
    [constructor|].
  inversion H; subst. constructor; [assumption | now apply IH].
Qed.

(** X18. Reading back what [splitIntoCookies] stored, from a jar that holds
    exactly those cookies, gives the data again, whatever its length and
    whatever the cookie's name; only the empty string is lost: no cookie is
    written for it and [reconstructFromCookies] answers [undefined]. *)
Theorem cookies_round_trip (name data : string) :
  Cookies.reconstructFromCookies name
    (Cookies.lookup (Cookies.splitIntoCookies name data))
  = match data with
    | EmptyString => None
    | String _ _ => Some data
    end.
Proof.
  destruct (0 <? String.length data)%nat eqn:D.
  - apply Nat.ltb_lt in D.
    destruct (0 <? String.length
                (Cookies.drop Cookies.MAX_COOKIE_SIZE data))%nat eqn:R.
    + apply Nat.ltb_lt in R.
      destruct (splitLoop_several name data (String.length data)
                  (le_n _) R) as [E L].
      unfold Cookies.splitIntoCookies.
      rewrite E, numberedParts_length.
      apply Nat.ltb_lt in L. rewrite L.
      set (parts := chunks (String.length data) data).
      set (count := JS.toString (Z.of_nat (List.length parts))).
      set (jar := Cookies.mkCookie (Cookies.countName name) count
                  :: numberedParts name 0 parts).
      assert (C : Cookies.lookup jar (Cookies.countName name) = Some count).
      { unfold Cookies.lookup, jar. cbn [find Cookies.name].
        now rewrite String.eqb_refl. }
      assert (P : forall j,
                 Cookies.lookup jar (Cookies.partName name (0 + j))
                 = nth_error parts j).
      { intros j. rewrite <- (lookup_numberedParts name parts 0 j).
        unfold Cookies.lookup, jar. cbn [find Cookies.name].
        destruct (String.eqb_spec (Cookies.countName name)
                    (Cookies.partName name (0 + j))) as [X|X];
          [now apply countName_partName in X | reflexivity]. }
      unfold Cookies.reconstructFromCookies. rewrite C.
      unfold count at 1. rewrite toString_nonempty.
      unfold count. rewrite parseInt10_toString, Nat2Z.id.
      rewrite (readParts_all name _ parts 0 "" P).
      unfold parts. rewrite chunks_concat by lia.
      destruct data; [inversion D | reflexivity].
    + apply Nat.ltb_ge in R.
      assert (R0 : String.length
                (Cookies.drop Cookies.MAX_COOKIE_SIZE data) = 0%nat) by lia.
      unfold Cookies.splitIntoCookies.
      rewrite (splitLoop_single name data _ D D R0).
      cbn [List.length Nat.ltb Nat.leb].
      unfold Cookies.reconstructFromCookies, Cookies.lookup.
      cbn [find Cookies.name].
      destruct (String.eqb_spec name (Cookies.countName name)) as [X|X];
        [now apply name_countName in X|].
      cbn [option_map]. rewrite String.eqb_refl. cbn [option_map Cookies.value].
      destruct data; [inversion D | reflexivity].
  - destruct data; [reflexivity | discriminate D].
Qed.

(** X19. Every cookie [splitIntoCookies] writes for the data itself holds
    between 1 and [MAX_COOKIE_SIZE] characters; the only other cookie is the
    count. *)
Theorem cookies_within_size (name data : string) :
  Forall (fun c =>
            Cookies.name c = Cookies.countName name
            \/ (0 < String.length (Cookies.value c)
                <= Cookies.MAX_COOKIE_SIZE)%nat)
    (Cookies.splitIntoCookies name data).
Proof.
  unfold Cookies.splitIntoCookies.
  assert (A : Forall (fun c =>
                 Cookies.name c = Cookies.countName name
                 \/ (0 < String.length (Cookies.value c)
                     <= Cookies.MAX_COOKIE_SIZE)%nat)
                (Cookies.splitLoop (String.length data) name data 0 [])).
  { destruct (0 <? String.length data)%nat eqn:D.
    - apply Nat.ltb_lt in D.
      destruct (0 <? String.length
                  (Cookies.drop Cookies.MAX_COOKIE_SIZE data))%nat eqn:R.
      + apply Nat.ltb_lt in R.
        destruct (splitLoop_several name data (String.length data)
                    (le_n _) R) as [E _].
        rewrite E.
        eapply Forall_impl;
          [|apply (numberedParts_values name _ _ 0%nat (chunks_sizes _ _))].
        intros c Hc. right. exact Hc.
      + apply Nat.ltb_ge in R. rewrite length_drop in R.
        rewrite (splitLoop_single name data _ D D)
          by (rewrite length_drop; lia).
        constructor; [|constructor]. right. cbn [Cookies.value]. lia.
    - destruct data; [constructor | discriminate D]. }
  destruct (1 <? List.length _)%nat; [constructor|]; auto.
Qed.

(* ================================================================== *)
(** ** Properties of the CSV reader *)

Lemma occurs_append (c : ascii) (a b : string) :
  occurs c (a ++ b) = (occurs c a + occurs c b)%nat.
Proof.
  induction a as [|x a IH]; cbn [append occurs]; [reflexivity|].
  rewrite IH. lia.
Qed.

Lemma trimStart_occurs (c : ascii) (s : string) :
  (occurs c (JS.trimStart s) <= occurs c s)%nat.
Proof.
  induction s as [|x s IH]; cbn [JS.trimStart occurs]; [lia|].
  destruct (JS.isWhiteSpace x); cbn [occurs]; lia.
Qed.

Lemma trimEnd_occurs (c : ascii) (s : string) :
  (occurs c (CsvParser.trimEnd s) <= occurs c s)%nat.
Proof.
  induction s as [|x s IH]; cbn [CsvParser.trimEnd occurs]; [lia|].
  destruct (CsvParser.trimEnd s) as [|y t].
  - destruct (JS.isWhiteSpace x); cbn [occurs] in *; lia.
  - cbn [occurs] in *. lia.
Qed.

Lemma trim_occurs (c : ascii) (s : string) :
  occurs c s = 0%nat -> occurs c (CsvParser.trim s) = 0%nat.
Proof.
  intros H. unfold CsvParser.trim.
  pose proof (trimEnd_occurs c (JS.trimStart s)).
  pose proof (trimStart_occurs c s). lia.
Qed.

Lemma trimStart_idem (s : string) :
  JS.trimStart (JS.trimStart s) = JS.trimStart s.
Proof.
  induction s as [|x s IH]; cbn [JS.trimStart]; [reflexivity|].
  destruct (JS.isWhiteSpace x) eqn:W; [exact IH|].
  cbn [JS.trimStart]. now rewrite W.
Qed.

Lemma trimEnd_idem (s : string) :
  CsvParser.trimEnd (CsvParser.trimEnd s) = CsvParser.trimEnd s.
Proof.
  induction s as [|x s IH]; cbn [CsvParser.trimEnd]; [reflexivity|].
  destruct (CsvParser.trimEnd s) as [|y t] eqn:E.
  - destruct (JS.isWhiteSpace x) eqn:W; cbn [CsvParser.trimEnd];
      [reflexivity | now rewrite W].
  - change (CsvParser.trimEnd (String x (String y t)))
      with (match CsvParser.trimEnd (String y t) with
            | EmptyString =>
                if JS.isWhiteSpace x then EmptyString
                else String x EmptyString
            | r => String x r
            end).
    now rewrite IH.
Qed.

(** Trimming the end of a string that starts with a character to keep leaves
    that start. *)
Lemma trimStart_trimEnd (s : string) :
  JS.trimStart s = s ->
  JS.trimStart (CsvParser.trimEnd s) = CsvParser.trimEnd s.
Proof.
  destruct s as [|x s]; [reflexivity|].
  cbn [JS.trimStart]. destruct (JS.isWhiteSpace x) eqn:W.
  - intros H. exfalso.
    assert (L : forall r, (String.length (JS.trimStart r)
                           <= String.length r)%nat).
    { induction r as [|y r IH]; cbn [JS.trimStart String.length]; [lia|].
      destruct (JS.isWhiteSpace y); cbn [String.length]; lia. }
    pose proof (L s) as Ls. rewrite H in Ls. cbn [String.length] in Ls. lia.
  - intros _. cbn [CsvParser.trimEnd].
    destruct (CsvParser.trimEnd s); rewrite ?W; cbn [JS.trimStart];
      now rewrite W.
Qed.

Lemma trim_idem (s : string) :
  CsvParser.trim (CsvParser.trim s) = CsvParser.trim s.
Proof.
  unfold CsvParser.trim.
  rewrite (trimStart_trimEnd _ (trimStart_idem s)). apply trimEnd_idem.
Qed.

Lemma parseCSVLineLoop_fields (P : string -> Prop) :
  (forall s, occurs CsvParser.quoteChar s = 0%nat -> P (CsvParser.trim s)) ->
  forall line result current inQuotes,
  occurs CsvParser.quoteChar current = 0%nat ->
  Forall P result ->
  Forall P (CsvParser.parseCSVLineLoop line result current inQuotes).
Proof.
  intros HP.
  induction line as [|char rest IH]; intros result current inQuotes Hc Hr;
    cbn [CsvParser.parseCSVLineLoop].
  - apply Forall_app. split; [assumption|]. constructor; auto.
  - destruct (Ascii.eqb char CsvParser.quoteChar) eqn:Q; [now apply IH|].
    destruct (Ascii.eqb char "," && negb inQuotes).
    + apply IH; [reflexivity|]. apply Forall_app. split; [assumption|].
      constructor; auto.
    + apply IH; [|assumption]. rewrite occurs_append. cbn [occurs].
      rewrite Q. lia.
Qed.

Lemma parseCSVLineLoop_nonempty :
  forall line result current inQuotes,
  CsvParser.parseCSVLineLoop line result current inQuotes <> [].
Proof.
  induction line as [|char rest IH]; intros result current inQuotes;
    cbn [CsvParser.parseCSVLineLoop].
  - now destruct result.
  - destruct (Ascii.eqb char CsvParser.quoteChar); [apply IH|].
    destruct (Ascii.eqb char "," && negb inQuotes); apply IH.
Qed.

(** X20. Whatever the line, [parseCSVLine] gives at least one field, and no
    field holds a double quote or starts or ends with white space: quotes only
    switch the reading mode and are never copied, a doubled quote included. *)
Theorem parseCSVLine_fields (line : string) :
  CsvParser.parseCSVLine line <> []
  /\ Forall (fun field =>
               occurs CsvParser.quoteChar field = 0%nat
               /\ CsvParser.trim field = field)
       (CsvParser.parseCSVLine line).
Proof.
  split; [apply parseCSVLineLoop_nonempty|].
  apply parseCSVLineLoop_fields; [|reflexivity|constructor].
  intros s H. split; [now apply trim_occurs | apply trim_idem].
Qed.

Lemma parseCSVLineLoop_copies :
  forall field rest result current inQuotes,
  occurs CsvParser.quoteChar field = 0%nat ->
  (inQuotes = false -> occurs "," field = 0%nat) ->
  CsvParser.parseCSVLineLoop (field ++ rest) result current inQuotes
  = CsvParser.parseCSVLineLoop rest result (current ++ field) inQuotes.
Proof.
  induction field as [|char field IH];
    intros rest result current inQuotes Hq Hc.
  - now rewrite append_empty_r.
  - cbn [append CsvParser.parseCSVLineLoop]. cbn [occurs] in Hq, Hc.
    destruct (Ascii.eqb char CsvParser.quoteChar) eqn:Q; [discriminate Hq|].
    assert (C : Ascii.eqb char "," && negb inQuotes = false).
    { destruct inQuotes; [apply andb_false_r|].
      destruct (Ascii.eqb char ","); [now specialize (Hc eq_refl)|].
      reflexivity. }
    rewrite C, IH.
    + now rewrite append_assoc.
    + exact Hq.
    + intros E. specialize (Hc E). destruct (Ascii.eqb char ","); [|exact Hc].
      discriminate Hc.
Qed.

Lemma parseCSVLineLoop_written (quoted : bool) (field rest : string)
    (result : list string) (current : string) :
  occurs CsvParser.quoteChar field = 0%nat ->
  (quoted = false -> occurs "," field = 0%nat) ->
  CsvParser.parseCSVLineLoop (written quoted field ++ rest) result current
    false
  = CsvParser.parseCSVLineLoop rest result (current ++ field) false.
Proof.
  intros Hq Hc. destruct quoted; unfold written.
  - cbn [append]. rewrite append_assoc. cbn [append].
    cbn [CsvParser.parseCSVLineLoop]. rewrite Ascii.eqb_refl. cbn [negb].
    rewrite parseCSVLineLoop_copies by (auto; discriminate).
    cbn [CsvParser.parseCSVLineLoop]. now rewrite Ascii.eqb_refl.
  - now apply parseCSVLineLoop_copies.
Qed.

Lemma parseCSVLineLoop_reads :
  forall (fields : list (bool * string)) (result : list string),
  fields <> [] ->
  Forall (fun qf =>
            occurs CsvParser.quoteChar (snd qf) = 0%nat
            /\ CsvParser.trim (snd qf) = snd qf
            /\ (fst qf = false -> occurs "," (snd qf) = 0%nat)) fields ->
  CsvParser.parseCSVLineLoop
    (JS.join "," (map (fun qf => written (fst qf) (snd qf)) fields))
    result "" false
  = (result ++ map snd fields)%list.
Proof.
  induction fields as [|[quoted field] fields IH]; intros result N H;
    [contradiction|].
  inversion H as [|? ? (Hq & Ht & Hc) H']; subst. cbn [fst snd] in *.
  destruct fields as [|qf fields].
  - cbn [map JS.join String.concat fst snd].
    rewrite <- (append_empty_r (written quoted field)).
    rewrite parseCSVLineLoop_written by assumption.
    cbn [CsvParser.parseCSVLineLoop append]. now rewrite Ht.
  - change (JS.join "," (map (fun qf => written (fst qf) (snd qf))
                           ((quoted, field) :: qf :: fields)))
      with (written quoted field
            ++ String ","
                 (JS.join ","
                    (map (fun qf => written (fst qf) (snd qf))
                       (qf :: fields)))).
    rewrite parseCSVLineLoop_written by assumption.
    cbn [CsvParser.parseCSVLineLoop append].
    change (Ascii.eqb "," CsvParser.quoteChar) with false.
    rewrite Ascii.eqb_refl. cbn [andb negb].
    rewrite IH by (auto; discriminate).
    rewrite Ht, <- app_assoc. reflexivity.
Qed.

(** X21. Reading back a line of fields: when the fields (at least one) are
    joined by commas, each written bare or between double quotes,
    [parseCSVLine] returns exactly the fields, provided no field holds a
    double quote, starts or ends with white space, or, if written bare, holds
    a comma. A quoted field may hold commas. *)
Theorem parseCSVLine_reads_fields (fields : list (bool * string)) :
  fields <> [] ->
  Forall (fun qf =>
            occurs CsvParser.quoteChar (snd qf) = 0%nat
            /\ CsvParser.trim (snd qf) = snd qf
            /\ (fst qf = false -> occurs "," (snd qf) = 0%nat)) fields ->
  CsvParser.parseCSVLine
    (JS.join "," (map (fun qf => written (fst qf) (snd qf)) fields))
  = map snd fields.
Proof.
  intros N H. unfold CsvParser.parseCSVLine.
  now rewrite parseCSVLineLoop_reads.
Qed.

Lemma parseCSVLine_reads_fields_witness :
  CsvParser.parseCSVLine
    (JS.join ","
       (map (fun qf => written (fst qf) (snd qf))
          [(false, "Almonds"); (true, "1, heaped"); (false, "cup")]))
  = ["Almonds"; "1, heaped"; "cup"].
Proof.
  apply (parseCSVLine_reads_fields
           [(false, "Almonds"); (true, "1, heaped"); (false, "cup")]).
  - discriminate.
  - repeat constructor; discriminate.
Defined.

(* ================================================================== *)
(** ** Properties of the inventory merge *)

Lemma findIndex_Some {A : Type} (p : A -> bool) (d : A) :
  forall l i,
  CsvParser.findIndex p l = Some i ->
  (i < List.length l)%nat /\ p (nth i l d) = true.
Proof.
  induction l as [|x l IH]; intros i; cbn [CsvParser.findIndex];
    [discriminate|].
  destruct (p x) eqn:Px.
  - intros E. injection E as <-. cbn [List.length nth]. split; [lia | exact Px].
  - destruct (CsvParser.findIndex p l) as [j|]; [|discriminate].
    cbn [option_map]. intros E. injection E as <-.
    destruct (IH j eq_refl) as [L T]. cbn [List.length nth].
    split; [lia | exact T].
Qed.

Lemma findIndex_None {A : Type} (p : A -> bool) :
  forall l, CsvParser.findIndex p l = None -> Forall (fun x => p x = false) l.
Proof.
  induction l as [|x l IH]; cbn [CsvParser.findIndex]; [constructor|].
  destruct (p x) eqn:Px; [discriminate|].
  destruct (CsvParser.findIndex p l); [discriminate|].
  intros _. constructor; auto.
Qed.

Lemma assign_map {A B : Type} (f : A -> B) (d v : A) :
  forall l i,
  (i < List.length l)%nat ->
  f v = f (nth i l d) ->
  map f (CsvParser.assign i v l) = map f l.
Proof.
  induction l as [|x l IH]; intros i L E; [cbn [List.length] in L; lia|].
  destruct i as [|i]; cbn [CsvParser.assign map nth List.length] in *.
  - now rewrite E.
  - rewrite IH; [reflexivity | lia | exact E].
Qed.

(** One turn either updates an item in place, keeping its id and its key,
    or appends the new item, whose key was not there. *)
Lemma mergeItem_turn (now : Z) (merged : list InventoryItem.t)
    (new : CsvParser.NewItem.t) :
  let r := CsvParser.mergeItem now merged new in
  let newItem := CsvParser.NewItem.item new in
  (map mergeKey r = map mergeKey merged
   /\ map InventoryItem.id r = map InventoryItem.id merged
   /\ In (mergeKey newItem) (map mergeKey merged))
  \/ (r = (merged ++ [newItem])%list
      /\ ~ In (mergeKey newItem) (map mergeKey merged)).
Proof.
  cbv zeta. unfold CsvParser.mergeItem.
  set (newItem := CsvParser.NewItem.item new).
  set (p := fun item => String.eqb
                          (JS.toLowerCase (InventoryItem.itemName item))
                          (JS.toLowerCase (InventoryItem.itemName newItem))).
  destruct (CsvParser.findIndex p merged) as [i|] eqn:F.
  - left. destruct (findIndex_Some p newItem merged i F) as [L T].
    unfold p in T. apply String.eqb_eq in T.
    split; [|split].
    + apply (assign_map mergeKey newItem); [exact L|].
      unfold mergeKey. cbn [InventoryItem.itemName]. now rewrite T.
    + now apply (assign_map InventoryItem.id newItem).
    + unfold mergeKey at 1. rewrite <- T.
      apply (in_map mergeKey). now apply nth_In.
  - right. split; [reflexivity|].
    apply findIndex_None in F. rewrite Forall_forall in F.
    intros I. apply in_map_iff in I. destruct I as (x & E & I).
    specialize (F x I). unfold p in F. apply String.eqb_neq in F.
    apply F. exact E.
Qed.

Lemma mergeLoop_keys (clock : nat -> Z) :
  forall newItems turn merged k,
  In k (map mergeKey (CsvParser.mergeLoop clock turn newItems merged))
  <-> In k (map mergeKey merged)
      \/ In k (map (fun new => mergeKey (CsvParser.NewItem.item new))
                 newItems).
Proof.
  induction newItems as [|new newItems IH]; intros turn merged k;
    cbn [CsvParser.mergeLoop map In]; [tauto|].
  rewrite IH.
  destruct (mergeItem_turn (clock turn) merged new) as [(K & _ & I)|(R & _)];
    cbv zeta in *.
  - rewrite K. split; [tauto|]. intros [H|[<-|H]]; auto.
  - rewrite R, map_app, in_app_iff. cbn [map In]. tauto.
Qed.

Lemma mergeLoop_distinct (clock : nat -> Z) :
  forall newItems turn merged,
  NoDup (map mergeKey merged) ->
  NoDup (map mergeKey (CsvParser.mergeLoop clock turn newItems merged)).
Proof.
  induction newItems as [|new newItems IH]; intros turn merged H;
    cbn [CsvParser.mergeLoop]; [exact H|].
  apply IH.
  destruct (mergeItem_turn (clock turn) merged new) as [(K & _ & _)|(R & N)];
    cbv zeta in *.
  - now rewrite K.
  - rewrite R, map_app. cbn [map].
    apply NoDup_app; [exact H | repeat constructor; auto |].
    intros x I [<-|[]]. now apply N.
Qed.

Lemma mergeLoop_ids (clock : nat -> Z) :
  forall newItems turn merged,
  exists added,
    map InventoryItem.id (CsvParser.mergeLoop clock turn newItems merged)
    = (map InventoryItem.id merged ++ added)%list
    /\ incl added
         (map (fun new => InventoryItem.id (CsvParser.NewItem.item new))
            newItems)
    /\ (List.length added <= List.length newItems)%nat.
Proof.
  induction newItems as [|new newItems IH]; intros turn merged;
    cbn [CsvParser.mergeLoop map List.length].
  - exists []. rewrite app_nil_r.
    split; [reflexivity | split; [apply incl_refl | apply le_n]].
  - destruct (IH (S turn) (CsvParser.mergeItem (clock turn) merged new))
      as (added & E & I & L).
    destruct (mergeItem_turn (clock turn) merged new) as [(_ & K & _)|(R & _)];
      cbv zeta in *.
    + exists added. rewrite E, K.
      split; [reflexivity | split; [now apply incl_tl | lia]].
    + exists (InventoryItem.id (CsvParser.NewItem.item new) :: added).
      rewrite E, R, map_app, <- app_assoc. cbn [map app List.length].
      split; [reflexivity | split; [|lia]].
      apply incl_cons; [now left | now apply incl_tl].
Qed.

(** X22. Merging keeps the items' names distinct: when no two items of the
    inventory have the same name up to letter case, no two items of the merged
    inventory have, whatever is merged in, repeated names included. *)
Theorem mergeInventory_names_distinct (clock : nat -> Z)
    (existing : list InventoryItem.t) (newItems : list CsvParser.NewItem.t) :
  NoDup (map mergeKey existing) ->
  NoDup (map mergeKey (CsvParser.mergeInventory clock existing newItems)).
Proof. apply mergeLoop_distinct. Qed.

(** X23. Merging neither drops nor invents a name: up to letter case, the
    names of the merged inventory are those of the inventory and those of the
    new items. *)
Theorem mergeInventory_names (clock : nat -> Z)
    (existing : list InventoryItem.t) (newItems : list CsvParser.NewItem.t)
    (k : string) :
  In k (map mergeKey (CsvParser.mergeInventory clock existing newItems))
  <-> In k (map mergeKey existing)
      \/ In k (map (fun new => mergeKey (CsvParser.NewItem.item new))
                 newItems).
Proof. apply mergeLoop_keys. Qed.

(** X24. Merging keeps every item of the inventory at its place with its id:
    the ids of the merged inventory are those of the inventory, in order,
    followed by ids of new items, at most one for each new item. *)
Theorem mergeInventory_keeps_ids (clock : nat -> Z)
    (existing : list InventoryItem.t) (newItems : list CsvParser.NewItem.t) :
  exists added,
    map InventoryItem.id (CsvParser.mergeInventory clock existing newItems)
    = (map InventoryItem.id existing ++ added)%list
    /\ incl added
         (map (fun new => InventoryItem.id (CsvParser.NewItem.item new))
            newItems)
    /\ (List.length added <= List.length newItems)%nat.
Proof. apply mergeLoop_ids. Qed.

Lemma mergeInventory_names_distinct_witness :
  NoDup (map mergeKey
           (CsvParser.mergeInventory Imported.clock Pantry.shelf
              Imported.rows)).
Proof.
  apply (mergeInventory_names_distinct Imported.clock Pantry.shelf
           Imported.rows).
  vm_compute.
  repeat (constructor; [cbn [In]; intuition discriminate|]). constructor.
Defined.

(* ================================================================== *)
(** ** The inventory's expiring items and the ranker *)


